(** * Frame decoder and command encoder of the MMCM readout software

    A shallow embedding of [src/software/command.c]: the byte-stream
    decoder [data_cal] (synchronisation scanner, word assembler, frame
    state machine, hit-map accumulator, telemetry extractor) and the
    command encoder [cmd_read_datafifo], followed by the properties proved
    about them. *)

From Stdlib Require Import ZArith List Lia Bool Sorted.
Import ListNotations.
Open Scope Z_scope.

(** ** Fixed-width integers

    C integers are modelled on [Z] with the wrap-around of their type made
    explicit at every conversion. *)

Definition u8 (z : Z) : Z := z mod 2 ^ 8.
Definition u16 (z : Z) : Z := z mod 2 ^ 16.
Definition u32 (z : Z) : Z := z mod 2 ^ 32.

(** Two's-complement reading of the low 8 (resp. 32) bits.  [s32] is
    applied to the increments of the [int] counters: a signed overflow,
    which C leaves undefined, is modelled as the wrap-around of the
    machine. *)
Definition s8 (z : Z) : Z := (z + 2 ^ 7) mod 2 ^ 8 - 2 ^ 7.
Definition s32 (z : Z) : Z := (z + 2 ^ 31) mod 2 ^ 32 - 2 ^ 31.

Definition INT_MAX : Z := 2 ^ 31 - 1.
Definition INT_MIN : Z := - 2 ^ 31.

(** Plain [char] is signed or unsigned depending on the ABI (signed on
    x86 and x86-64, unsigned on ARM and PowerPC); the conversion of a byte
    value to [char] is therefore parameterised by the signedness. *)
Definition to_char (char_signed : bool) (z : Z) : Z :=
  if char_signed then s8 z else u8 z.

(** ** Arrays

    An array reached through a pointer is a map from element index to cell
    content.  A load yields the content at the width of the element type, a
    store truncates to that width. *)

Definition array : Type := Z -> Z.

Definition upd (a : array) (k v : Z) : array :=
  fun j => if j =? k then v else a j.

Definition load_u8 (a : array) (k : Z) : Z := u8 (a k).
Definition load_u16 (a : array) (k : Z) : Z := u16 (a k).
Definition load_u32 (a : array) (k : Z) : Z := u32 (a k).
Definition store_u16 (a : array) (k v : Z) : array := upd a k (u16 v).
Definition store_u32 (a : array) (k v : Z) : array := upd a k (u32 v).

(** ** The decoder's state

    The local variables of [data_cal] under their source names, the
    caller-owned objects it mutates ([maps], [maps_temp], [i2c_data] and
    the cell [*fcounter]), and two logs of its effects: the values printed
    on standard output and the indices at which [databuf] was read, most
    recent first. *)

Record state : Type := {
  w4 : Z; w3 : Z; w2 : Z; w1 : Z; w : Z;
  pdata_pre2 : Z; pdata_pre1 : Z;
  counter : Z; odd : Z;
  row : Z; column : Z; code : Z;
  hsign : Z; tsign : Z; ch : Z;
  pdata : Z;
  i2c_data_temp : array;
  maps : array; maps_temp : array; i2c_data : array;
  fcounter : Z;
  out : list Z; reads : list Z
}.

Definition set_w4 (v : Z) (s : state) : state :=
  {| w4 := v; w3 := w3 s; w2 := w2 s; w1 := w1 s; w := w s;
     pdata_pre2 := pdata_pre2 s; pdata_pre1 := pdata_pre1 s;
     counter := counter s; odd := odd s; row := row s; column := column s;
     code := code s; hsign := hsign s; tsign := tsign s; ch := ch s;
     pdata := pdata s; i2c_data_temp := i2c_data_temp s; maps := maps s;
     maps_temp := maps_temp s; i2c_data := i2c_data s;
     fcounter := fcounter s; out := out s; reads := reads s |}.

Definition set_w3 (v : Z) (s : state) : state :=
  {| w4 := w4 s; w3 := v; w2 := w2 s; w1 := w1 s; w := w s;
     pdata_pre2 := pdata_pre2 s; pdata_pre1 := pdata_pre1 s;
     counter := counter s; odd := odd s; row := row s; column := column s;
     code := code s; hsign := hsign s; tsign := tsign s; ch := ch s;
     pdata := pdata s; i2c_data_temp := i2c_data_temp s; maps := maps s;
     maps_temp := maps_temp s; i2c_data := i2c_data s;
     fcounter := fcounter s; out := out s; reads := reads s |}.

Definition set_w2 (v : Z) (s : state) : state :=
  {| w4 := w4 s; w3 := w3 s; w2 := v; w1 := w1 s; w := w s;
     pdata_pre2 := pdata_pre2 s; pdata_pre1 := pdata_pre1 s;
     counter := counter s; odd := odd s; row := row s; column := column s;
     code := code s; hsign := hsign s; tsign := tsign s; ch := ch s;
     pdata := pdata s; i2c_data_temp := i2c_data_temp s; maps := maps s;
     maps_temp := maps_temp s; i2c_data := i2c_data s;
     fcounter := fcounter s; out := out s; reads := reads s |}.

Definition set_w1 (v : Z) (s : state) : state :=
  {| w4 := w4 s; w3 := w3 s; w2 := w2 s; w1 := v; w := w s;
     pdata_pre2 := pdata_pre2 s; pdata_pre1 := pdata_pre1 s;
     counter := counter s; odd := odd s; row := row s; column := column s;
     code := code s; hsign := hsign s; tsign := tsign s; ch := ch s;
     pdata := pdata s; i2c_data_temp := i2c_data_temp s; maps := maps s;
     maps_temp := maps_temp s; i2c_data := i2c_data s;
     fcounter := fcounter s; out := out s; reads := reads s |}.

Definition set_w (v : Z) (s : state) : state :=
  {| w4 := w4 s; w3 := w3 s; w2 := w2 s; w1 := w1 s; w := v;
     pdata_pre2 := pdata_pre2 s; pdata_pre1 := pdata_pre1 s;
     counter := counter s; odd := odd s; row := row s; column := column s;
     code := code s; hsign := hsign s; tsign := tsign s; ch := ch s;
     pdata := pdata s; i2c_data_temp := i2c_data_temp s; maps := maps s;
     maps_temp := maps_temp s; i2c_data := i2c_data s;
     fcounter := fcounter s; out := out s; reads := reads s |}.

Definition set_pdata_pre2 (v : Z) (s : state) : state :=
  {| w4 := w4 s; w3 := w3 s; w2 := w2 s; w1 := w1 s; w := w s;
     pdata_pre2 := v; pdata_pre1 := pdata_pre1 s; counter := counter s;
     odd := odd s; row := row s; column := column s; code := code s;
     hsign := hsign s; tsign := tsign s; ch := ch s; pdata := pdata s;
     i2c_data_temp := i2c_data_temp s; maps := maps s;
     maps_temp := maps_temp s; i2c_data := i2c_data s;
     fcounter := fcounter s; out := out s; reads := reads s |}.

Definition set_pdata_pre1 (v : Z) (s : state) : state :=
  {| w4 := w4 s; w3 := w3 s; w2 := w2 s; w1 := w1 s; w := w s;
     pdata_pre2 := pdata_pre2 s; pdata_pre1 := v; counter := counter s;
     odd := odd s; row := row s; column := column s; code := code s;
     hsign := hsign s; tsign := tsign s; ch := ch s; pdata := pdata s;
     i2c_data_temp := i2c_data_temp s; maps := maps s;
     maps_temp := maps_temp s; i2c_data := i2c_data s;
     fcounter := fcounter s; out := out s; reads := reads s |}.

Definition set_counter (v : Z) (s : state) : state :=
  {| w4 := w4 s; w3 := w3 s; w2 := w2 s; w1 := w1 s; w := w s;
     pdata_pre2 := pdata_pre2 s; pdata_pre1 := pdata_pre1 s; counter := v;
     odd := odd s; row := row s; column := column s; code := code s;
     hsign := hsign s; tsign := tsign s; ch := ch s; pdata := pdata s;
     i2c_data_temp := i2c_data_temp s; maps := maps s;
     maps_temp := maps_temp s; i2c_data := i2c_data s;
     fcounter := fcounter s; out := out s; reads := reads s |}.

Definition set_odd (v : Z) (s : state) : state :=
  {| w4 := w4 s; w3 := w3 s; w2 := w2 s; w1 := w1 s; w := w s;
     pdata_pre2 := pdata_pre2 s; pdata_pre1 := pdata_pre1 s;
     counter := counter s; odd := v; row := row s; column := column s;
     code := code s; hsign := hsign s; tsign := tsign s; ch := ch s;
     pdata := pdata s; i2c_data_temp := i2c_data_temp s; maps := maps s;
     maps_temp := maps_temp s; i2c_data := i2c_data s;
     fcounter := fcounter s; out := out s; reads := reads s |}.

Definition set_row (v : Z) (s : state) : state :=
  {| w4 := w4 s; w3 := w3 s; w2 := w2 s; w1 := w1 s; w := w s;
     pdata_pre2 := pdata_pre2 s; pdata_pre1 := pdata_pre1 s;
     counter := counter s; odd := odd s; row := v; column := column s;
     code := code s; hsign := hsign s; tsign := tsign s; ch := ch s;
     pdata := pdata s; i2c_data_temp := i2c_data_temp s; maps := maps s;
     maps_temp := maps_temp s; i2c_data := i2c_data s;
     fcounter := fcounter s; out := out s; reads := reads s |}.

Definition set_column (v : Z) (s : state) : state :=
  {| w4 := w4 s; w3 := w3 s; w2 := w2 s; w1 := w1 s; w := w s;
     pdata_pre2 := pdata_pre2 s; pdata_pre1 := pdata_pre1 s;
     counter := counter s; odd := odd s; row := row s; column := v;
     code := code s; hsign := hsign s; tsign := tsign s; ch := ch s;
     pdata := pdata s; i2c_data_temp := i2c_data_temp s; maps := maps s;
     maps_temp := maps_temp s; i2c_data := i2c_data s;
     fcounter := fcounter s; out := out s; reads := reads s |}.

Definition set_code (v : Z) (s : state) : state :=
  {| w4 := w4 s; w3 := w3 s; w2 := w2 s; w1 := w1 s; w := w s;
     pdata_pre2 := pdata_pre2 s; pdata_pre1 := pdata_pre1 s;
     counter := counter s; odd := odd s; row := row s; column := column s;
     code := v; hsign := hsign s; tsign := tsign s; ch := ch s;
     pdata := pdata s; i2c_data_temp := i2c_data_temp s; maps := maps s;
     maps_temp := maps_temp s; i2c_data := i2c_data s;
     fcounter := fcounter s; out := out s; reads := reads s |}.

Definition set_tsign (v : Z) (s : state) : state :=
  {| w4 := w4 s; w3 := w3 s; w2 := w2 s; w1 := w1 s; w := w s;
     pdata_pre2 := pdata_pre2 s; pdata_pre1 := pdata_pre1 s;
     counter := counter s; odd := odd s; row := row s; column := column s;
     code := code s; hsign := hsign s; tsign := v; ch := ch s;
     pdata := pdata s; i2c_data_temp := i2c_data_temp s; maps := maps s;
     maps_temp := maps_temp s; i2c_data := i2c_data s;
     fcounter := fcounter s; out := out s; reads := reads s |}.

Definition set_ch (v : Z) (s : state) : state :=
  {| w4 := w4 s; w3 := w3 s; w2 := w2 s; w1 := w1 s; w := w s;
     pdata_pre2 := pdata_pre2 s; pdata_pre1 := pdata_pre1 s;
     counter := counter s; odd := odd s; row := row s; column := column s;
     code := code s; hsign := hsign s; tsign := tsign s; ch := v;
     pdata := pdata s; i2c_data_temp := i2c_data_temp s; maps := maps s;
     maps_temp := maps_temp s; i2c_data := i2c_data s;
     fcounter := fcounter s; out := out s; reads := reads s |}.

Definition set_pdata (v : Z) (s : state) : state :=
  {| w4 := w4 s; w3 := w3 s; w2 := w2 s; w1 := w1 s; w := w s;
     pdata_pre2 := pdata_pre2 s; pdata_pre1 := pdata_pre1 s;
     counter := counter s; odd := odd s; row := row s; column := column s;
     code := code s; hsign := hsign s; tsign := tsign s; ch := ch s;
     pdata := v; i2c_data_temp := i2c_data_temp s; maps := maps s;
     maps_temp := maps_temp s; i2c_data := i2c_data s;
     fcounter := fcounter s; out := out s; reads := reads s |}.

Definition set_i2c_data_temp (v : array) (s : state) : state :=
  {| w4 := w4 s; w3 := w3 s; w2 := w2 s; w1 := w1 s; w := w s;
     pdata_pre2 := pdata_pre2 s; pdata_pre1 := pdata_pre1 s;
     counter := counter s; odd := odd s; row := row s; column := column s;
     code := code s; hsign := hsign s; tsign := tsign s; ch := ch s;
     pdata := pdata s; i2c_data_temp := v; maps := maps s;
     maps_temp := maps_temp s; i2c_data := i2c_data s;
     fcounter := fcounter s; out := out s; reads := reads s |}.

Definition set_maps (v : array) (s : state) : state :=
  {| w4 := w4 s; w3 := w3 s; w2 := w2 s; w1 := w1 s; w := w s;
     pdata_pre2 := pdata_pre2 s; pdata_pre1 := pdata_pre1 s;
     counter := counter s; odd := odd s; row := row s; column := column s;
     code := code s; hsign := hsign s; tsign := tsign s; ch := ch s;
     pdata := pdata s; i2c_data_temp := i2c_data_temp s; maps := v;
     maps_temp := maps_temp s; i2c_data := i2c_data s;
     fcounter := fcounter s; out := out s; reads := reads s |}.

Definition set_maps_temp (v : array) (s : state) : state :=
  {| w4 := w4 s; w3 := w3 s; w2 := w2 s; w1 := w1 s; w := w s;
     pdata_pre2 := pdata_pre2 s; pdata_pre1 := pdata_pre1 s;
     counter := counter s; odd := odd s; row := row s; column := column s;
     code := code s; hsign := hsign s; tsign := tsign s; ch := ch s;
     pdata := pdata s; i2c_data_temp := i2c_data_temp s; maps := maps s;
     maps_temp := v; i2c_data := i2c_data s; fcounter := fcounter s;
     out := out s; reads := reads s |}.

Definition set_i2c_data (v : array) (s : state) : state :=
  {| w4 := w4 s; w3 := w3 s; w2 := w2 s; w1 := w1 s; w := w s;
     pdata_pre2 := pdata_pre2 s; pdata_pre1 := pdata_pre1 s;
     counter := counter s; odd := odd s; row := row s; column := column s;
     code := code s; hsign := hsign s; tsign := tsign s; ch := ch s;
     pdata := pdata s; i2c_data_temp := i2c_data_temp s; maps := maps s;
     maps_temp := maps_temp s; i2c_data := v; fcounter := fcounter s;
     out := out s; reads := reads s |}.

Definition set_fcounter (v : Z) (s : state) : state :=
  {| w4 := w4 s; w3 := w3 s; w2 := w2 s; w1 := w1 s; w := w s;
     pdata_pre2 := pdata_pre2 s; pdata_pre1 := pdata_pre1 s;
     counter := counter s; odd := odd s; row := row s; column := column s;
     code := code s; hsign := hsign s; tsign := tsign s; ch := ch s;
     pdata := pdata s; i2c_data_temp := i2c_data_temp s; maps := maps s;
     maps_temp := maps_temp s; i2c_data := i2c_data s; fcounter := v;
     out := out s; reads := reads s |}.

Definition set_out (v : list Z) (s : state) : state :=
  {| w4 := w4 s; w3 := w3 s; w2 := w2 s; w1 := w1 s; w := w s;
     pdata_pre2 := pdata_pre2 s; pdata_pre1 := pdata_pre1 s;
     counter := counter s; odd := odd s; row := row s; column := column s;
     code := code s; hsign := hsign s; tsign := tsign s; ch := ch s;
     pdata := pdata s; i2c_data_temp := i2c_data_temp s; maps := maps s;
     maps_temp := maps_temp s; i2c_data := i2c_data s;
     fcounter := fcounter s; out := v; reads := reads s |}.

Definition set_reads (v : list Z) (s : state) : state :=
  {| w4 := w4 s; w3 := w3 s; w2 := w2 s; w1 := w1 s; w := w s;
     pdata_pre2 := pdata_pre2 s; pdata_pre1 := pdata_pre1 s;
     counter := counter s; odd := odd s; row := row s; column := column s;
     code := code s; hsign := hsign s; tsign := tsign s; ch := ch s;
     pdata := pdata s; i2c_data_temp := i2c_data_temp s; maps := maps s;
     maps_temp := maps_temp s; i2c_data := i2c_data s;
     fcounter := fcounter s; out := out s; reads := v |}.

(** ** Commands

    [data_cal] is written as a composition of state transformers so that
    the model keeps the shape of the C text: sequencing, conditional,
    assignment of an expression over the current state, and counted
    [for] loops. *)

Definition cmd : Type := state -> state.

Definition skip : cmd := fun s => s.

Definition seq (c1 c2 : cmd) : cmd := fun s => c2 (c1 s).

Definition ite (b : state -> bool) (c1 c2 : cmd) : cmd :=
  fun s => if b s then c1 s else c2 s.

(** [with_value e k] evaluates [e] in the current state and continues
    with [k] applied to the value; an assignment is the case where [k] is
    the setter of a variable. *)
Definition with_value {A : Type} (e : state -> A) (k : A -> cmd) : cmd :=
  fun s => k (e s) s.

Definition assign {A : Type} (set : A -> cmd) (e : state -> A) : cmd :=
  with_value e set.

Notation "c1 ;; c2" := (seq c1 c2) (at level 61, right associativity).

(** [for_up n j body] runs [body j], [body (j+1)], ... [n] times;
    [for_lt lo hi body] is [for (j = lo; j < hi; j++) body]. *)
Fixpoint for_up (n : nat) (j : Z) (body : Z -> cmd) (s : state) : state :=
  match n with
  | O => s
  | S n' => for_up n' (j + 1) body (body j s)
  end.

Definition for_lt (lo hi : Z) (body : Z -> cmd) : cmd :=
  for_up (Z.to_nat (hi - lo)) lo body.

(** Typed access to the [char] staging array. *)
Definition load_char (char_signed : bool) (a : array) (k : Z) : Z :=
  to_char char_signed (a k).
Definition store_char (char_signed : bool) (a : array) (k v : Z) : array :=
  upd a k (to_char char_signed v).

(** ** [data_cal] *)

Definition datanum : Z := 20000.
Definition header : Z := 0xaaaa.
Definition tailer : Z := 0x5678.

(** The length in bytes of the raw buffer the loop walks over. *)
Definition buflen : Z := datanum * 4.

(** Lines 262-266: fetch [buf[i]] and shift the four-byte history. *)
Definition next_byte (databuf : array) (i : Z) : cmd :=
  assign set_reads (fun s => i :: reads s) ;;
  set_w (load_u8 databuf i) ;;
  assign set_w4 w3 ;;
  assign set_w3 w2 ;;
  assign set_w2 w1 ;;
  assign set_w1 w.

(** Lines 271-272: first byte of a pair. *)
Definition low_byte : cmd :=
  assign set_pdata w ;;
  set_odd 0.

(** Lines 276-280: second byte of a pair, the word is complete. *)
Definition assemble : cmd :=
  assign set_pdata (fun s => u16 (pdata s + Z.shiftl (w s) 8)) ;;
  set_odd 1 ;;
  assign set_pdata_pre2 pdata_pre1 ;;
  assign set_pdata_pre1 pdata ;;
  assign set_counter (fun s => s32 (counter s + 1)).

(** [i2c_data[k] = e]. *)
Definition set_i2c (k : Z) (e : state -> Z) : cmd :=
  assign set_i2c_data (fun s => store_u32 (i2c_data s) k (e s)).

Section Telemetry.

Variable char_signed : bool.

(** [i2c_data_temp[k]] promoted to [int]. *)
Definition staged (s : state) (k : Z) : Z :=
  load_char char_signed (i2c_data_temp s) k.

(** The expression written four times on lines 299-304. *)
Definition channel_value (s : state) : Z :=
  Z.shiftl (Z.land (staged s 6) 0x03) 8 + staged s 7.

(** Lines 305-308: the over-current report. *)
Definition overcurrent_check : cmd :=
  ite (fun s => load_u32 (i2c_data s) 6 >? 68)
    (assign set_out (fun s => out s ++ [load_u32 (i2c_data s) 6]))
    skip.

(** Lines 294-309. *)
Definition telemetry : cmd :=
  set_i2c 0 (fun s => Z.shiftl (Z.land (staged s 1) 0x0f) 16
                      + Z.shiftl (staged s 2) 8 + staged s 3) ;;
  set_i2c 1 (fun s => Z.shiftr (Z.land (staged s 1) 0x30) 4) ;;
  set_i2c 2 (fun s => Z.shiftr (Z.shiftl (staged s 4) 2
                                + Z.shiftr (staged s 5) 6) 2) ;;
  assign set_ch (fun s => Z.shiftr (Z.land (staged s 6) 0x0c) 2) ;;
  set_i2c 7 ch ;;
  ite (fun s => ch s =? 0) (set_i2c 3 channel_value)
 (ite (fun s => ch s =? 1) (set_i2c 4 channel_value)
 (ite (fun s => ch s =? 2) (set_i2c 5 channel_value)
 (ite (fun s => ch s =? 3)
    (set_i2c 6 channel_value ;; overcurrent_check)
    skip))).

End Telemetry.

(** Lines 311-323: the commit check. *)
Definition commit (framadd : Z) : cmd :=
  ite (fun s => fcounter s =? framadd)
    (set_fcounter 0 ;;
     for_lt 0 928 (fun l =>
       for_lt 0 960 (fun m =>
         assign set_maps
           (fun s => store_u16 (maps s) (l * 960 + m)
                       (load_u16 (maps_temp s) (l * 960 + m))) ;;
         assign set_maps_temp
           (fun s => store_u16 (maps_temp s) (l * 960 + m) 0))))
    skip.

(** Lines 287-323: the second consecutive terminator ends the frame. *)
Definition frame_end (char_signed : bool) (framadd : Z) : cmd :=
  set_counter 0 ;;
  set_tsign 0 ;;
  assign set_fcounter (fun s => s32 (fcounter s + 1)) ;;
  telemetry char_signed ;;
  commit framadd.

(** Lines 338-342: the bounds-checked increment of [code + 1] cells.  The
    loop bound [code + 1] is not changed by the loop body. *)
Definition record_hit : cmd :=
  ite (fun s => (column s + code s <? 960) && (row s <? 928))
    (with_value (fun s => code s + 1) (fun bound =>
       for_lt 0 bound (fun j =>
         assign set_maps_temp
           (fun s => store_u16 (maps_temp s) (row s * 960 + column s + j)
                       (load_u16 (maps_temp s) (row s * 960 + column s + j)
                        + 1)))))
    skip.

(** Lines 332-343: [pdata_pre2] read as a coordinate word. *)
Definition decode : cmd :=
  ite (fun s => negb (Z.land (pdata_pre2 s) 0x1000 =? 0))
    (assign set_row (fun s => Z.land (Z.shiftr (pdata_pre2 s) 2) 0x03ff))
    (assign set_column (fun s => Z.land (Z.shiftr (pdata_pre2 s) 2) 0x03ff) ;;
     assign set_code (fun s => Z.land (pdata_pre2 s) 0x0003) ;;
     record_hit).

(** Lines 281-345: what is done with each assembled word. *)
Definition frame_word (char_signed : bool) (framadd : Z) : cmd :=
  ite (fun s => pdata s =? tailer)
    (ite (fun s => tsign s =? 0)
       (set_tsign 1)
       (frame_end char_signed framadd))
    (set_tsign 0 ;;
     ite (fun s => counter s >? 6) decode skip).

(** Lines 353-356.  The loop is not governed by the [if] of line 351: it
    runs on every byte met while [counter] is 0. *)
Definition stage (char_signed : bool) (databuf : array) (i : Z) : cmd :=
  for_lt 0 8 (fun m =>
    ite (fun _ => i + m <? datanum * 4)
      (assign set_reads (fun s => (i + m + 1) :: reads s) ;;
       assign set_i2c_data_temp
         (fun s => store_char char_signed (i2c_data_temp s) m
                     (load_u8 databuf (i + m + 1))))
      skip).

(** Lines 350-356: looking for the synchronisation marker. *)
Definition seek (char_signed : bool) (databuf : array) (i : Z) : cmd :=
  set_odd 1 ;;
  ite (fun s => (w1 s =? 0xaa) && (w2 s =? 0xaa)
                && (w3 s =? 0xaa) && (w4 s =? 0xaa))
    (set_counter 1)
    skip ;;
  stage char_signed databuf i.

(** Lines 262-357: the body of the loop over the buffer. *)
Definition loop_body (char_signed : bool) (databuf : array) (framadd : Z)
    (i : Z) : cmd :=
  next_byte databuf i ;;
  ite (fun s => negb (counter s =? 0))
    (ite (fun s => odd s =? 1)
       low_byte
       (assemble ;; frame_word char_signed framadd))
    (seek char_signed databuf i).

(** Lines 238-258: the locals at entry.  [i2c_data_temp] is not
    initialised by the code; its content at entry is [garbage]. *)
Definition init (garbage maps0 maps_temp0 i2c_data0 : array) (fcounter0 : Z)
    : state :=
  {| w4 := 0; w3 := 0; w2 := 0; w1 := 0; w := 0;
     pdata_pre2 := 0; pdata_pre1 := 0; counter := 0; odd := 0;
     row := 0; column := 0; code := 0; hsign := 0; tsign := 0; ch := 0;
     pdata := 0x0000; i2c_data_temp := garbage;
     maps := maps0; maps_temp := maps_temp0; i2c_data := i2c_data0;
     fcounter := fcounter0; out := []; reads := [] |}.

(** [run n i] is [n] iterations of the loop from index [i]. *)
Definition run (char_signed : bool) (databuf : array) (framadd : Z)
    (n : nat) (i : Z) : cmd :=
  for_up n i (loop_body char_signed databuf framadd).

(** Lines 234-360.  The arguments are the memory behind [databuf],
    [maps], [maps_temp] and [i2c_data], the content of [*fcounter] and
    [framadd]; [musk] is not used by the function.  The result is the state
    at the end of the loop, from which the caller's [maps], [maps_temp],
    [i2c_data] and [*fcounter] are read. *)
Definition data_cal (char_signed : bool) (garbage : array)
    (databuf maps0 maps_temp0 i2c_data0 : array) (fcounter0 framadd : Z)
    : state :=
  for_lt 0 (datanum * 4) (loop_body char_signed databuf framadd)
    (init garbage maps0 maps_temp0 i2c_data0 fcounter0).


(** ** [cmd_read_datafifo]

    The host representation of a 32-bit word as four bytes in memory, at
    increasing addresses, and the word read back from four bytes.  The
    byte order of the host is a parameter. *)

Definition bytes_be (x : Z) : list Z :=
  [Z.land (Z.shiftr x 24) 0xff; Z.land (Z.shiftr x 16) 0xff;
   Z.land (Z.shiftr x 8) 0xff; Z.land x 0xff].

Definition host_bytes (little_endian : bool) (x : Z) : list Z :=
  if little_endian then rev (bytes_be x) else bytes_be x.

Definition word_of_be (bs : list Z) : Z :=
  fold_left (fun acc b => acc * 256 + b) bs 0.

Definition host_word (little_endian : bool) (bs : list Z) : Z :=
  if little_endian then word_of_be (rev bs) else word_of_be bs.

(** The C library's [htonl]: the word whose bytes in host memory are the
    bytes of [x] from the most significant to the least significant. *)
Definition htonl (little_endian : bool) (x : Z) : Z :=
  host_word little_endian (bytes_be x).

(** Lines 48-55. *)
Fixpoint conv32_up (little_endian : bool) (n : nat) (i : Z) (buf : array)
    : array :=
  match n with
  | O => buf
  | S n' =>
      conv32_up little_endian n' (i + 1)
        (store_u32 buf i (htonl little_endian (load_u32 buf i)))
  end.

Definition conv32network_endian (little_endian : bool) (buf : array) (n : Z)
    : array :=
  conv32_up little_endian (Z.to_nat n) 0 buf.

(** [calloc(2, sizeof(uint32_t))]: a zeroed block, or [NULL]. *)
Definition calloc (succeeds : bool) : option array :=
  if succeeds then Some (fun _ => 0) else None.

(** [(size_t)-1] with a 64-bit [size_t]. *)
Definition SIZE_MAX : Z := 2 ^ 64 - 1.

(** Lines 166-180.  [bufio] is the content of [*bufio], [None] for [NULL];
    the result is the new content of [*bufio] and the returned size. *)
Definition cmd_read_datafifo (little_endian calloc_succeeds : bool)
    (bufio : option array) (n : Z) : option array * Z :=
  let buf :=
    match bufio with
    | Some b => Some b
    | None => calloc calloc_succeeds
    end in
  match buf with
  | None => (bufio, SIZE_MAX)
  | Some buf =>
      let buf := store_u32 buf 0
                   (Z.lor (Z.land 0xffff0000 (Z.shiftl 0x001a 16))
                          (Z.land 0x0000ffff (Z.shiftr n 16))) in
      let buf := store_u32 buf 1
                   (Z.lor (Z.land 0xffff0000 (Z.shiftl 0x0019 16))
                          (Z.land 0x0000ffff n)) in
      let buf := conv32network_endian little_endian buf 2 in
      (Some buf, 2 * 4)
  end.

(** * Specification vocabulary *)

(** ** Framing: what a command leaves alone

    [preserves f c] says that command [c] does not change the observation
    [f] of the state.  It is closed under the command combinators, so what
    a block of [data_cal] leaves untouched is read off its text. *)

Definition preserves {A : Type} (f : state -> A) (c : cmd) : Prop :=
  forall s, f (c s) = f s.

(** ** Words of the stream

    [word_at databuf i] is the 16-bit word whose low byte is at index [i]
    and whose high byte is at index [i + 1]. *)

Definition word_at (databuf : array) (i : Z) : Z :=
  Z.lor (load_u8 databuf i) (Z.shiftl (load_u8 databuf (i + 1)) 8).

(** The state in which the word made of the bytes at [i] and [i + 1]
    reaches the frame state machine: both bytes fetched, the word
    assembled, the history shifted and the word counted. *)
Definition assembled (databuf : array) (i : Z) (s : state) : state :=
  assemble (next_byte databuf (i + 1) (low_byte (next_byte databuf i s))).

(** ** Completed frames

    [ends_frame databuf i s] tells whether the iteration at index [i] from
    state [s] completes a frame: the decoder is in a frame, the byte is the
    high byte of a terminator word and a terminator is already pending.
    [frames n i s] counts the frames completed by [n] iterations from
    index [i]. *)

Definition ends_frame (databuf : array) (i : Z) (s : state) : bool :=
  negb (counter s =? 0) && negb (odd s =? 1)
  && (u16 (pdata s + Z.shiftl (load_u8 databuf i) 8) =? tailer)
  && negb (tsign s =? 0).

Fixpoint frames (char_signed : bool) (databuf : array) (framadd : Z)
    (n : nat) (i : Z) (s : state) : Z :=
  match n with
  | O => 0
  | S n' =>
      (if ends_frame databuf i s then 1 else 0)
      + frames char_signed databuf framadd n' (i + 1)
          (loop_body char_signed databuf framadd i s)
  end.

(** ** Row words

    [decodes_row databuf i s] tells whether the iteration at index [i]
    from state [s] interprets a row word: it completes a word that is not a
    terminator, the word counter then exceeds 6, and the word on top of the
    history has bit [0x1000] set. *)

Definition decodes_row (databuf : array) (i : Z) (s : state) : bool :=
  negb (counter s =? 0) && negb (odd s =? 1)
  && negb (u16 (pdata s + Z.shiftl (load_u8 databuf i) 8) =? tailer)
  && (s32 (counter s + 1) >? 6)
  && negb (Z.land (pdata_pre1 s) 0x1000 =? 0).

(** ** The decode lag, read as a lag of two words

    Three consecutive words of a frame start at [i], [i + 2] and [i + 4],
    none of them a terminator.  The statement says that once the word at
    [i + 4] has been processed with the word counter above 6, it is the word
    at [i], two positions behind, that has been interpreted: a row word there
    has set the pending row and no hit was recorded, a column word there has
    set column and code. *)
Definition decodes_two_behind : Prop :=
  forall (sgn : bool) (buf : array) (fa i : Z) (s : state),
    counter s <> 0 -> odd s = 1 ->
    word_at buf i <> tailer -> word_at buf (i + 2) <> tailer ->
    word_at buf (i + 4) <> tailer ->
    let lagged := word_at buf i in
    let s4 := run sgn buf fa 4 i s in
    let s6 := run sgn buf fa 6 i s in
    6 < counter s6 ->
    (Z.land lagged 0x1000 <> 0 ->
     row s6 = Z.land (Z.shiftr lagged 2) 0x3ff
     /\ forall k, maps_temp s6 k = maps_temp s4 k)
    /\ (Z.land lagged 0x1000 = 0 ->
        column s6 = Z.land (Z.shiftr lagged 2) 0x3ff
        /\ code s6 = Z.land lagged 0x3).

(** ** Decoding apart from the output

    [mute s] forgets what has been printed; two states with the same
    [mute] agree on every variable, on the maps, on the telemetry record,
    on the frame counter and on the bytes read.  A command is [oblivious]
    when what it does to these does not depend on what has been printed. *)

Definition mute (s : state) : state := set_out [] s.

Definition oblivious (c : cmd) : Prop :=
  forall s, mute (c s) = mute (c (mute s)).

(** * Sample inputs

    Every frame below starts with the synchronisation marker followed by
    the eight telemetry bytes, which the word assembler also counts as
    words 2 to 5 of the frame, and ends with the doubled terminator
    [78 56 78 56].  A word is interpreted when the next one is processed,
    so the filler word [0x0000] before the terminator is what lets the last
    coordinate word be interpreted; a filler word is itself a column word
    (column 0, code 0). *)

(** A buffer given by its first bytes and zero afterwards. *)
Definition buffer_of (bytes : list Z) : array :=
  fun i =>
    if (i <? 0) || (Z.of_nat (length bytes) <=? i) then 0
    else nth (Z.to_nat i) bytes 0.

Definition zeros : array := fun _ => 0.

(** Row word [0x1014] (row 5), then column word [0x0029] (column 10,
    code 1). *)
Definition frame1 : array :=
  buffer_of [0xaa; 0xaa; 0xaa; 0xaa;
             0x00; 0x01; 0x02; 0x03; 0x04; 0x05; 0x0a; 0x0b;
             0x00; 0x00; 0x00; 0x00; 0x14; 0x10; 0x29; 0x00; 0x00; 0x00;
             0x78; 0x56; 0x78; 0x56].

(** Two row words in a row ([0x1014], row 5, and [0x1024], row 9), then
    the column word [0x0029]. *)
Definition frame2 : array :=
  buffer_of [0xaa; 0xaa; 0xaa; 0xaa;
             0x00; 0x01; 0x02; 0x03; 0x04; 0x05; 0x0a; 0x0b;
             0x00; 0x00; 0x00; 0x00; 0x14; 0x10; 0x24; 0x10; 0x29; 0x00;
             0x00; 0x00; 0x78; 0x56; 0x78; 0x56].

(** The frame of [frame1] with telemetry bytes above [0x7f] in the frame
    counter, temperature and channel value positions, on channel 3. *)
Definition frame3 : array :=
  buffer_of [0xaa; 0xaa; 0xaa; 0xaa;
             0x00; 0x01; 0x02; 0x83; 0x84; 0x05; 0x0e; 0x8b;
             0x00; 0x00; 0x00; 0x00; 0x14; 0x10; 0x29; 0x00; 0x00; 0x00;
             0x78; 0x56; 0x78; 0x56].

(** The frame of [frame1] with a channel value of 60 on channel 3. *)
Definition frame4 : array :=
  buffer_of [0xaa; 0xaa; 0xaa; 0xaa;
             0x00; 0x01; 0x02; 0x03; 0x04; 0x05; 0x0c; 0x3c;
             0x00; 0x00; 0x00; 0x00; 0x14; 0x10; 0x29; 0x00; 0x00; 0x00;
             0x78; 0x56; 0x78; 0x56].

(** The frame of [frame1] with a channel value of 70 on channel 3. *)
Definition frame5 : array :=
  buffer_of [0xaa; 0xaa; 0xaa; 0xaa;
             0x00; 0x01; 0x02; 0x03; 0x04; 0x05; 0x0c; 0x46;
             0x00; 0x00; 0x00; 0x00; 0x14; 0x10; 0x29; 0x00; 0x00; 0x00;
             0x78; 0x56; 0x78; 0x56].

(** Two frames one after the other: the first sets row 5, the second has
    a column word (column 10, code 1) and no row word. *)
Definition two_frames : array :=
  buffer_of [0xaa; 0xaa; 0xaa; 0xaa;
             0x00; 0x01; 0x02; 0x03; 0x04; 0x05; 0x0a; 0x0b;
             0x00; 0x00; 0x00; 0x00; 0x14; 0x10; 0x00; 0x00;
             0x78; 0x56; 0x78; 0x56;
             0xaa; 0xaa; 0xaa; 0xaa;
             0x00; 0x01; 0x02; 0x04; 0x04; 0x05; 0x0a; 0x0b;
             0x00; 0x00; 0x00; 0x00; 0x29; 0x00; 0x00; 0x00;
             0x78; 0x56; 0x78; 0x56].

(** A buffer that is all zero but for the marker in its last four bytes. *)
Definition marker_at_end : array :=
  fun i => if (buflen - 4 <=? i) && (i <? buflen) then 0xaa else 0.

(** The state at entry with zeroed maps, telemetry record and frame
    counter, and the decoder after [n] bytes of [frame1] and of [frame2],
    for a commit every 5 frames and a signed [char]. *)
Definition start : state := init zeros zeros zeros zeros 0.

Definition after (n : nat) : state := run true frame1 5 n 0 start.

Definition after2 (n : nat) : state := run true frame2 5 n 0 start.


(** * The other functions of [command.c] *)

(** ** Command encoders

    Every encoder starts by taking the caller's block, or a fresh zeroed
    one when [*bufio] is [NULL] (lines 60-66, 75-81, 92-98, 118-124,
    139-145, 154-160). *)

Definition obtain (calloc_succeeds : bool) (bufio : option array)
    : option array :=
  match bufio with
  | Some b => Some b
  | None => calloc calloc_succeeds
  end.

(** [size_t] arithmetic, on 64 bits. *)
Definition u64 (z : Z) : Z := z mod 2 ^ 64.

(** Lines 57-70.  [0x8000 + addr] and the shift are computed on 32 bits. *)
Definition cmd_read_status (little_endian calloc_succeeds : bool)
    (bufio : option array) (addr : Z) : option array * Z :=
  match obtain calloc_succeeds bufio with
  | None => (bufio, SIZE_MAX)
  | Some buf =>
      let buf := store_u32 buf 0
                   (Z.land 0xffff0000
                      (u32 (Z.shiftl (u32 (0x8000 + addr)) 16))) in
      let buf := conv32network_endian little_endian buf 1 in
      (Some buf, 1 * 4)
  end.

(** Lines 72-85. *)
Definition cmd_send_pulse (little_endian calloc_succeeds : bool)
    (bufio : option array) (mask : Z) : option array * Z :=
  match obtain calloc_succeeds bufio with
  | None => (bufio, SIZE_MAX)
  | Some buf =>
      let buf := store_u32 buf 0
                   (Z.lor 0x000b0000 (Z.land 0x0000ffff mask)) in
      let buf := conv32network_endian little_endian buf 1 in
      (Some buf, 1 * 4)
  end.

(** Lines 105-108: the data words of the values [aval[i]], [i >= 1]; the
    result is the buffer and the index [idx] after the loop. *)
Fixpoint write_values (n : nat) (i idx : Z) (aval buf : array) : array * Z :=
  match n with
  | O => (buf, idx)
  | S n' =>
      let buf := store_u32 buf idx
                   (Z.lor 0x00130000 (Z.land 0x0000ffff (load_u32 aval i))) in
      let buf := store_u32 buf (idx + 1)
                   (Z.lor 0x00140000
                      (Z.land 0x0000ffff (Z.shiftr (load_u32 aval i) 16))) in
      write_values n' (i + 1) (idx + 2) aval buf
  end.

(** Lines 87-111.  [aval] is the memory behind the pointer of that name,
    [nval] a [size_t]. *)
Definition cmd_write_memory (little_endian calloc_succeeds : bool)
    (bufio : option array) (addr : Z) (aval : array) (nval : Z)
    : option array * Z :=
  match obtain calloc_succeeds bufio with
  | None => (bufio, SIZE_MAX)
  | Some buf =>
      let buf := store_u32 buf 0
                   (Z.lor 0x00110000 (Z.land 0x0000ffff addr)) in
      let buf := store_u32 buf 1
                   (Z.lor 0x00120000
                      (Z.land 0x0000ffff (Z.shiftr addr 16))) in
      let buf := store_u32 buf 2
                   (Z.lor 0x00130000
                      (Z.land 0x0000ffff (load_u32 aval 0))) in
      let buf := store_u32 buf 3
                   (Z.lor 0x00140000
                      (Z.land 0x0000ffff (Z.shiftr (load_u32 aval 0) 16))) in
      let buf := fst (write_values (Z.to_nat (nval - 1)) 1 4 aval buf) in
      let buf := conv32network_endian little_endian buf
                   (u64 (nval * 2 + 2)) in
      (Some buf, u64 (u64 (nval * 2 + 2) * 4))
  end.

(** Lines 113-134. *)
Definition cmd_read_memory (little_endian calloc_succeeds : bool)
    (bufio : option array) (addr n : Z) : option array * Z :=
  match obtain calloc_succeeds bufio with
  | None => (bufio, SIZE_MAX)
  | Some buf =>
      let buf := store_u32 buf 0
                   (Z.lor 0x00110000 (Z.land 0x0000ffff addr)) in
      let buf := store_u32 buf 1
                   (Z.lor 0x00120000
                      (Z.land 0x0000ffff (Z.shiftr addr 16))) in
      let buf := store_u32 buf 2
                   (Z.lor 0x00100000 (Z.land 0x0000ffff n)) in
      let buf := store_u32 buf 3 0x80140000 in
      let buf := conv32network_endian little_endian buf 4 in
      (Some buf, 4 * 4)
  end.

(** Lines 136-149. *)
Definition cmd_write_register (little_endian calloc_succeeds : bool)
    (bufio : option array) (addr val : Z) : option array * Z :=
  match obtain calloc_succeeds bufio with
  | None => (bufio, SIZE_MAX)
  | Some buf =>
      let buf := store_u32 buf 0
                   (Z.lor
                      (Z.land 0xffff0000
                         (u32 (Z.shiftl (u32 (0x0020 + addr)) 16)))
                      (Z.land 0x0000ffff val)) in
      let buf := conv32network_endian little_endian buf 1 in
      (Some buf, 1 * 4)
  end.

(** Lines 151-164. *)
Definition cmd_read_register (little_endian calloc_succeeds : bool)
    (bufio : option array) (addr : Z) : option array * Z :=
  match obtain calloc_succeeds bufio with
  | None => (bufio, SIZE_MAX)
  | Some buf =>
      let buf := store_u32 buf 0
                   (Z.land 0xffff0000
                      (u32 (Z.shiftl (u32 (0x8020 + addr)) 16))) in
      let buf := conv32network_endian little_endian buf 1 in
      (Some buf, 1 * 4)
  end.

(** ** [conv16network_endian] *)

Definition bytes_be16 (x : Z) : list Z :=
  [Z.land (Z.shiftr x 8) 0xff; Z.land x 0xff].

Definition host_bytes16 (little_endian : bool) (x : Z) : list Z :=
  if little_endian then rev (bytes_be16 x) else bytes_be16 x.

(** The C library's [htons], as [htonl] on two bytes. *)
Definition htons (little_endian : bool) (x : Z) : Z :=
  host_word little_endian (bytes_be16 x).

(** Lines 39-46. *)
Fixpoint conv16_up (little_endian : bool) (n : nat) (i : Z) (buf : array)
    : array :=
  match n with
  | O => buf
  | S n' =>
      conv16_up little_endian n' (i + 1)
        (store_u16 buf i (htons little_endian (load_u16 buf i)))
  end.

Definition conv16network_endian (little_endian : bool) (buf : array) (n : Z)
    : array :=
  conv16_up little_endian (Z.to_nat n) 0 buf.

(** ** [wdtest] *)

(** What [wdtest] prints, item by item: the greeting, and a pair of
    indices as [printf("%d,%d  ", l, m)] prints it. *)
Inductive printed : Type :=
| Hello
| Pair (l m : Z).

(** The array [musk] holds [int]s. *)
Definition load_s32 (a : array) (k : Z) : Z := s32 (a k).

(** Counted [for] loops over what has been printed so far. *)
Fixpoint print_up (n : nat) (j : Z) (body : Z -> list printed -> list printed)
    (o : list printed) : list printed :=
  match n with
  | O => o
  | S n' => print_up n' (j + 1) body (body j o)
  end.

Definition print_lt (lo hi : Z) (body : Z -> list printed -> list printed)
    (o : list printed) : list printed :=
  print_up (Z.to_nat (hi - lo)) lo body o.

(** Lines 218-232. *)
Definition wdtest (musk : array) : list printed :=
  print_lt 0 928 (fun l =>
    print_lt 0 960 (fun m o =>
      if negb (load_s32 musk (l * 960 + m) =? 0) then o ++ [Pair l m]
      else o))
    [Hello].

(** The place of an item in the scan of the grid, row after row; the
    greeting comes before every cell. *)
Definition position (p : printed) : Z :=
  match p with
  | Hello => -1
  | Pair l m => l * 960 + m
  end.
(** * Properties *)

(** ** Fixed-width integers *)

Lemma u8_range (z : Z) : 0 <= u8 z < 256.
Proof. unfold u8. apply Z.mod_pos_bound. reflexivity. Qed.

Lemma u16_range (z : Z) : 0 <= u16 z < 65536.
Proof. unfold u16. apply Z.mod_pos_bound. reflexivity. Qed.

Lemma u32_range (z : Z) : 0 <= u32 z < 4294967296.
Proof. unfold u32. apply Z.mod_pos_bound. reflexivity. Qed.

Lemma u8_small (z : Z) : 0 <= z < 256 -> u8 z = z.
Proof. intros H. unfold u8. apply Z.mod_small. exact H. Qed.

Lemma u16_small (z : Z) : 0 <= z < 65536 -> u16 z = z.
Proof. intros H. unfold u16. apply Z.mod_small. exact H. Qed.

Lemma u32_small (z : Z) : 0 <= z < 4294967296 -> u32 z = z.
Proof. intros H. unfold u32. apply Z.mod_small. exact H. Qed.

Lemma u16_idem (z : Z) : u16 (u16 z) = u16 z.
Proof. apply u16_small, u16_range. Qed.

Lemma u16_succ_u16 (z : Z) : u16 (u16 z + 1) = u16 (z + 1).
Proof. unfold u16. rewrite Z.add_mod_idemp_l by discriminate. reflexivity. Qed.

Lemma s32_small (z : Z) : INT_MIN <= z <= INT_MAX -> s32 z = z.
Proof.
  unfold INT_MIN, INT_MAX, s32. intros H.
  rewrite Z.mod_small; lia.
Qed.

Lemma s32_succ_nonzero (z : Z) : 0 < z <= INT_MAX -> s32 (z + 1) <> 0.
Proof.
  unfold INT_MAX. intros H.
  destruct (Z.eq_dec z (2 ^ 31 - 1)) as [->|Hne].
  - vm_compute. discriminate.
  - rewrite s32_small; unfold INT_MIN, INT_MAX; lia.
Qed.

(** A low byte and a byte shifted by 8 do not overlap. *)
Lemma add_shiftl8_lor (lo hi : Z) :
  0 <= lo < 256 -> lo + Z.shiftl hi 8 = Z.lor lo (Z.shiftl hi 8).
Proof.
  intros H. rewrite Z.add_comm, Z.lor_comm.
  assert (Hl : Z.land (Z.shiftl hi 8) lo = 0).
  { apply Z.bits_inj'. intros n Hn. rewrite Z.land_spec, Z.bits_0.
    destruct (Z.ltb_spec n 8).
    - rewrite Z.shiftl_spec_low by assumption. reflexivity.
    - destruct (Z.eq_dec lo 0) as [->|Hlo].
      + rewrite Z.bits_0. apply andb_false_r.
      + rewrite (Z.bits_above_log2 lo n); [apply andb_false_r|lia|].
        apply Z.log2_lt_pow2; [lia|].
        apply Z.lt_le_trans with (2 ^ 8); [lia|].
        apply Z.pow_le_mono_r; lia. }
  rewrite <- Z.lxor_lor by exact Hl.
  apply Z.add_nocarry_lxor. exact Hl.
Qed.

(** ** Arrays *)

Lemma upd_eq (a : array) (k v : Z) : upd a k v k = v.
Proof. unfold upd. rewrite Z.eqb_refl. reflexivity. Qed.

Lemma upd_neq (a : array) (k v j : Z) : j <> k -> upd a k v j = a j.
Proof. intros H. unfold upd. apply Z.eqb_neq in H. rewrite H. reflexivity. Qed.

(** ** Framing *)

Lemma preserves_skip {A : Type} (f : state -> A) : preserves f skip.
Proof. intros s. reflexivity. Qed.

Lemma preserves_seq {A : Type} (f : state -> A) (c1 c2 : cmd) :
  preserves f c1 -> preserves f c2 -> preserves f (c1 ;; c2).
Proof. intros H1 H2 s. unfold seq. rewrite H2. apply H1. Qed.

Lemma preserves_ite {A : Type} (f : state -> A) b (c1 c2 : cmd) :
  preserves f c1 -> preserves f c2 -> preserves f (ite b c1 c2).
Proof. intros H1 H2 s. unfold ite. destruct (b s); [apply H1|apply H2]. Qed.

Lemma preserves_with_value {A B : Type} (f : state -> A) (e : state -> B)
    (k : B -> cmd) :
  (forall v, preserves f (k v)) -> preserves f (with_value e k).
Proof. intros H s. unfold with_value. apply H. Qed.

Lemma preserves_assign {A B : Type} (f : state -> A) (set : B -> cmd)
    (e : state -> B) :
  (forall v, preserves f (set v)) -> preserves f (assign set e).
Proof. apply preserves_with_value. Qed.

Lemma preserves_for_up {A : Type} (f : state -> A) (body : Z -> cmd) :
  (forall j, preserves f (body j)) ->
  forall n j, preserves f (for_up n j body).
Proof.
  intros H n. induction n as [|n IH]; intros j s; simpl.
  - reflexivity.
  - rewrite IH. apply H.
Qed.

Lemma preserves_for_lt {A : Type} (f : state -> A) (lo hi : Z)
    (body : Z -> cmd) :
  (forall j, preserves f (body j)) -> preserves f (for_lt lo hi body).
Proof. intros H. unfold for_lt. apply preserves_for_up. exact H. Qed.

(** Unfolds the blocks of [data_cal] down to the combinators and closes
    a framing goal by the rules above; a setter is checked by evaluation. *)
Ltac frame_step :=
  lazymatch goal with
  | |- preserves _ skip => apply preserves_skip
  | |- preserves _ (seq _ _) => apply preserves_seq
  | |- preserves _ (ite _ _ _) => apply preserves_ite
  | |- preserves _ (for_lt _ _ _) => apply preserves_for_lt; intros ?
  | |- preserves _ (assign _ _) => apply preserves_assign; intros ?
  | |- preserves _ (with_value _ _) => apply preserves_with_value; intros ?
  | |- preserves _ _ => intros ?; reflexivity
  end.

Ltac frame :=
  unfold frame_word, frame_end, decode, record_hit, commit, telemetry,
    overcurrent_check, set_i2c, seek, stage, low_byte, assemble, next_byte;
  repeat frame_step.

Lemma frame_word_keeps_words (sgn : bool) (fa : Z) :
  preserves (fun s => (pdata s, pdata_pre1 s, pdata_pre2 s, odd s))
    (frame_word sgn fa).
Proof. frame. Qed.

(** ** One iteration of the loop, by case *)

(** Evaluation of the projections of a state built by setters, and of
    the command combinators, leaving arithmetic alone. *)
Ltac st_cbn :=
  cbn [w4 w3 w2 w1 w pdata_pre2 pdata_pre1 counter odd row column code
       hsign tsign ch pdata i2c_data_temp maps maps_temp i2c_data fcounter
       out reads
       set_w4 set_w3 set_w2 set_w1 set_w set_pdata_pre2 set_pdata_pre1
       set_counter set_odd set_row set_column set_code set_tsign set_ch
       set_pdata set_i2c_data_temp set_maps set_maps_temp set_i2c_data
       set_fcounter set_out set_reads
       seq ite assign with_value skip].

Ltac st_cbn_in H :=
  cbn [w4 w3 w2 w1 w pdata_pre2 pdata_pre1 counter odd row column code
       hsign tsign ch pdata i2c_data_temp maps maps_temp i2c_data fcounter
       out reads
       set_w4 set_w3 set_w2 set_w1 set_w set_pdata_pre2 set_pdata_pre1
       set_counter set_odd set_row set_column set_code set_tsign set_ch
       set_pdata set_i2c_data_temp set_maps set_maps_temp set_i2c_data
       set_fcounter set_out set_reads
       seq ite assign with_value skip] in H.

Lemma loop_body_seek (sgn : bool) (buf : array) (fa i : Z) (s : state) :
  counter s = 0 ->
  loop_body sgn buf fa i s = seek sgn buf i (next_byte buf i s).
Proof.
  intros H. unfold loop_body, seq, ite.
  replace (counter (next_byte buf i s)) with (counter s) by reflexivity.
  rewrite H. reflexivity.
Qed.

Lemma loop_body_low (sgn : bool) (buf : array) (fa i : Z) (s : state) :
  counter s <> 0 -> odd s = 1 ->
  loop_body sgn buf fa i s = low_byte (next_byte buf i s).
Proof.
  intros Hc Ho. unfold loop_body, seq, ite.
  replace (counter (next_byte buf i s)) with (counter s) by reflexivity.
  replace (odd (next_byte buf i s)) with (odd s) by reflexivity.
  apply Z.eqb_neq in Hc. rewrite Hc, Ho. reflexivity.
Qed.

Lemma loop_body_high (sgn : bool) (buf : array) (fa i : Z) (s : state) :
  counter s <> 0 -> odd s <> 1 ->
  loop_body sgn buf fa i s = frame_word sgn fa (assemble (next_byte buf i s)).
Proof.
  intros Hc Ho. unfold loop_body, seq, ite.
  replace (counter (next_byte buf i s)) with (counter s) by reflexivity.
  replace (odd (next_byte buf i s)) with (odd s) by reflexivity.
  apply Z.eqb_neq in Hc, Ho. rewrite Hc, Ho. reflexivity.
Qed.

(** Two iterations from a word boundary hand one word to the frame state
    machine. *)
Lemma loop_body_pair (sgn : bool) (buf : array) (fa i : Z) (s : state) :
  counter s <> 0 -> odd s = 1 ->
  loop_body sgn buf fa (i + 1) (loop_body sgn buf fa i s)
  = frame_word sgn fa (assembled buf i s).
Proof.
  intros Hc Ho. rewrite (loop_body_low sgn buf fa i s Hc Ho).
  rewrite loop_body_high.
  - reflexivity.
  - exact Hc.
  - discriminate.
Qed.

Lemma word_at_range (buf : array) (i : Z) : 0 <= word_at buf i < 65536.
Proof.
  unfold word_at, load_u8.
  pose proof (u8_range (buf i)) as Hl.
  pose proof (u8_range (buf (i + 1))) as Hh.
  rewrite <- add_shiftl8_lor by exact Hl.
  rewrite Z.shiftl_mul_pow2 by lia. change (2 ^ 8) with 256. lia.
Qed.

Lemma assembled_pdata (buf : array) (i : Z) (s : state) :
  pdata (assembled buf i s) = word_at buf i.
Proof.
  unfold assembled, assemble, low_byte, next_byte. st_cbn.
  rewrite add_shiftl8_lor by apply u8_range.
  apply u16_small. apply word_at_range.
Qed.

Lemma assembled_pdata_pre1 (buf : array) (i : Z) (s : state) :
  pdata_pre1 (assembled buf i s) = word_at buf i.
Proof.
  rewrite <- (assembled_pdata buf i s).
  unfold assembled, assemble, low_byte, next_byte. st_cbn. reflexivity.
Qed.

Lemma assembled_pdata_pre2 (buf : array) (i : Z) (s : state) :
  pdata_pre2 (assembled buf i s) = pdata_pre1 s.
Proof. reflexivity. Qed.

Lemma assembled_counter (buf : array) (i : Z) (s : state) :
  counter (assembled buf i s) = s32 (counter s + 1).
Proof. reflexivity. Qed.

Lemma assembled_odd (buf : array) (i : Z) (s : state) :
  odd (assembled buf i s) = 1.
Proof. reflexivity. Qed.

(** Assembling a word touches the byte history, the word history, the
    phase, the counter and the read log only. *)
Lemma assembled_frame (buf : array) (i : Z) (s : state) :
  let a := assembled buf i s in
  tsign a = tsign s /\ row a = row s /\ column a = column s
  /\ code a = code s /\ fcounter a = fcounter s /\ maps a = maps s
  /\ maps_temp a = maps_temp s /\ i2c_data a = i2c_data s
  /\ i2c_data_temp a = i2c_data_temp s /\ out a = out s.
Proof. repeat split. Qed.

(** ** The blocks run at the end of a frame *)

(** [frame_rw f c] rewrites [f (c s)] into [f s] when the framing rules
    show that [c] preserves [f]. *)
Ltac frame_rw f c :=
  let H := fresh "Hframe" in
  assert (H : preserves f c) by frame;
  unfold preserves in H; rewrite ?H; clear H.

Lemma commit_fcounter (fa : Z) (s : state) :
  fcounter (commit fa s) = if fcounter s =? fa then 0 else fcounter s.
Proof.
  unfold commit, ite. destruct (fcounter s =? fa); [|reflexivity].
  unfold seq. rewrite (preserves_for_lt fcounter).
  - reflexivity.
  - intros l. frame.
Qed.

Lemma commit_not_due (fa : Z) (s : state) :
  fcounter s <> fa -> commit fa s = s.
Proof.
  intros H. unfold commit, ite. apply Z.eqb_neq in H. rewrite H. reflexivity.
Qed.

(** The state on which the telemetry extractor and the commit check run
    when a frame ends (lines 287-289). *)
Lemma frame_end_split (sgn : bool) (fa : Z) (s : state) :
  frame_end sgn fa s
  = commit fa (telemetry sgn
      (set_fcounter (s32 (fcounter s + 1)) (set_tsign 0 (set_counter 0 s)))).
Proof. reflexivity. Qed.

Lemma frame_end_fields (sgn : bool) (fa : Z) (s : state) :
  let s' := frame_end sgn fa s in
  counter s' = 0 /\ tsign s' = 0
  /\ fcounter s' = (if s32 (fcounter s + 1) =? fa then 0
                    else s32 (fcounter s + 1)).
Proof.
  cbv zeta. rewrite frame_end_split.
  set (e := set_fcounter _ _).
  repeat split.
  - frame_rw counter (commit fa). frame_rw counter (telemetry sgn).
    reflexivity.
  - frame_rw tsign (commit fa). frame_rw tsign (telemetry sgn).
    reflexivity.
  - rewrite commit_fcounter. frame_rw fcounter (telemetry sgn).
    reflexivity.
Qed.

(** ** The frame state machine on one word *)

Lemma frame_word_first_tailer (sgn : bool) (fa : Z) (a : state) :
  pdata a = tailer -> tsign a = 0 -> frame_word sgn fa a = set_tsign 1 a.
Proof.
  intros Hp Ht. unfold frame_word, ite. rewrite Hp, Ht. reflexivity.
Qed.

Lemma frame_word_second_tailer (sgn : bool) (fa : Z) (a : state) :
  pdata a = tailer -> tsign a <> 0 ->
  frame_word sgn fa a = frame_end sgn fa a.
Proof.
  intros Hp Ht. unfold frame_word, ite. apply Z.eqb_neq in Ht.
  rewrite Hp, Ht. reflexivity.
Qed.

Lemma frame_word_other (sgn : bool) (fa : Z) (a : state) :
  pdata a <> tailer ->
  frame_word sgn fa a
  = (if counter a >? 6 then decode (set_tsign 0 a) else set_tsign 0 a).
Proof.
  intros Hp. unfold frame_word, ite, seq, skip. apply Z.eqb_neq in Hp.
  rewrite Hp. reflexivity.
Qed.

Lemma frame_word_other_fields (sgn : bool) (fa : Z) (a : state) :
  pdata a <> tailer ->
  let s' := frame_word sgn fa a in
  tsign s' = 0 /\ counter s' = counter a /\ fcounter s' = fcounter a
  /\ maps s' = maps a /\ odd s' = odd a /\ i2c_data s' = i2c_data a
  /\ out s' = out a.
Proof.
  intros Hp. cbv zeta. rewrite (frame_word_other sgn fa a Hp).
  destruct (counter a >? 6).
  - frame_rw tsign decode. frame_rw counter decode. frame_rw fcounter decode.
    frame_rw maps decode. frame_rw odd decode. frame_rw i2c_data decode.
    frame_rw out decode. repeat split.
  - repeat split.
Qed.

(** ** Word assembler *)

Lemma low_byte_step (sgn : bool) (buf : array) (fa i : Z) (s : state) :
  counter s <> 0 -> odd s = 1 ->
  let s1 := loop_body sgn buf fa i s in
  pdata s1 = load_u8 buf i /\ odd s1 = 0 /\ counter s1 = counter s
  /\ pdata_pre1 s1 = pdata_pre1 s /\ pdata_pre2 s1 = pdata_pre2 s
  /\ tsign s1 = tsign s /\ row s1 = row s /\ column s1 = column s
  /\ code s1 = code s /\ fcounter s1 = fcounter s /\ maps s1 = maps s
  /\ maps_temp s1 = maps_temp s /\ i2c_data s1 = i2c_data s
  /\ out s1 = out s.
Proof.
  intros Hc Ho. cbv zeta. rewrite (loop_body_low sgn buf fa i s Hc Ho).
  repeat split.
Qed.

Lemma frame_word_counter (sgn : bool) (fa : Z) (a : state) :
  counter (frame_word sgn fa a) = counter a
  \/ counter (frame_word sgn fa a) = 0.
Proof.
  destruct (Z.eq_dec (pdata a) tailer) as [Hp|Hp].
  - destruct (Z.eq_dec (tsign a) 0) as [Ht|Ht].
    + left. rewrite frame_word_first_tailer by assumption. reflexivity.
    + right. rewrite frame_word_second_tailer by assumption.
      apply (frame_end_fields sgn fa a).
  - left. apply (frame_word_other_fields sgn fa a Hp).
Qed.

(** C7.  In a frame, at a word boundary (phase [odd = 1]), the first byte
    of a pair is kept as the low byte and produces no word: counter, word
    history and everything the frame state machine owns are unchanged.  The
    second byte completes exactly one word [low | (high << 8)]; the history
    is shifted ([pdata_pre2] takes the old [pdata_pre1], [pdata_pre1] takes
    the word), the counter is incremented by 1, and the state so obtained is
    what the frame state machine receives.  The state machine keeps the
    word, the history and the phase; it leaves the counter as incremented
    unless it ends the frame. *)
Theorem word_assembly (sgn : bool) (buf : array) (fa i : Z) (s : state) :
  counter s <> 0 -> odd s = 1 -> INT_MIN <= counter s < INT_MAX ->
  let low := load_u8 buf i in
  let high := load_u8 buf (i + 1) in
  let word := Z.lor low (Z.shiftl high 8) in
  let s1 := loop_body sgn buf fa i s in
  let s2 := loop_body sgn buf fa (i + 1) s1 in
  let a := assembled buf i s in
  (pdata s1 = low /\ odd s1 = 0 /\ counter s1 = counter s
   /\ pdata_pre1 s1 = pdata_pre1 s /\ pdata_pre2 s1 = pdata_pre2 s
   /\ tsign s1 = tsign s /\ row s1 = row s /\ column s1 = column s
   /\ code s1 = code s /\ fcounter s1 = fcounter s /\ maps s1 = maps s
   /\ maps_temp s1 = maps_temp s /\ i2c_data s1 = i2c_data s
   /\ out s1 = out s)
  /\ (pdata a = word /\ pdata_pre1 a = word /\ pdata_pre2 a = pdata_pre1 s
      /\ counter a = counter s + 1 /\ odd a = 1)
  /\ s2 = frame_word sgn fa a
  /\ (pdata s2 = word /\ pdata_pre1 s2 = word /\ pdata_pre2 s2 = pdata_pre1 s
      /\ odd s2 = 1 /\ (counter s2 = counter s + 1 \/ counter s2 = 0)).
Proof.
  intros Hc Ho Hr. cbv zeta.
  split; [exact (low_byte_step sgn buf fa i s Hc Ho)|].
  assert (Hcnt : counter (assembled buf i s) = counter s + 1).
  { rewrite assembled_counter. apply s32_small.
    unfold INT_MIN, INT_MAX in *. lia. }
  split.
  { repeat split.
    - exact (assembled_pdata buf i s).
    - exact (assembled_pdata_pre1 buf i s).
    - exact Hcnt. }
  rewrite (loop_body_pair sgn buf fa i s Hc Ho).
  split; [reflexivity|].
  pose proof (frame_word_keeps_words sgn fa (assembled buf i s)) as Hk.
  cbv beta in Hk. injection Hk as Hk1 Hk2 Hk3 Hk4.
  repeat split.
  - rewrite Hk1. exact (assembled_pdata buf i s).
  - rewrite Hk2. exact (assembled_pdata_pre1 buf i s).
  - rewrite Hk3. reflexivity.
  - rewrite Hk4. reflexivity.
  - rewrite <- Hcnt. apply frame_word_counter.
Qed.

Lemma word_assembly_witness :
  let s := after 16 in
  let s2 := loop_body true frame1 5 17 (loop_body true frame1 5 16 s) in
  counter s = 7 /\ odd s = 1
  /\ pdata s2 = 0x1014 /\ pdata_pre1 s2 = 0x1014 /\ pdata_pre2 s2 = 0x0000
  /\ (counter s2 = 7 + 1 \/ counter s2 = 0).
Proof.
  cbv zeta.
  split; [reflexivity|]. split; [reflexivity|].
  pose proof (word_assembly true frame1 5 16 (after 16)) as H.
  cbv zeta in H.
  destruct H as (_ & _ & _ & Hp & Hp1 & Hp2 & _ & Hc).
  - vm_compute. discriminate.
  - reflexivity.
  - vm_compute. split; [discriminate|reflexivity].
  - split; [exact Hp|]. split; [exact Hp1|]. split; [exact Hp2|exact Hc].
Defined.

(** ** Frame boundary *)

(** C1.  In a frame, at a word boundary and with no terminator pending, a
    terminator word only marks the terminator as pending: the frame counter
    and both maps are untouched.  If the next word is not a terminator the
    mark is cancelled and the frame goes on (the word counter keeps
    counting, the frame counter and [maps] are unchanged).  If the next word
    is a terminator too, the frame ends: the telemetry extractor and the
    commit check run on a state [e] in which the pending mark is cleared,
    the word counter is 0 and the frame counter is one more than before;
    after them the mark is still cleared and the word counter still 0, and
    the frame counter is the incremented value unless the commit check
    reset it. *)
Theorem double_terminator (sgn : bool) (buf : array) (fa i : Z) (s : state) :
  0 < counter s < INT_MAX - 1 -> odd s = 1 -> tsign s = 0 ->
  INT_MIN <= fcounter s < INT_MAX ->
  word_at buf i = tailer ->
  let s2 := loop_body sgn buf fa (i + 1) (loop_body sgn buf fa i s) in
  let s4 := loop_body sgn buf fa (i + 3) (loop_body sgn buf fa (i + 2) s2) in
  (tsign s2 = 1 /\ counter s2 = counter s + 1 /\ fcounter s2 = fcounter s
   /\ maps s2 = maps s /\ maps_temp s2 = maps_temp s
   /\ i2c_data s2 = i2c_data s)
  /\ (word_at buf (i + 2) <> tailer ->
      tsign s4 = 0 /\ counter s4 = counter s + 2 /\ fcounter s4 = fcounter s
      /\ maps s4 = maps s /\ i2c_data s4 = i2c_data s)
  /\ (word_at buf (i + 2) = tailer ->
      exists e,
        s4 = commit fa (telemetry sgn e)
        /\ tsign e = 0 /\ counter e = 0 /\ fcounter e = fcounter s + 1
        /\ tsign s4 = 0 /\ counter s4 = 0
        /\ fcounter s4 = (if fcounter s + 1 =? fa then 0
                          else fcounter s + 1)).
Proof.
  intros Hc Ho Ht Hf Hw. cbv zeta.
  assert (Hc0 : counter s <> 0) by lia.
  rewrite (loop_body_pair sgn buf fa i s Hc0 Ho).
  rewrite frame_word_first_tailer;
    [|rewrite assembled_pdata; exact Hw|exact Ht].
  set (s2 := set_tsign 1 (assembled buf i s)).
  assert (Hc2 : counter s2 = counter s + 1).
  { change (counter s2) with (s32 (counter s + 1)).
    apply s32_small. unfold INT_MIN, INT_MAX in *. lia. }
  split; [repeat split; exact Hc2|].
  replace (i + 3) with (i + 2 + 1) by lia.
  rewrite (loop_body_pair sgn buf fa (i + 2) s2);
    [|rewrite Hc2; lia|reflexivity].
  set (a := assembled buf (i + 2) s2).
  assert (Hca : counter a = counter s + 2).
  { unfold a. rewrite assembled_counter, Hc2.
    rewrite s32_small; unfold INT_MIN, INT_MAX in *; lia. }
  split.
  - intros Hx.
    assert (Hp : pdata a <> tailer).
    { unfold a. rewrite assembled_pdata. exact Hx. }
    destruct (frame_word_other_fields sgn fa a Hp)
      as (H1 & H2 & H3 & H4 & _ & H5 & _).
    repeat split.
    + exact H1.
    + rewrite H2. exact Hca.
    + rewrite H3. reflexivity.
    + rewrite H4. reflexivity.
    + rewrite H5. reflexivity.
  - intros Hx.
    rewrite frame_word_second_tailer;
      [|unfold a; rewrite assembled_pdata; exact Hx|discriminate].
    assert (Hfc : s32 (fcounter a + 1) = fcounter s + 1).
    { change (fcounter a) with (fcounter s).
      apply s32_small. unfold INT_MIN, INT_MAX in *. lia. }
    destruct (frame_end_fields sgn fa a) as (H1 & H2 & H3).
    rewrite Hfc in H3. rewrite frame_end_split in H1, H2, H3 |- *.
    exists (set_fcounter (s32 (fcounter a + 1))
              (set_tsign 0 (set_counter 0 a))).
    split; [reflexivity|].
    split; [reflexivity|].
    split; [reflexivity|].
    split; [exact Hfc|].
    split; [exact H2|].
    split; [exact H1|exact H3].
Qed.

Lemma double_terminator_witness :
  let s := after 22 in
  let s2 := loop_body true frame1 5 23 (loop_body true frame1 5 22 s) in
  let s4 := loop_body true frame1 5 25 (loop_body true frame1 5 24 s2) in
  (counter s = 10 /\ tsign s = 0 /\ fcounter s = 0
   /\ word_at frame1 22 = tailer /\ word_at frame1 24 = tailer)
  /\ (tsign s2 = 1 /\ counter s2 = 10 + 1 /\ fcounter s2 = 0)
  /\ (tsign s4 = 0 /\ counter s4 = 0 /\ fcounter s4 = 0 + 1).
Proof.
  cbv zeta.
  split; [vm_compute; repeat split|].
  pose proof (double_terminator true frame1 5 22 (after 22)) as H.
  cbv zeta in H.
  destruct H as ((H1 & H2 & H3 & _) & _ & H4).
  - vm_compute. split; reflexivity.
  - reflexivity.
  - reflexivity.
  - vm_compute. split; [discriminate|reflexivity].
  - reflexivity.
  - split.
    + split; [exact H1|]. split; [exact H2|exact H3].
    + destruct H4 as (e & _ & _ & _ & _ & H5 & H6 & H7); [reflexivity|].
      split; [exact H5|]. split; [exact H6|exact H7].
Defined.

(** ** Hit-map accumulator: recording a hit *)

(** The increment of line 341, at offset [j] of the pending coordinates. *)
Lemma hit_loop (n : nat) :
  forall (j0 : Z) (s : state) (k : Z),
    let body := fun j : Z =>
      assign set_maps_temp
        (fun s => store_u16 (maps_temp s) (row s * 960 + column s + j)
                    (load_u16 (maps_temp s) (row s * 960 + column s + j)
                     + 1)) in
    let base := row s * 960 + column s in
    maps_temp (for_up n j0 body s) k
    = if (base + j0 <=? k) && (k <? base + j0 + Z.of_nat n)
      then u16 (maps_temp s k + 1) else maps_temp s k.
Proof.
  induction n as [|n IH]; intros j0 s k; cbv zeta.
  - simpl for_up.
    destruct (Z.leb_spec (row s * 960 + column s + j0) k);
      destruct (Z.ltb_spec k (row s * 960 + column s + j0 + Z.of_nat 0));
      simpl; try reflexivity; lia.
  - simpl for_up. cbv zeta in IH. rewrite IH. clear IH.
    unfold assign, with_value. st_cbn.
    unfold store_u16, load_u16, upd. cbv beta.
    rewrite Nat2Z.inj_succ.
    destruct (Z.eqb_spec k (row s * 960 + column s + j0)) as [Hk|Hk];
      destruct (Z.leb_spec (row s * 960 + column s + (j0 + 1)) k);
      destruct (Z.ltb_spec k
                  (row s * 960 + column s + (j0 + 1) + Z.of_nat n));
      destruct (Z.leb_spec (row s * 960 + column s + j0) k);
      destruct (Z.ltb_spec k
                  (row s * 960 + column s + j0 + Z.succ (Z.of_nat n)));
      simpl andb; cbv iota; try lia; try reflexivity.
    subst k. apply u16_succ_u16.
Qed.

Lemma record_hit_frame :
  preserves (fun s => (maps s, row s, column s, code s, fcounter s)) record_hit.
Proof. frame. Qed.

Lemma record_hit_flat (s : state) (k : Z) :
  maps_temp (record_hit s) k
  = if (column s + code s <? 960) && (row s <? 928)
       && (row s * 960 + column s <=? k)
       && (k <=? row s * 960 + column s + code s)
    then u16 (maps_temp s k + 1) else maps_temp s k.
Proof.
  unfold record_hit, ite.
  destruct ((column s + code s <? 960) && (row s <? 928)); [|reflexivity].
  unfold with_value, for_lt. rewrite hit_loop.
  rewrite Z.add_0_r, Z.sub_0_r. simpl andb.
  destruct (Z.leb_spec (row s * 960 + column s) k); simpl andb;
    [|reflexivity].
  destruct (Z.ltb_spec k
              (row s * 960 + column s + Z.of_nat (Z.to_nat (code s + 1))));
    destruct (Z.leb_spec k (row s * 960 + column s + code s));
    try reflexivity; lia.
Qed.

(** C3.  Recording a hit never changes [maps] and prints nothing.  When
    [row < 928] and [column + code < 960], the cell of [maps_temp] at row
    [r], column [c] is incremented by 1 (in 16-bit unsigned arithmetic)
    exactly when [r = row] and [column <= c <= column + code], and every
    other cell of [maps_temp], inside or outside the grid, is unchanged;
    these are the [code + 1] cells at flat indices
    [row * 960 + column + j], [0 <= j <= code].  When [row >= 928] or
    [column + code >= 960], no cell of [maps_temp] changes. *)
Theorem record_hit_cells (s : state) :
  0 <= column s ->
  let s' := record_hit s in
  maps s' = maps s /\ out s' = out s
  /\ (row s < 928 -> column s + code s < 960 ->
      (forall r c, 0 <= c < 960 ->
         maps_temp s' (r * 960 + c)
         = if (r =? row s) && (column s <=? c) && (c <=? column s + code s)
           then u16 (maps_temp s (r * 960 + c) + 1)
           else maps_temp s (r * 960 + c))
      /\ (forall j, 0 <= j <= code s ->
            maps_temp s' (row s * 960 + column s + j)
            = u16 (maps_temp s (row s * 960 + column s + j) + 1))
      /\ (forall k, ~ (row s * 960 + column s <= k
                       <= row s * 960 + column s + code s) ->
            maps_temp s' k = maps_temp s k))
  /\ (row s >= 928 \/ column s + code s >= 960 ->
      forall k, maps_temp s' k = maps_temp s k).
Proof.
  intros Hcol. cbv zeta.
  split.
  { pose proof (record_hit_frame s) as H. cbv beta in H.
    injection H as H _ _ _ _. exact H. }
  split.
  { frame_rw out record_hit. reflexivity. }
  split.
  - intros Hr Hc.
    assert (Hg : (column s + code s <? 960) && (row s <? 928) = true).
    { apply andb_true_intro. split; apply Z.ltb_lt; assumption. }
    split; [|split].
    + intros r c Hcr. rewrite record_hit_flat, Hg. simpl andb.
      destruct (Z.eqb_spec r (row s)) as [->|Hne]; simpl andb.
      * destruct (Z.leb_spec (column s) c);
          destruct (Z.leb_spec c (column s + code s));
          destruct (Z.leb_spec (row s * 960 + column s) (row s * 960 + c));
          destruct (Z.leb_spec (row s * 960 + c)
                      (row s * 960 + column s + code s));
          simpl andb; try reflexivity; lia.
      * destruct (Z.leb_spec (row s * 960 + column s) (r * 960 + c));
          destruct (Z.leb_spec (r * 960 + c)
                      (row s * 960 + column s + code s));
          simpl andb; try reflexivity; lia.
    + intros j Hj. rewrite record_hit_flat, Hg. simpl andb.
      destruct (Z.leb_spec (row s * 960 + column s)
                  (row s * 960 + column s + j));
        destruct (Z.leb_spec (row s * 960 + column s + j)
                    (row s * 960 + column s + code s));
        simpl andb; try reflexivity; lia.
    + intros k Hk. rewrite record_hit_flat, Hg. simpl andb.
      destruct (Z.leb_spec (row s * 960 + column s) k);
        destruct (Z.leb_spec k (row s * 960 + column s + code s));
        simpl andb; try reflexivity; lia.
  - intros Hout k. rewrite record_hit_flat.
    assert (Hg : (column s + code s <? 960) && (row s <? 928) = false).
    { apply andb_false_iff.
      destruct Hout; [right|left]; apply Z.ltb_ge; lia. }
    rewrite Hg. reflexivity.
Qed.

Lemma record_hit_cells_witness :
  let hit := record_hit (set_code 1 (set_column 10 (set_row 5 start))) in
  let miss := record_hit (set_code 1 (set_column 10 (set_row 930 start))) in
  maps_temp hit (5 * 960 + 10) = 1 /\ maps_temp hit (5 * 960 + 11) = 1
  /\ maps_temp hit (5 * 960 + 12) = 0
  /\ maps_temp miss (930 * 960 + 10) = 0 /\ maps hit = zeros.
Proof.
  cbv zeta.
  destruct (record_hit_cells (set_code 1 (set_column 10 (set_row 5 start))))
    as (Hm & _ & Hin & _); [vm_compute; discriminate|].
  destruct Hin as (Hgrid & _ & _); [reflexivity|reflexivity|].
  destruct (record_hit_cells (set_code 1 (set_column 10 (set_row 930 start))))
    as (_ & _ & _ & Hout); [vm_compute; discriminate|].
  rewrite (Hgrid 5 10), (Hgrid 5 11), (Hgrid 5 12), Hm by lia.
  rewrite Hout by (left; vm_compute; discriminate).
  vm_compute. repeat split.
Defined.

(** ** Coordinate words *)

Lemma decode_row_word (t : state) :
  Z.land (pdata_pre2 t) 0x1000 <> 0 ->
  decode t = set_row (Z.land (Z.shiftr (pdata_pre2 t) 2) 0x3ff) t.
Proof.
  intros H. unfold decode, ite. apply Z.eqb_neq in H. rewrite H. reflexivity.
Qed.

Lemma decode_column_word (t : state) :
  Z.land (pdata_pre2 t) 0x1000 = 0 ->
  decode t
  = record_hit (set_code (Z.land (pdata_pre2 t) 0x3)
                  (set_column (Z.land (Z.shiftr (pdata_pre2 t) 2) 0x3ff) t)).
Proof.
  intros H. unfold decode, ite. rewrite H. reflexivity.
Qed.

(** A word that does not end the frame leaves the decoder in the frame, at
    a word boundary, with the word on top of the history. *)
Lemma word_in_frame (sgn : bool) (buf : array) (fa i : Z) (s : state) :
  counter s <> 0 -> odd s = 1 ->
  word_at buf i <> tailer \/ tsign s = 0 ->
  let s1 := loop_body sgn buf fa (i + 1) (loop_body sgn buf fa i s) in
  counter s1 = s32 (counter s + 1) /\ odd s1 = 1
  /\ pdata_pre1 s1 = word_at buf i.
Proof.
  intros Hc Ho Hw. cbv zeta.
  rewrite (loop_body_pair sgn buf fa i s Hc Ho).
  pose proof (frame_word_keeps_words sgn fa (assembled buf i s)) as Hk.
  cbv beta in Hk. injection Hk as _ Hk2 _ Hk4.
  split; [|split].
  - destruct (Z.eq_dec (word_at buf i) tailer) as [He|Hne].
    + destruct Hw as [Hw|Hw]; [contradiction|].
      rewrite frame_word_first_tailer;
        [reflexivity|rewrite assembled_pdata; exact He|exact Hw].
    + assert (Hp : pdata (assembled buf i s) <> tailer)
        by (rewrite assembled_pdata; exact Hne).
      destruct (frame_word_other_fields sgn fa _ Hp) as (_ & H2 & _).
      rewrite H2. reflexivity.
  - rewrite Hk4. reflexivity.
  - rewrite Hk2. exact (assembled_pdata_pre1 buf i s).
Qed.

(** What the frame state machine does with a word that is not a
    terminator, in terms of the word on top of the history before it. *)
Lemma word_interpreted (sgn : bool) (buf : array) (fa j : Z) (s1 : state) :
  counter s1 <> 0 -> odd s1 = 1 -> INT_MIN <= counter s1 < INT_MAX ->
  word_at buf j <> tailer ->
  let previous := pdata_pre1 s1 in
  let s2 := loop_body sgn buf fa (j + 1) (loop_body sgn buf fa j s1) in
  counter s2 = counter s1 + 1 /\ tsign s2 = 0
  /\ (6 < counter s2 -> Z.land previous 0x1000 <> 0 ->
      row s2 = Z.land (Z.shiftr previous 2) 0x3ff
      /\ column s2 = column s1 /\ code s2 = code s1
      /\ maps_temp s2 = maps_temp s1)
  /\ (6 < counter s2 -> Z.land previous 0x1000 = 0 ->
      column s2 = Z.land (Z.shiftr previous 2) 0x3ff
      /\ code s2 = Z.land previous 0x3 /\ row s2 = row s1
      /\ exists t, s2 = record_hit t /\ row t = row s1
                   /\ column t = Z.land (Z.shiftr previous 2) 0x3ff
                   /\ code t = Z.land previous 0x3
                   /\ maps_temp t = maps_temp s1)
  /\ (counter s2 <= 6 ->
      row s2 = row s1 /\ column s2 = column s1 /\ code s2 = code s1
      /\ maps_temp s2 = maps_temp s1).
Proof.
  intros Hc Ho Hr Hx. cbv zeta.
  rewrite (loop_body_pair sgn buf fa j s1 Hc Ho).
  set (a := assembled buf j s1).
  assert (Hpa : pdata a <> tailer)
    by (unfold a; rewrite assembled_pdata; exact Hx).
  assert (Hca : counter a = counter s1 + 1).
  { unfold a. rewrite assembled_counter.
    rewrite s32_small; unfold INT_MIN, INT_MAX in *; lia. }
  destruct (frame_word_other_fields sgn fa a Hpa) as (Ht & Hcs & _).
  split; [rewrite Hcs; exact Hca|].
  split; [exact Ht|].
  rewrite Hcs, Hca. clear Ht Hcs.
  rewrite (frame_word_other sgn fa a Hpa). rewrite Hca.
  split; [|split].
  - intros H6 Hbit.
    replace (counter s1 + 1 >? 6) with true
      by (symmetry; apply Z.gtb_lt; lia).
    rewrite decode_row_word by exact Hbit.
    split; [reflexivity|]. split; [reflexivity|].
    split; reflexivity.
  - intros H6 Hbit.
    replace (counter s1 + 1 >? 6) with true
      by (symmetry; apply Z.gtb_lt; lia).
    rewrite decode_column_word by exact Hbit.
    set (t := set_code _ _).
    pose proof (record_hit_frame t) as Hf. cbv beta in Hf.
    injection Hf as _ Hrow Hcol Hcode _.
    split; [rewrite Hcol; reflexivity|].
    split; [rewrite Hcode; reflexivity|].
    split; [rewrite Hrow; reflexivity|].
    exists t.
    split; [reflexivity|]. split; [reflexivity|]. split; [reflexivity|].
    split; reflexivity.
  - intros H6.
    replace (counter s1 + 1 >? 6) with false
      by (rewrite Z.gtb_ltb; symmetry; apply Z.ltb_ge; lia).
    split; [reflexivity|]. split; [reflexivity|].
    split; reflexivity.
Qed.

(** C2, as the code has it.  Two consecutive words of a frame start at
    [i] and [i + 2]; the first does not end the frame and the second, the
    current word, is not a terminator.  When the current word is processed
    the word counter has been incremented for it; if it then exceeds 6, the
    word interpreted is the one assembled just before the current one (held
    in [pdata_pre2] once the history is shifted): with bit [0x1000] set it
    gives the pending row and records no hit; otherwise it gives column and
    code and a hit-record attempt is made with them on the pending row.  If
    the counter is 6 or less nothing is interpreted. *)
Theorem decodes_previous_word (sgn : bool) (buf : array) (fa i : Z)
    (s : state) :
  0 < counter s < INT_MAX - 1 -> odd s = 1 ->
  word_at buf i <> tailer \/ tsign s = 0 ->
  word_at buf (i + 2) <> tailer ->
  let previous := word_at buf i in
  let s1 := loop_body sgn buf fa (i + 1) (loop_body sgn buf fa i s) in
  let s2 := loop_body sgn buf fa (i + 3) (loop_body sgn buf fa (i + 2) s1) in
  counter s2 = counter s + 2 /\ tsign s2 = 0
  /\ (6 < counter s2 -> Z.land previous 0x1000 <> 0 ->
      row s2 = Z.land (Z.shiftr previous 2) 0x3ff
      /\ column s2 = column s1 /\ code s2 = code s1
      /\ maps_temp s2 = maps_temp s1)
  /\ (6 < counter s2 -> Z.land previous 0x1000 = 0 ->
      column s2 = Z.land (Z.shiftr previous 2) 0x3ff
      /\ code s2 = Z.land previous 0x3 /\ row s2 = row s1
      /\ exists t, s2 = record_hit t /\ row t = row s1
                   /\ column t = Z.land (Z.shiftr previous 2) 0x3ff
                   /\ code t = Z.land previous 0x3
                   /\ maps_temp t = maps_temp s1)
  /\ (counter s2 <= 6 ->
      row s2 = row s1 /\ column s2 = column s1 /\ code s2 = code s1
      /\ maps_temp s2 = maps_temp s1).
Proof.
  intros Hr Ho Hw Hx. cbv zeta.
  assert (Hc : counter s <> 0) by lia.
  destruct (word_in_frame sgn buf fa i s Hc Ho Hw) as (Hc1 & Ho1 & Hp1).
  rewrite s32_small in Hc1 by (unfold INT_MIN, INT_MAX in *; lia).
  replace (i + 3) with (i + 2 + 1) by lia.
  rewrite <- Hp1.
  replace (counter s + 2) with
    (counter (loop_body sgn buf fa (i + 1) (loop_body sgn buf fa i s)) + 1)
    by lia.
  apply word_interpreted.
  - lia.
  - exact Ho1.
  - unfold INT_MIN, INT_MAX in *. lia.
  - exact Hx.
Qed.

Lemma decodes_previous_word_witness :
  let s := after2 18 in
  let s1 := loop_body true frame2 5 19 (loop_body true frame2 5 18 s) in
  let s2 := loop_body true frame2 5 21 (loop_body true frame2 5 20 s1) in
  (counter s = 8 /\ odd s = 1 /\ word_at frame2 18 = 0x1024
   /\ word_at frame2 20 = 0x0029)
  /\ counter s2 = 8 + 2 /\ row s2 = 9.
Proof.
  cbv zeta.
  split; [vm_compute; repeat split|].
  destruct (decodes_previous_word true frame2 5 18 (after2 18))
    as (Hc & _ & Hrow & _).
  - vm_compute. split; reflexivity.
  - vm_compute. reflexivity.
  - left. vm_compute. discriminate.
  - vm_compute. discriminate.
  - cbv zeta in Hc, Hrow. split; [exact Hc|].
    destruct Hrow as (Hrow & _).
    + rewrite Hc. vm_compute. reflexivity.
    + vm_compute. discriminate.
    + etransitivity; [exact Hrow|]. vm_compute. reflexivity.
Defined.

(** C2, as stated, fails: on [frame2] the words [0x1014] (row 5), [0x1024]
    (row 9) and [0x0029] follow one another; once the third is processed
    the pending row is 9, taken from the word just before it, not 5 from
    the word two positions behind. *)
Lemma decodes_two_behind_fails : ~ decodes_two_behind.
Proof.
  intros H.
  specialize (H true frame2 5 16 (after2 16)).
  cbv zeta in H.
  destruct H as (Hrow & _).
  - vm_compute. discriminate.
  - vm_compute. reflexivity.
  - vm_compute. discriminate.
  - vm_compute. discriminate.
  - vm_compute. discriminate.
  - vm_compute. reflexivity.
  - destruct Hrow as (Hrow & _).
    + vm_compute. discriminate.
    + vm_compute in Hrow. discriminate Hrow.
Qed.

(** ** Hit-map accumulator: the commit *)

(** Settles the comparisons of a goal one by one by linear arithmetic. *)
Ltac bool_lia :=
  repeat match goal with
  | |- context [?x <=? ?y] =>
      first [ replace (x <=? y) with true by (symmetry; apply Z.leb_le; lia)
            | replace (x <=? y) with false by (symmetry; apply Z.leb_gt; lia) ]
  | |- context [?x <? ?y] =>
      first [ replace (x <? y) with true by (symmetry; apply Z.ltb_lt; lia)
            | replace (x <? y) with false by (symmetry; apply Z.ltb_ge; lia) ]
  | |- context [?x =? ?y] =>
      first [ replace (x =? y) with true by (symmetry; apply Z.eqb_eq; lia)
            | replace (x =? y) with false by (symmetry; apply Z.eqb_neq; lia) ]
  end.

(** A counted loop with its number of iterations made a variable, so that
    reasoning about it never unrolls it. *)
Lemma for_lt_count (lo hi : Z) (body : Z -> cmd) (s : state) :
  lo <= hi ->
  exists n : nat,
    Z.of_nat n = hi - lo /\ for_lt lo hi body s = for_up n lo body s.
Proof.
  intros H. exists (Z.to_nat (hi - lo)).
  split; [apply Z2Nat.id; lia|reflexivity].
Qed.

(** The inner loop of the commit, over the columns [m0 .. m0 + n - 1] of
    row [l]. *)
Lemma commit_row (l : Z) (n : nat) :
  forall (m0 : Z) (s : state) (k : Z),
    let body := fun m : Z =>
      assign set_maps
        (fun s => store_u16 (maps s) (l * 960 + m)
                    (load_u16 (maps_temp s) (l * 960 + m))) ;;
      assign set_maps_temp
        (fun s => store_u16 (maps_temp s) (l * 960 + m) 0) in
    let s' := for_up n m0 body s in
    let hit := (l * 960 + m0 <=? k) && (k <? l * 960 + m0 + Z.of_nat n) in
    maps s' k = (if hit then load_u16 (maps_temp s) k else maps s k)
    /\ maps_temp s' k = (if hit then 0 else maps_temp s k).
Proof.
  induction n as [|n IH]; intros m0 s k; cbv zeta.
  - cbn [for_up].
    destruct (Z.leb_spec (l * 960 + m0) k);
      destruct (Z.ltb_spec k (l * 960 + m0 + Z.of_nat 0));
      simpl andb; cbv iota; try (split; reflexivity); lia.
  - cbn [for_up]. cbv zeta in IH.
    match goal with
    | |- context [for_up n (m0 + 1) _ ?t] =>
        destruct (IH (m0 + 1) t k) as [IH1 IH2]
    end. clear IH.
    rewrite IH1, IH2. clear IH1 IH2.
    unfold assign, with_value, seq. st_cbn.
    unfold store_u16, load_u16, upd. cbv beta.
    rewrite Nat2Z.inj_succ.
    change (u16 0) with 0.
    destruct (Z.lt_trichotomy k (l * 960 + m0)) as [Hk|[Hk|Hk]].
    + bool_lia. split; reflexivity.
    + subst k. bool_lia. simpl andb. cbv iota.
      split; [apply u16_idem|reflexivity].
    + destruct (Z_lt_le_dec k (l * 960 + m0 + Z.succ (Z.of_nat n)));
        bool_lia; split; reflexivity.
Qed.

(** The inner loop over a whole row. *)
Lemma commit_cols (l : Z) (s : state) (k : Z) :
  let s' :=
    for_lt 0 960 (fun m : Z =>
      assign set_maps
        (fun s => store_u16 (maps s) (l * 960 + m)
                    (load_u16 (maps_temp s) (l * 960 + m))) ;;
      assign set_maps_temp
        (fun s => store_u16 (maps_temp s) (l * 960 + m) 0)) s in
  let hit := (l * 960 <=? k) && (k <? (l + 1) * 960) in
  maps s' k = (if hit then load_u16 (maps_temp s) k else maps s k)
  /\ maps_temp s' k = (if hit then 0 else maps_temp s k).
Proof.
  cbv zeta.
  match goal with
  | |- context [for_lt 0 960 ?body s] =>
      destruct (for_lt_count 0 960 body s) as (n & Hn & ->); [lia|];
      destruct (commit_row l n 0 s k) as [R1 R2]
  end.
  cbv zeta in R1, R2. rewrite R1, R2. clear R1 R2.
  replace (l * 960 + 0 + Z.of_nat n) with ((l + 1) * 960) by lia.
  replace (l * 960 + 0) with (l * 960) by lia.
  split; reflexivity.
Qed.

(** A loop over the rows [l0 .. l0 + n - 1] whose body treats one row. *)
Lemma rows_loop (body : Z -> cmd) :
  (forall l s k,
     let hit := (l * 960 <=? k) && (k <? (l + 1) * 960) in
     maps (body l s) k
     = (if hit then load_u16 (maps_temp s) k else maps s k)
     /\ maps_temp (body l s) k = (if hit then 0 else maps_temp s k)) ->
  forall (n : nat) (l0 : Z) (s : state) (k : Z),
    let s' := for_up n l0 body s in
    let hit := (l0 * 960 <=? k) && (k <? (l0 + Z.of_nat n) * 960) in
    maps s' k = (if hit then load_u16 (maps_temp s) k else maps s k)
    /\ maps_temp s' k = (if hit then 0 else maps_temp s k).
Proof.
  intros Hbody n. cbv zeta in Hbody.
  induction n as [|n IH]; intros l0 s k; cbv zeta.
  - cbn [for_up].
    destruct (Z_lt_le_dec k (l0 * 960)); bool_lia; split; reflexivity.
  - cbn [for_up]. cbv zeta in IH.
    destruct (IH (l0 + 1) (body l0 s) k) as [IH1 IH2]. clear IH.
    rewrite IH1, IH2. clear IH1 IH2.
    unfold load_u16 at 1.
    destruct (Hbody l0 s k) as [R1 R2]. rewrite R1, R2. clear R1 R2.
    rewrite Nat2Z.inj_succ.
    destruct (Z_lt_le_dec k (l0 * 960)) as [Hk|Hk];
      [bool_lia; split; reflexivity|].
    destruct (Z_lt_le_dec k ((l0 + 1) * 960)) as [Hk1|Hk1];
      [bool_lia; split; reflexivity|].
    destruct (Z_lt_le_dec k ((l0 + Z.succ (Z.of_nat n)) * 960));
      bool_lia; split; reflexivity.
Qed.

Lemma commit_due (fa : Z) (s : state) (k : Z) :
  fcounter s = fa ->
  let s' := commit fa s in
  let grid := (0 <=? k) && (k <? 928 * 960) in
  fcounter s' = 0
  /\ maps s' k = (if grid then load_u16 (maps_temp s) k else maps s k)
  /\ maps_temp s' k = (if grid then 0 else maps_temp s k).
Proof.
  intros Hf. cbv zeta.
  split; [rewrite commit_fcounter, Hf, Z.eqb_refl; reflexivity|].
  assert (E : exists body n,
             Z.of_nat n = 928
             /\ commit fa s = for_up n 0 body (set_fcounter 0 s)
             /\ body = (fun l : Z =>
                  for_lt 0 960 (fun m : Z =>
                    assign set_maps
                      (fun s => store_u16 (maps s) (l * 960 + m)
                                  (load_u16 (maps_temp s) (l * 960 + m))) ;;
                    assign set_maps_temp
                      (fun s => store_u16 (maps_temp s) (l * 960 + m) 0)))).
  { unfold commit, ite. rewrite Hf, Z.eqb_refl. unfold seq at 1.
    match goal with
    | |- context [for_lt 0 928 ?body ?t] =>
        destruct (for_lt_count 0 928 body t) as (n & Hn & ->); [lia|];
        exists body, n
    end.
    split; [lia|]. split; reflexivity. }
  destruct E as (body & n & Hn & -> & ->).
  match goal with
  | |- context [for_up n 0 ?body ?t] =>
      destruct (rows_loop body (fun l s k => commit_cols l s k) n 0 t k)
        as [R1 R2]
  end.
  cbv zeta in R1, R2. rewrite R1, R2. clear R1 R2.
  replace ((0 + Z.of_nat n) * 960) with (928 * 960) by lia.
  split; reflexivity.
Qed.

(** ** Frames completed and the commit *)

Lemma frame_end_not_due (sgn : bool) (fa : Z) (a : state) :
  s32 (fcounter a + 1) <> fa ->
  let s' := frame_end sgn fa a in
  fcounter s' = s32 (fcounter a + 1) /\ maps s' = maps a
  /\ maps_temp s' = maps_temp a.
Proof.
  intros H. cbv zeta. rewrite frame_end_split.
  set (e := set_fcounter _ _).
  assert (He : fcounter (telemetry sgn e) = s32 (fcounter a + 1)).
  { frame_rw fcounter (telemetry sgn). reflexivity. }
  rewrite commit_not_due by (rewrite He; exact H).
  split; [exact He|].
  frame_rw maps (telemetry sgn). frame_rw maps_temp (telemetry sgn).
  split; reflexivity.
Qed.

Lemma frame_end_due (sgn : bool) (fa : Z) (a : state) (k : Z) :
  s32 (fcounter a + 1) = fa ->
  let s' := frame_end sgn fa a in
  let grid := (0 <=? k) && (k <? 928 * 960) in
  fcounter s' = 0
  /\ maps s' k = (if grid then load_u16 (maps_temp a) k else maps a k)
  /\ maps_temp s' k = (if grid then 0 else maps_temp a k).
Proof.
  intros H. cbv zeta. rewrite frame_end_split.
  set (e := set_fcounter _ _).
  assert (He : fcounter (telemetry sgn e) = fa).
  { frame_rw fcounter (telemetry sgn). exact H. }
  destruct (commit_due fa (telemetry sgn e) k He) as (H1 & H2 & H3).
  rewrite H1, H2, H3.
  frame_rw maps (telemetry sgn). frame_rw maps_temp (telemetry sgn).
  repeat split.
Qed.

Lemma ends_frame_step (sgn : bool) (buf : array) (fa i : Z) (s : state) :
  ends_frame buf i s = true ->
  loop_body sgn buf fa i s = frame_end sgn fa (assemble (next_byte buf i s)).
Proof.
  unfold ends_frame. intros H.
  apply andb_prop in H. destruct H as [H Ht].
  apply andb_prop in H. destruct H as [H Hp].
  apply andb_prop in H. destruct H as [Hc Ho].
  apply negb_true_iff, Z.eqb_neq in Hc, Ho, Ht.
  apply Z.eqb_eq in Hp.
  rewrite (loop_body_high sgn buf fa i s Hc Ho).
  apply frame_word_second_tailer; assumption.
Qed.

Lemma seek_frame (sgn : bool) (buf : array) (i : Z) :
  preserves (fun s => (maps s, maps_temp s, fcounter s, row s, i2c_data s,
                       out s))
    (seek sgn buf i).
Proof. frame. Qed.

Lemma other_step (sgn : bool) (buf : array) (fa i : Z) (s : state) :
  ends_frame buf i s = false ->
  maps (loop_body sgn buf fa i s) = maps s
  /\ fcounter (loop_body sgn buf fa i s) = fcounter s.
Proof.
  intros H.
  destruct (Z.eq_dec (counter s) 0) as [Hc|Hc].
  { rewrite (loop_body_seek sgn buf fa i s Hc).
    pose proof (seek_frame sgn buf i (next_byte buf i s)) as Hf.
    cbv beta in Hf. injection Hf as H1 _ H3 _ _ _.
    rewrite H1, H3. split; reflexivity. }
  destruct (Z.eq_dec (odd s) 1) as [Ho|Ho].
  { rewrite (loop_body_low sgn buf fa i s Hc Ho). split; reflexivity. }
  rewrite (loop_body_high sgn buf fa i s Hc Ho).
  set (a := assemble (next_byte buf i s)).
  destruct (Z.eq_dec (pdata a) tailer) as [Hp|Hp].
  - assert (Ht : tsign a = 0).
    { unfold ends_frame in H.
      apply Z.eqb_neq in Hc, Ho. rewrite Hc, Ho in H.
      change (u16 (pdata s + Z.shiftl (load_u8 buf i) 8)) with (pdata a) in H.
      rewrite Hp, Z.eqb_refl in H. simpl in H.
      apply negb_false_iff, Z.eqb_eq in H. exact H. }
    rewrite (frame_word_first_tailer sgn fa a Hp Ht). split; reflexivity.
  - destruct (frame_word_other_fields sgn fa a Hp) as (_ & _ & H3 & H4 & _).
    rewrite H3, H4. split; reflexivity.
Qed.

Lemma run_O (sgn : bool) (buf : array) (fa i : Z) (s : state) :
  run sgn buf fa O i s = s.
Proof. reflexivity. Qed.

Lemma for_up_S (n : nat) (j : Z) (body : Z -> cmd) (s : state) :
  for_up (S n) j body s = for_up n (j + 1) body (body j s).
Proof. reflexivity. Qed.

Lemma run_S (sgn : bool) (buf : array) (fa : Z) (n : nat) (i : Z) (s : state) :
  run sgn buf fa (S n) i s
  = run sgn buf fa n (i + 1) (loop_body sgn buf fa i s).
Proof. unfold run. apply for_up_S. Qed.

(** [data_cal] is the run of [buflen] iterations from index 0 and from
    the state at entry. *)
Lemma data_cal_run (sgn : bool) (garbage buf m t d : array) (f fa : Z) :
  data_cal sgn garbage buf m t d f fa
  = run sgn buf fa (Z.to_nat buflen) 0 (init garbage m t d f).
Proof.
  unfold data_cal, run, for_lt.
  replace (datanum * 4 - 0) with buflen by reflexivity. reflexivity.
Qed.

Lemma frames_O (sgn : bool) (buf : array) (fa i : Z) (s : state) :
  frames sgn buf fa O i s = 0.
Proof. reflexivity. Qed.

Lemma frames_S (sgn : bool) (buf : array) (fa : Z) (n : nat) (i : Z)
    (s : state) :
  frames sgn buf fa (S n) i s
  = (if ends_frame buf i s then 1 else 0)
    + frames sgn buf fa n (i + 1) (loop_body sgn buf fa i s).
Proof. reflexivity. Qed.

Lemma frames_nonneg (sgn : bool) (buf : array) (fa : Z) (n : nat) :
  forall i s, 0 <= frames sgn buf fa n i s.
Proof.
  induction n as [|n IH]; intros i s.
  - rewrite frames_O. lia.
  - rewrite frames_S. specialize (IH (i + 1) (loop_body sgn buf fa i s)).
    destruct (ends_frame buf i s); lia.
Qed.

(** As long as fewer than [fa] frames have been completed since the
    counter was 0, [maps] is left alone and the counter counts them. *)
Lemma stable_before_commit (sgn : bool) (buf : array) (fa : Z) (n : nat) :
  forall i s,
    0 <= fcounter s -> fa <= INT_MAX ->
    fcounter s + frames sgn buf fa n i s < fa ->
    maps (run sgn buf fa n i s) = maps s
    /\ fcounter (run sgn buf fa n i s) = fcounter s + frames sgn buf fa n i s.
Proof.
  induction n as [|n IH]; intros i s H0 Hfa Hlt.
  - rewrite run_O, frames_O. split; [reflexivity|lia].
  - rewrite run_S, frames_S. rewrite frames_S in Hlt.
    pose proof (frames_nonneg sgn buf fa n (i + 1)
                  (loop_body sgn buf fa i s)) as Hnn.
    destruct (ends_frame buf i s) eqn:He.
    + assert (Hs : s32 (fcounter s + 1) = fcounter s + 1).
      { apply s32_small. unfold INT_MIN, INT_MAX in *. lia. }
      pose proof (ends_frame_step sgn buf fa i s He) as Hstep.
      destruct (frame_end_not_due sgn fa (assemble (next_byte buf i s)))
        as (F1 & F2 & _).
      { change (fcounter (assemble (next_byte buf i s))) with (fcounter s).
        rewrite Hs. lia. }
      change (fcounter (assemble (next_byte buf i s))) with (fcounter s) in F1.
      change (maps (assemble (next_byte buf i s))) with (maps s) in F2.
      rewrite <- Hstep in F1, F2. rewrite Hs in F1.
      destruct (IH (i + 1) (loop_body sgn buf fa i s)) as (I1 & I2).
      * rewrite F1. lia.
      * exact Hfa.
      * rewrite F1. lia.
      * rewrite I1, I2, F1, F2. split; [reflexivity|lia].
    + destruct (other_step sgn buf fa i s He) as (F2 & F1).
      destruct (IH (i + 1) (loop_body sgn buf fa i s)) as (I1 & I2).
      * rewrite F1. lia.
      * exact Hfa.
      * rewrite F1. lia.
      * rewrite I1, I2, F1, F2. split; [reflexivity|lia].
Qed.

(** C4.  An iteration that completes a frame runs the end-of-frame block,
    any other iteration leaves [maps] and the frame counter alone.  At the
    end of a frame the frame counter is incremented; if it then equals
    [framadd], every cell of [maps] takes the content of the corresponding
    cell of [maps_temp], every cell of [maps_temp] becomes 0 and the frame
    counter becomes 0; otherwise [maps] and [maps_temp] are unchanged and the
    counter keeps the incremented value.  Hence, from a counter at 0 (or any
    non-negative value), [maps] is unchanged as long as the frames completed
    bring the counter to less than [framadd], over any run of iterations
    and over a whole call of [data_cal]. *)
Theorem commit_when_due (sgn : bool) (buf : array) (fa : Z) :
  (forall i s,
     (ends_frame buf i s = true ->
      loop_body sgn buf fa i s
      = frame_end sgn fa (assemble (next_byte buf i s)))
     /\ (ends_frame buf i s = false ->
         maps (loop_body sgn buf fa i s) = maps s
         /\ fcounter (loop_body sgn buf fa i s) = fcounter s))
  /\ (forall a,
        let n := s32 (fcounter a + 1) in
        let s' := frame_end sgn fa a in
        (n = fa ->
         fcounter s' = 0
         /\ forall k, 0 <= k < 928 * 960 ->
              maps s' k = load_u16 (maps_temp a) k /\ maps_temp s' k = 0)
        /\ (n <> fa ->
            fcounter s' = n /\ maps s' = maps a
            /\ maps_temp s' = maps_temp a))
  /\ (forall n i s,
        0 <= fcounter s -> fa <= INT_MAX ->
        fcounter s + frames sgn buf fa n i s < fa ->
        maps (run sgn buf fa n i s) = maps s
        /\ fcounter (run sgn buf fa n i s)
           = fcounter s + frames sgn buf fa n i s)
  /\ (forall garbage m t d f,
        let completed :=
          frames sgn buf fa (Z.to_nat buflen) 0 (init garbage m t d f) in
        0 <= f -> fa <= INT_MAX -> f + completed < fa ->
        maps (data_cal sgn garbage buf m t d f fa) = m
        /\ fcounter (data_cal sgn garbage buf m t d f fa) = f + completed).
Proof.
  split; [|split; [|split]].
  - intros i s. split.
    + apply ends_frame_step.
    + apply other_step.
  - intros a. cbv zeta. split.
    + intros Hn. split.
      * apply (frame_end_due sgn fa a 0 Hn).
      * intros k Hk.
        destruct (frame_end_due sgn fa a k Hn) as (_ & H2 & H3).
        rewrite H2, H3.
        replace ((0 <=? k) && (k <? 928 * 960)) with true;
          [split; reflexivity|].
        symmetry. apply andb_true_intro.
        split; [apply Z.leb_le|apply Z.ltb_lt]; lia.
    + intros Hn. apply (frame_end_not_due sgn fa a Hn).
  - intros n i s. apply stable_before_commit.
  - intros garbage m t d f. cbv zeta. intros H0 Hfa Hlt.
    rewrite data_cal_run.
    exact (stable_before_commit sgn buf fa (Z.to_nat buflen) 0
             (init garbage m t d f) H0 Hfa Hlt).
Qed.

Lemma commit_when_due_witness :
  let a := set_fcounter 4 (set_tsign 1 (after 26)) in
  (forall k, 0 <= k < 928 * 960 ->
     maps (frame_end true 5 a) k = load_u16 (maps_temp a) k
     /\ maps_temp (frame_end true 5 a) k = 0)
  /\ fcounter (frame_end true 5 a) = 0
  /\ fcounter (frame_end true 7 a) = 5
  /\ maps (run true frame1 5 26 0 start) = zeros
  /\ fcounter (run true frame1 5 26 0 start) = 1.
Proof.
  cbv zeta.
  destruct (commit_when_due true frame1 5) as (_ & Hend & Hrun & _).
  destruct (commit_when_due true frame1 7) as (_ & Hend7 & _).
  specialize (Hend (set_fcounter 4 (set_tsign 1 (after 26)))).
  specialize (Hend7 (set_fcounter 4 (set_tsign 1 (after 26)))).
  cbv zeta in Hend, Hend7.
  destruct Hend as (Hdue & _). destruct Hend7 as (_ & Hnot).
  destruct Hdue as (Hf & Hcells); [vm_compute; reflexivity|].
  destruct Hnot as (Hf7 & _); [vm_compute; discriminate|].
  destruct (Hrun 26%nat 0 start) as (Hm & Hc).
  - vm_compute. discriminate.
  - vm_compute. discriminate.
  - vm_compute. reflexivity.
  - split; [exact Hcells|]. split; [exact Hf|].
    split; [rewrite Hf7; vm_compute; reflexivity|].
    split; [rewrite Hm; reflexivity|].
    rewrite Hc. vm_compute. reflexivity.
Defined.

(** ** Telemetry extractor *)

Lemma land_mask_range (x m : Z) : 0 <= m -> 0 <= Z.land x m <= m.
Proof.
  intros Hm. split; [apply Z.land_nonneg; right; exact Hm|].
  assert (Hd : Z.land (Z.ldiff m x) (Z.land x m) = 0).
  { rewrite Z.land_assoc, Z.land_ldiff. reflexivity. }
  pose proof (Z.lor_ldiff_and m x) as Hl.
  rewrite (Z.land_comm m x) in Hl.
  rewrite <- Z.lxor_lor, <- Z.add_nocarry_lxor in Hl by exact Hd.
  assert (0 <= Z.ldiff m x) by (apply Z.ldiff_nonneg; left; exact Hm).
  lia.
Qed.

Lemma add_shiftl_lor (x y n : Z) :
  0 <= n -> 0 <= y < 2 ^ n -> Z.shiftl x n + y = Z.lor (Z.shiftl x n) y.
Proof.
  intros Hn Hy.
  assert (Hl : Z.land (Z.shiftl x n) y = 0).
  { apply Z.bits_inj'. intros k Hk. rewrite Z.land_spec, Z.bits_0.
    destruct (Z.ltb_spec k n).
    - rewrite Z.shiftl_spec_low by assumption. reflexivity.
    - destruct (Z.eq_dec y 0) as [->|Hy0].
      + rewrite Z.bits_0. apply andb_false_r.
      + rewrite (Z.bits_above_log2 y k); [apply andb_false_r|lia|].
        apply Z.log2_lt_pow2; [lia|].
        apply Z.lt_le_trans with (2 ^ n); [lia|].
        apply Z.pow_le_mono_r; lia. }
  rewrite <- Z.lxor_lor by exact Hl.
  apply Z.add_nocarry_lxor. exact Hl.
Qed.

(** The channel identifier is always one of 0, 1, 2, 3. *)
Lemma channel_id_range (x : Z) :
  let id := Z.shiftr (Z.land x 0x0c) 2 in
  id = 0 \/ id = 1 \/ id = 2 \/ id = 3.
Proof.
  cbv zeta. pose proof (land_mask_range x 0x0c ltac:(lia)) as H.
  rewrite Z.shiftr_div_pow2 by lia. change (2 ^ 2) with 4.
  assert (0 <= Z.land x 12 / 4 <= 3).
  { split; [apply Z.div_pos; lia|].
    apply Z.div_le_upper_bound; lia. }
  lia.
Qed.

(** What the extractor writes, whatever the signedness of [char]:
    [c k] is the staged [char] number [k] promoted to [int]. *)
Lemma telemetry_cells (sgn : bool) (s : state) :
  let c := staged sgn s in
  let id := Z.shiftr (Z.land (c 6) 0x0c) 2 in
  let s' := telemetry sgn s in
  i2c_data s' 0
  = u32 (Z.shiftl (Z.land (c 1) 0x0f) 16 + Z.shiftl (c 2) 8 + c 3)
  /\ i2c_data s' 1 = u32 (Z.shiftr (Z.land (c 1) 0x30) 4)
  /\ i2c_data s' 2 = u32 (Z.shiftr (Z.shiftl (c 4) 2 + Z.shiftr (c 5) 6) 2)
  /\ ch s' = id
  /\ i2c_data s' 7 = u32 id
  /\ i2c_data s' (3 + id) = u32 (Z.shiftl (Z.land (c 6) 0x03) 8 + c 7)
  /\ (forall k, k <> 0 -> k <> 1 -> k <> 2 -> k <> 7 -> k <> 3 + id ->
        i2c_data s' k = i2c_data s k).
Proof.
  cbv zeta.
  pose proof (channel_id_range (staged sgn s 6)) as Hid. cbv zeta in Hid.
  unfold telemetry, overcurrent_check, set_i2c, channel_value, staged in *.
  unfold seq, assign, with_value, ite, skip. st_cbn.
  set (id := Z.shiftr (Z.land (load_char sgn (i2c_data_temp s) 6) 12) 2) in *.
  unfold store_u32.
  destruct Hid as [E|[E|[E|E]]]; rewrite E;
    [change (3 + 0) with 3|change (3 + 1) with 4|change (3 + 2) with 5
    |change (3 + 3) with 6];
    cbn [Z.eqb Pos.eqb];
    repeat match goal with
    | |- context [if ?b then _ else _] =>
        match b with
        | (_ >? _) => destruct b
        end
    end;
    st_cbn; unfold upd; cbn [Z.eqb Pos.eqb];
    (repeat split;
     intros k H0 H1 H2 H7 Hc;
     apply Z.eqb_neq in H0, H1, H2, H7, Hc;
     rewrite ?H0, ?H1, ?H2, ?H7, ?Hc; reflexivity).
Qed.

(** Where plain [char] is unsigned the extractor computes the fields from
    the staged bytes [b 0 .. b 7], read as numbers from 0 to 255, by the
    formulas of the telemetry format. *)
Theorem telemetry_unsigned_char (s : state) :
  let b := fun k => u8 (i2c_data_temp s k) in
  let id := Z.shiftr (Z.land (b 6) 0x0c) 2 in
  let s' := telemetry false s in
  i2c_data s' 0
  = Z.lor (Z.lor (Z.shiftl (Z.land (b 1) 0x0f) 16) (Z.shiftl (b 2) 8)) (b 3)
  /\ i2c_data s' 1 = Z.shiftr (Z.land (b 1) 0x30) 4
  /\ i2c_data s' 2 = Z.shiftr (Z.shiftl (b 4) 2 + Z.shiftr (b 5) 6) 2
  /\ ch s' = id
  /\ i2c_data s' 7 = id
  /\ i2c_data s' (3 + id) = Z.shiftl (Z.land (b 6) 0x03) 8 + b 7.
Proof.
  cbv zeta.
  destruct (telemetry_cells false s) as (H0 & H1 & H2 & Hc & H7 & Hv & _).
  cbv zeta in *.
  change (staged false s) with (fun k => u8 (i2c_data_temp s k)) in *.
  cbv beta in *.
  pose proof (u8_range (i2c_data_temp s 1)) as R1.
  pose proof (u8_range (i2c_data_temp s 2)) as R2.
  pose proof (u8_range (i2c_data_temp s 3)) as R3.
  pose proof (u8_range (i2c_data_temp s 4)) as R4.
  pose proof (u8_range (i2c_data_temp s 5)) as R5.
  pose proof (u8_range (i2c_data_temp s 6)) as R6.
  pose proof (u8_range (i2c_data_temp s 7)) as R7.
  set (b1 := u8 (i2c_data_temp s 1)) in *.
  set (b2 := u8 (i2c_data_temp s 2)) in *.
  set (b3 := u8 (i2c_data_temp s 3)) in *.
  set (b4 := u8 (i2c_data_temp s 4)) in *.
  set (b5 := u8 (i2c_data_temp s 5)) in *.
  set (b6 := u8 (i2c_data_temp s 6)) in *.
  set (b7 := u8 (i2c_data_temp s 7)) in *.
  pose proof (land_mask_range b1 0x0f ltac:(lia)) as M1.
  pose proof (land_mask_range b1 0x30 ltac:(lia)) as M2.
  pose proof (land_mask_range b6 0x03 ltac:(lia)) as M3.
  pose proof (channel_id_range b6) as Mid. cbv zeta in Mid.
  split; [|split; [|split; [|split; [|split]]]].
  - rewrite H0.
    assert (E1 : Z.shiftl (Z.land b1 15) 16 + Z.shiftl b2 8
                 = Z.shiftl (Z.shiftl (Z.land b1 15) 8 + b2) 8).
    { rewrite !Z.shiftl_mul_pow2 by lia. change (2 ^ 16) with 65536.
      change (2 ^ 8) with 256. lia. }
    assert (E2 : Z.shiftl (Z.land b1 15) 16 + Z.shiftl b2 8
                 = Z.lor (Z.shiftl (Z.land b1 15) 16) (Z.shiftl b2 8)).
    { apply add_shiftl_lor; [lia|].
      rewrite Z.shiftl_mul_pow2 by lia. change (2 ^ 8) with 256.
      change (2 ^ 16) with 65536. lia. }
    rewrite <- E2. rewrite E1.
    rewrite <- add_shiftl_lor by (change (2 ^ 8) with 256; lia).
    apply u32_small.
    rewrite !Z.shiftl_mul_pow2 by lia. change (2 ^ 8) with 256. lia.
  - rewrite H1. apply u32_small.
    rewrite Z.shiftr_div_pow2 by lia. change (2 ^ 4) with 16.
    Z.div_mod_to_equations. lia.
  - rewrite H2. apply u32_small.
    rewrite !Z.shiftr_div_pow2, Z.shiftl_mul_pow2 by lia.
    change (2 ^ 2) with 4. change (2 ^ 6) with 64.
    Z.div_mod_to_equations. lia.
  - exact Hc.
  - rewrite H7. apply u32_small. lia.
  - rewrite Hv. apply u32_small.
    rewrite Z.shiftl_mul_pow2 by lia. change (2 ^ 8) with 256. lia.
Qed.

(** The same bytes decoded where plain [char] is unsigned. *)
Example telemetry_unsigned_char_run :
  let s := run false frame3 5 26 0 start in
  (fcounter s, i2c_data s 0, i2c_data s 2, i2c_data s 6, i2c_data s 7)
  = (1, 0x10283, 0x84, 651, 3).
Proof. vm_compute. reflexivity. Qed.

(** ** Staging the telemetry bytes *)

Lemma stage_body_mono (sgn : bool) (buf : array) (i m x : Z) (s : state) :
  In x (reads s) ->
  In x (reads
    (ite (fun _ => i + m <? datanum * 4)
       (assign set_reads (fun s => (i + m + 1) :: reads s) ;;
        assign set_i2c_data_temp
          (fun s => store_char sgn (i2c_data_temp s) m
                      (load_u8 buf (i + m + 1))))
       skip s)).
Proof.
  intros H. unfold ite. destruct (i + m <? datanum * 4).
  - right. exact H.
  - exact H.
Qed.

Lemma stage_loop_mono (sgn : bool) (buf : array) (i x : Z) (n : nat) :
  forall m0 s,
    In x (reads s) ->
    In x (reads
      (for_up n m0
         (fun m =>
            ite (fun _ => i + m <? datanum * 4)
              (assign set_reads (fun s => (i + m + 1) :: reads s) ;;
               assign set_i2c_data_temp
                 (fun s => store_char sgn (i2c_data_temp s) m
                             (load_u8 buf (i + m + 1))))
              skip) s)).
Proof.
  induction n as [|n IH]; intros m0 s H.
  - exact H.
  - rewrite for_up_S. apply IH. apply stage_body_mono. exact H.
Qed.

Lemma stage_loop_reads (sgn : bool) (buf : array) (i m : Z) (n : nat) :
  forall m0 s,
    m0 <= m < m0 + Z.of_nat n -> i + m < datanum * 4 ->
    In (i + m + 1) (reads
      (for_up n m0
         (fun m =>
            ite (fun _ => i + m <? datanum * 4)
              (assign set_reads (fun s => (i + m + 1) :: reads s) ;;
               assign set_i2c_data_temp
                 (fun s => store_char sgn (i2c_data_temp s) m
                             (load_u8 buf (i + m + 1))))
              skip) s)).
Proof.
  induction n as [|n IH]; intros m0 s Hm Hi.
  - simpl in Hm. lia.
  - rewrite for_up_S.
    destruct (Z.eq_dec m m0) as [->|Hne].
    + apply stage_loop_mono. unfold ite.
      replace (i + m0 <? datanum * 4) with true
        by (symmetry; apply Z.ltb_lt; exact Hi).
      left. reflexivity.
    + apply IH; [lia|exact Hi].
Qed.

(** Every offset [m] below 8 with [i + m] inside the buffer makes the
    staging loop read index [i + m + 1]. *)
Lemma stage_reads (sgn : bool) (buf : array) (i m : Z) (s : state) :
  0 <= m < 8 -> i + m < buflen ->
  In (i + m + 1) (reads (stage sgn buf i s)).
Proof.
  intros Hm Hi. unfold stage.
  match goal with
  | |- context [for_lt 0 8 ?body s] =>
      destruct (for_lt_count 0 8 body s) as (n & Hn & ->); [lia|]
  end.
  apply stage_loop_reads; [lia|exact Hi].
Qed.

(** Whenever the decoder is still looking for the marker, or finds it,
    within the last 8 bytes of the buffer, it reads the byte at index
    [buflen], one past the last byte of the buffer. *)
Lemma seek_reads_past_end (sgn : bool) (buf : array) (fa i : Z) (s : state) :
  counter s = 0 -> buflen - 8 <= i < buflen ->
  In buflen (reads (loop_body sgn buf fa i s)).
Proof.
  intros Hc Hi. rewrite (loop_body_seek sgn buf fa i s Hc).
  unfold seek, seq.
  replace buflen with (i + (buflen - 1 - i) + 1) at 1 by lia.
  apply stage_reads; lia.
Qed.


(** ** The over-current report *)

Lemma oblivious_skip : oblivious skip.
Proof. intros s. reflexivity. Qed.

Lemma oblivious_seq (c1 c2 : cmd) :
  oblivious c1 -> oblivious c2 -> oblivious (c1 ;; c2).
Proof.
  intros H1 H2 s. unfold seq.
  rewrite (H2 (c1 s)), (H2 (c1 (mute s))), (H1 s). reflexivity.
Qed.

Lemma oblivious_ite (b : state -> bool) (c1 c2 : cmd) :
  (forall s, b (mute s) = b s) ->
  oblivious c1 -> oblivious c2 -> oblivious (ite b c1 c2).
Proof.
  intros Hb H1 H2 s. unfold ite. rewrite Hb.
  destruct (b s); [apply H1|apply H2].
Qed.

Lemma oblivious_with_value {A : Type} (e : state -> A) (k : A -> cmd) :
  (forall s, e (mute s) = e s) ->
  (forall v, oblivious (k v)) -> oblivious (with_value e k).
Proof.
  intros He Hk s. unfold with_value. rewrite He. apply Hk.
Qed.

Lemma oblivious_for_up (body : Z -> cmd) :
  (forall j, oblivious (body j)) ->
  forall n j, oblivious (for_up n j body).
Proof.
  intros H n. induction n as [|n IH]; intros j s.
  - reflexivity.
  - rewrite !for_up_S.
    rewrite (IH (j + 1) (body j s)), (IH (j + 1) (body j (mute s))), (H j s).
    reflexivity.
Qed.

Lemma oblivious_for_lt (lo hi : Z) (body : Z -> cmd) :
  (forall j, oblivious (body j)) -> oblivious (for_lt lo hi body).
Proof. intros H. unfold for_lt. apply oblivious_for_up. exact H. Qed.

Ltac oblivious_step :=
  lazymatch goal with
  | |- oblivious skip => apply oblivious_skip
  | |- oblivious (seq _ _) => apply oblivious_seq
  | |- oblivious (ite _ _ _) =>
      apply oblivious_ite; [intros ?; reflexivity| |]
  | |- oblivious (for_lt _ _ _) => apply oblivious_for_lt; intros ?
  | |- oblivious (assign set_out _) => intros ?; reflexivity
  | |- oblivious (assign _ _) =>
      apply oblivious_with_value; [intros ?; reflexivity|intros ?]
  | |- oblivious (with_value _ _) =>
      apply oblivious_with_value; [intros ?; reflexivity|intros ?]
  | |- oblivious _ => intros ?; reflexivity
  end.

Lemma oblivious_loop_body (sgn : bool) (buf : array) (fa i : Z) :
  oblivious (loop_body sgn buf fa i).
Proof.
  unfold loop_body, frame_word, frame_end, decode, record_hit, commit,
    telemetry, overcurrent_check, set_i2c, seek, stage, low_byte, assemble,
    next_byte.
  repeat oblivious_step.
Qed.

Lemma oblivious_commit (fa : Z) : oblivious (commit fa).
Proof. unfold commit. repeat oblivious_step. Qed.

Lemma oblivious_run (sgn : bool) (buf : array) (fa : Z) (n : nat) (i : Z) :
  oblivious (run sgn buf fa n i).
Proof.
  unfold run. apply oblivious_for_up. intros j. apply oblivious_loop_body.
Qed.

Lemma overcurrent_check_mute (s : state) : mute (overcurrent_check s) = mute s.
Proof.
  unfold overcurrent_check, ite.
  destruct (load_u32 (i2c_data s) 6 >? 68); reflexivity.
Qed.

Lemma u32_idem (z : Z) : u32 (u32 z) = u32 z.
Proof. apply u32_small, u32_range. Qed.

Lemma telemetry_out (sgn : bool) (s : state) :
  let id := Z.shiftr (Z.land (staged sgn s 6) 0x0c) 2 in
  let value := u32 (channel_value sgn s) in
  out (telemetry sgn s)
  = if (id =? 3) && (value >? 68) then out s ++ [value] else out s.
Proof.
  cbv zeta.
  pose proof (channel_id_range (staged sgn s 6)) as Hid. cbv zeta in Hid.
  unfold telemetry, overcurrent_check, set_i2c, channel_value, staged in *.
  unfold seq, assign, with_value, ite, skip. st_cbn.
  set (id := Z.shiftr (Z.land (load_char sgn (i2c_data_temp s) 6) 12) 2) in *.
  destruct Hid as [E|[E|[E|E]]]; rewrite E; cbn [Z.eqb Pos.eqb andb];
    try reflexivity.
  unfold load_u32, store_u32. rewrite upd_eq, u32_idem.
  destruct (_ >? 68); reflexivity.
Qed.

(** ** The report decided on the bytes

    Whatever the signedness of [char], the channel identifier and the
    outcome of the comparison with 68 are those computed from the staged
    bytes read as numbers from 0 to 255. *)

Lemma to_char_cases (sgn : bool) (z : Z) :
  to_char sgn z = u8 z \/ (to_char sgn z = u8 z - 256 /\ 128 <= u8 z).
Proof.
  unfold to_char, s8, u8. change (2 ^ 8) with 256. change (2 ^ 7) with 128.
  destruct sgn; [|left; reflexivity].
  pose proof (Z.mod_pos_bound z 256 ltac:(lia)).
  destruct (Z_lt_le_dec (z mod 256) 128).
  - left. Z.div_mod_to_equations. lia.
  - right. split; [|assumption]. Z.div_mod_to_equations. lia.
Qed.

Lemma land_3 (x : Z) : Z.land x 3 = x mod 4.
Proof. change 3 with (Z.ones 2). apply Z.land_ones. lia. Qed.

Lemma channel_id_div (x : Z) : Z.shiftr (Z.land x 0x0c) 2 = (x / 4) mod 4.
Proof.
  rewrite Z.shiftr_land. change (Z.shiftr 12 2) with 3.
  rewrite land_3, Z.shiftr_div_pow2 by lia. reflexivity.
Qed.

Lemma advisory_on_bytes (sgn : bool) (s : state) :
  let b := fun k => u8 (i2c_data_temp s k) in
  Z.shiftr (Z.land (staged sgn s 6) 0x0c) 2
  = Z.shiftr (Z.land (b 6) 0x0c) 2
  /\ (u32 (channel_value sgn s) >? 68)
     = (Z.shiftl (Z.land (b 6) 0x03) 8 + b 7 >? 68).
Proof.
  cbv zeta. unfold channel_value, staged, load_char.
  pose proof (u8_range (i2c_data_temp s 6)) as R6.
  pose proof (u8_range (i2c_data_temp s 7)) as R7.
  destruct (to_char_cases sgn (i2c_data_temp s 6)) as [E6|[E6 _]];
    destruct (to_char_cases sgn (i2c_data_temp s 7)) as [E7|[E7 G7]];
    rewrite E6, E7; clear E6 E7;
    generalize dependent (u8 (i2c_data_temp s 6)); intros b6 R6;
    generalize dependent (u8 (i2c_data_temp s 7)); intros b7 R7;
    rewrite ?channel_id_div, ?land_3, ?Z.shiftl_mul_pow2 by lia;
    change (2 ^ 8) with 256; unfold u32; change (2 ^ 32) with 4294967296;
    intros;
    (split; [Z.div_mod_to_equations; lia|]);
    rewrite !Z.gtb_ltb;
    match goal with
    | |- (68 <? ?x) = (68 <? ?y) =>
        destruct (Z.ltb_spec 68 x); destruct (Z.ltb_spec 68 y);
        try reflexivity; exfalso; Z.div_mod_to_equations; lia
    end.
Qed.

(** C8.  At the end of a frame the value printed is appended to the
    output exactly when the channel identifier is 3 and the channel value
    extracted for it (the content of [i2c_data[6]]) is greater than 68;
    nothing is printed otherwise.  Identifier and comparison are those of
    the staged bytes [b 6] and [b 7] read as numbers from 0 to 255.  The
    report changes nothing but the output, and the output has no influence
    on the rest of the decoding: the commit check and the iterations that
    follow leave the same variables, maps, telemetry record, frame counter
    and read log whether or not the report was made. *)
Theorem overcurrent_advisory (sgn : bool) (buf : array) (fa : Z) :
  (forall a,
     let b := fun k => u8 (i2c_data_temp a k) in
     let id := Z.shiftr (Z.land (b 6) 0x0c) 2 in
     let value := u32 (channel_value sgn a) in
     let s' := frame_end sgn fa a in
     out s' = (if (id =? 3) && (value >? 68) then out a ++ [value]
               else out a)
     /\ ch s' = id /\ i2c_data s' (3 + id) = value
     /\ (value >? 68) = (Z.shiftl (Z.land (b 6) 0x03) 8 + b 7 >? 68))
  /\ (forall s, mute (overcurrent_check s) = mute s)
  /\ (forall n i s,
        mute (run sgn buf fa n i (commit fa (overcurrent_check s)))
        = mute (run sgn buf fa n i (commit fa s))).
Proof.
  split; [|split].
  - intros a. cbv zeta.
    destruct (advisory_on_bytes sgn a) as (Hid & Hcmp). cbv beta in Hid, Hcmp.
    rewrite <- Hid.
    split; [|split; [|split; [|exact Hcmp]]].
    + rewrite frame_end_split. frame_rw out (commit fa).
      exact (telemetry_out sgn
               (set_fcounter (s32 (fcounter a + 1))
                  (set_tsign 0 (set_counter 0 a)))).
    + rewrite frame_end_split. frame_rw ch (commit fa).
      destruct (telemetry_cells sgn
                  (set_fcounter (s32 (fcounter a + 1))
                     (set_tsign 0 (set_counter 0 a))))
        as (_ & _ & _ & Hc & _).
      exact Hc.
    + rewrite frame_end_split. frame_rw i2c_data (commit fa).
      destruct (telemetry_cells sgn
                  (set_fcounter (s32 (fcounter a + 1))
                     (set_tsign 0 (set_counter 0 a))))
        as (_ & _ & _ & _ & _ & Hv & _).
      exact Hv.
  - exact overcurrent_check_mute.
  - intros n i s.
    rewrite (oblivious_run sgn buf fa n i (commit fa (overcurrent_check s))).
    rewrite (oblivious_run sgn buf fa n i (commit fa s)).
    rewrite (oblivious_commit fa (overcurrent_check s)).
    rewrite (oblivious_commit fa s).
    rewrite overcurrent_check_mute. reflexivity.
Qed.

(** Channel 3 with a value of 70 is reported, with a value of 60 it is
    not; the frame is completed and counted in both cases. *)
Example overcurrent_70_and_60 :
  let s70 := run true frame5 5 26 0 start in
  let s60 := run true frame4 5 26 0 start in
  (out s70, i2c_data s70 6, i2c_data s70 7, fcounter s70, counter s70)
  = ([70], 70, 3, 1, 0)
  /\ (out s60, i2c_data s60 6, i2c_data s60 7, fcounter s60, counter s60)
     = ([], 60, 3, 1, 0).
Proof. vm_compute. split; reflexivity. Qed.

(** ** [cmd_read_datafifo] *)

Lemma land_ff (x : Z) : Z.land x 0xff = x mod 256.
Proof. change 0xff with (Z.ones 8). apply Z.land_ones. lia. Qed.

Lemma land_ffff (x : Z) : Z.land x 0xffff = x mod 65536.
Proof. change 0xffff with (Z.ones 16). apply Z.land_ones. lia. Qed.

Lemma bytes_be_div (x : Z) :
  bytes_be x
  = [(x / 16777216) mod 256; (x / 65536) mod 256; (x / 256) mod 256;
     x mod 256].
Proof.
  unfold bytes_be. rewrite !land_ff, !Z.shiftr_div_pow2 by lia. reflexivity.
Qed.

Lemma list4_eq (a b c d a' b' c' d' : Z) :
  a = a' -> b = b' -> c = c' -> d = d' -> [a; b; c; d] = [a'; b'; c'; d'].
Proof. intros -> -> -> ->. reflexivity. Qed.

(** Four bytes put together as a word come out again as its bytes. *)
Lemma bytes_be_word_of_be (a b c d : Z) :
  0 <= a < 256 -> 0 <= b < 256 -> 0 <= c < 256 -> 0 <= d < 256 ->
  bytes_be (word_of_be [a; b; c; d]) = [a; b; c; d].
Proof.
  intros Ha Hb Hc Hd. rewrite bytes_be_div.
  unfold word_of_be. cbn [fold_left].
  apply list4_eq; Z.div_mod_to_equations; lia.
Qed.

Lemma word_of_be_range (a b c d : Z) :
  0 <= a < 256 -> 0 <= b < 256 -> 0 <= c < 256 -> 0 <= d < 256 ->
  0 <= word_of_be [a; b; c; d] < 4294967296.
Proof. intros. unfold word_of_be. cbn [fold_left]. lia. Qed.

Lemma htonl_range (le : bool) (x : Z) : 0 <= htonl le x < 4294967296.
Proof.
  unfold htonl, host_word. rewrite bytes_be_div.
  destruct le; cbn [rev app]; apply word_of_be_range;
    apply Z.mod_pos_bound; lia.
Qed.

(** [htonl] leaves in host memory the bytes of its argument, most
    significant first, whatever the byte order of the host. *)
Lemma host_bytes_htonl (le : bool) (x : Z) :
  host_bytes le (htonl le x) = bytes_be x.
Proof.
  unfold htonl, host_word, host_bytes. rewrite (bytes_be_div x).
  destruct le; cbn [rev app].
  - rewrite bytes_be_word_of_be by (apply Z.mod_pos_bound; lia).
    reflexivity.
  - apply bytes_be_word_of_be; apply Z.mod_pos_bound; lia.
Qed.

(** The two command words before the conversion. *)
Lemma datafifo_word_high (n : Z) :
  0 <= n < 2 ^ 32 ->
  Z.lor (Z.land 0xffff0000 (Z.shiftl 0x001a 16))
        (Z.land 0x0000ffff (Z.shiftr n 16))
  = 0x001a * 65536 + n / 65536.
Proof.
  intros Hn. change (2 ^ 32) with 4294967296 in Hn.
  change (Z.land 0xffff0000 (Z.shiftl 0x001a 16)) with (Z.shiftl 0x001a 16).
  rewrite (Z.land_comm 0xffff), land_ffff, Z.shiftr_div_pow2 by lia.
  change (2 ^ 16) with 65536.
  assert (0 <= n / 65536 < 65536) by (Z.div_mod_to_equations; lia).
  rewrite Z.mod_small by lia.
  rewrite <- add_shiftl_lor by (change (2 ^ 16) with 65536; lia).
  rewrite Z.shiftl_mul_pow2 by lia. reflexivity.
Qed.

Lemma datafifo_word_low (n : Z) :
  Z.lor (Z.land 0xffff0000 (Z.shiftl 0x0019 16)) (Z.land 0x0000ffff n)
  = 0x0019 * 65536 + n mod 65536.
Proof.
  change (Z.land 0xffff0000 (Z.shiftl 0x0019 16)) with (Z.shiftl 0x0019 16).
  rewrite (Z.land_comm 0xffff), land_ffff.
  assert (0 <= n mod 65536 < 65536) by (apply Z.mod_pos_bound; lia).
  rewrite <- add_shiftl_lor by (change (2 ^ 16) with 65536; lia).
  rewrite Z.shiftl_mul_pow2 by lia. reflexivity.
Qed.

(** C9.  Given a buffer, [cmd_read_datafifo] returns 8 and leaves in it
    two words and nothing else changed.  The first is the conversion of the
    command word with [0x001a] in its high half and the high 16 bits of [n]
    in its low half, the second that of the word with [0x0019] and the low
    16 bits of [n]; in memory each is laid out most significant byte first:
    [00 1a n31..24 n23..16] and [00 19 n15..8 n7..0]. *)
Theorem cmd_read_datafifo_words (le ok : bool) (buf : array) (n : Z) :
  0 <= n < 2 ^ 32 ->
  exists (buf' : array) (word0 word1 : Z),
    cmd_read_datafifo le ok (Some buf) n = (Some buf', 8)
    /\ (Z.shiftr word0 16 = 0x001a /\ Z.land word0 0xffff = Z.shiftr n 16)
    /\ (Z.shiftr word1 16 = 0x0019 /\ Z.land word1 0xffff = Z.land n 0xffff)
    /\ buf' 0 = htonl le word0 /\ buf' 1 = htonl le word1
    /\ host_bytes le (buf' 0)
       = [0x00; 0x1a; Z.land (Z.shiftr n 24) 0xff; Z.land (Z.shiftr n 16) 0xff]
    /\ host_bytes le (buf' 1)
       = [0x00; 0x19; Z.land (Z.shiftr n 8) 0xff; Z.land n 0xff]
    /\ (forall k, k <> 0 -> k <> 1 -> buf' k = buf k).
Proof.
  intros Hn.
  pose proof (datafifo_word_high n Hn) as Hh.
  pose proof (datafifo_word_low n) as Hl.
  change (2 ^ 32) with 4294967296 in Hn.
  assert (Rq : 0 <= n / 65536 < 65536) by (Z.div_mod_to_equations; lia).
  assert (Rr : 0 <= n mod 65536 < 65536) by (apply Z.mod_pos_bound; lia).
  set (word0 := 0x001a * 65536 + n / 65536) in *.
  set (word1 := 0x0019 * 65536 + n mod 65536) in *.
  assert (E : cmd_read_datafifo le ok (Some buf) n
              = (Some (upd (upd (upd (upd buf 0 word0) 1 word1)
                              0 (htonl le word0)) 1 (htonl le word1)), 8)).
  { unfold cmd_read_datafifo, conv32network_endian.
    change (Z.to_nat 2) with 2%nat. cbn [conv32_up].
    rewrite Hh, Hl. unfold store_u32, load_u32.
    rewrite (u32_small word0) by (unfold word0; lia).
    rewrite (u32_small word1) by (unfold word1; lia).
    rewrite upd_neq by lia. rewrite upd_eq.
    rewrite (u32_small word0) by (unfold word0; lia).
    rewrite (u32_small (htonl le word0)) by apply htonl_range.
    change (0 + 1) with 1. rewrite upd_neq by lia. rewrite upd_eq.
    rewrite (u32_small word1) by (unfold word1; lia).
    rewrite (u32_small (htonl le word1)) by apply htonl_range.
    reflexivity. }
  eexists. exists word0, word1.
  split; [exact E|].
  split.
  { rewrite land_ffff, !Z.shiftr_div_pow2 by lia. change (2 ^ 16) with 65536.
    unfold word0. split; Z.div_mod_to_equations; lia. }
  split.
  { rewrite !land_ffff, Z.shiftr_div_pow2 by lia. change (2 ^ 16) with 65536.
    unfold word1. split; Z.div_mod_to_equations; lia. }
  split; [rewrite upd_neq by lia; apply upd_eq|].
  split; [apply upd_eq|].
  split.
  { rewrite upd_neq by lia. rewrite upd_eq, host_bytes_htonl, bytes_be_div.
    rewrite !land_ff, !Z.shiftr_div_pow2 by lia.
    change (2 ^ 24) with 16777216. change (2 ^ 16) with 65536.
    unfold word0. apply list4_eq; Z.div_mod_to_equations; lia. }
  split.
  { rewrite upd_eq, host_bytes_htonl, bytes_be_div.
    rewrite !land_ff, !Z.shiftr_div_pow2 by lia.
    change (2 ^ 8) with 256.
    unfold word1. apply list4_eq; Z.div_mod_to_equations; lia. }
  intros k H0 H1. rewrite !upd_neq by assumption. reflexivity.
Qed.

Lemma cmd_read_datafifo_words_witness :
  exists buf' : array,
    cmd_read_datafifo true true (Some zeros) 0x12345678 = (Some buf', 8)
    /\ host_bytes true (buf' 0) = [0x00; 0x1a; 0x12; 0x34]
    /\ host_bytes true (buf' 1) = [0x00; 0x19; 0x56; 0x78].
Proof.
  destruct (cmd_read_datafifo_words true true zeros 0x12345678)
    as (buf' & word0 & word1 & E & _ & _ & _ & _ & B0 & B1 & _).
  - lia.
  - exists buf'. split; [exact E|]. split; [exact B0|exact B1].
Defined.

(** ** The pending row *)

Lemma assemble_fields (buf : array) (i : Z) (s : state) :
  let a := assemble (next_byte buf i s) in
  pdata a = u16 (pdata s + Z.shiftl (load_u8 buf i) 8)
  /\ counter a = s32 (counter s + 1) /\ pdata_pre2 a = pdata_pre1 s
  /\ row a = row s /\ maps_temp a = maps_temp s /\ tsign a = tsign s.
Proof. repeat split. Qed.

Lemma row_step (sgn : bool) (buf : array) (fa i : Z) (s : state) :
  row (loop_body sgn buf fa i s)
  = if decodes_row buf i s then Z.land (Z.shiftr (pdata_pre1 s) 2) 0x3ff
    else row s.
Proof.
  unfold decodes_row.
  destruct (Z.eq_dec (counter s) 0) as [Hc|Hc].
  { rewrite (loop_body_seek sgn buf fa i s Hc), Hc. cbn [Z.eqb negb andb].
    pose proof (seek_frame sgn buf i (next_byte buf i s)) as Hf.
    cbv beta in Hf. injection Hf as _ _ _ Hr _ _. rewrite Hr. reflexivity. }
  destruct (Z.eq_dec (odd s) 1) as [Ho|Ho].
  { rewrite (loop_body_low sgn buf fa i s Hc Ho), Ho.
    rewrite andb_false_r. reflexivity. }
  rewrite (loop_body_high sgn buf fa i s Hc Ho).
  apply Z.eqb_neq in Hc, Ho. rewrite Hc, Ho. cbn [negb andb].
  destruct (assemble_fields buf i s) as (E1 & E2 & E3 & E4 & _).
  generalize dependent (assemble (next_byte buf i s)). intros a E1 E2 E3 E4.
  rewrite <- E1, <- E2, <- E3, <- E4. clear E1 E2 E3 E4.
  destruct (Z.eq_dec (pdata a) tailer) as [Hp|Hp].
  - rewrite Hp, Z.eqb_refl. cbn [negb andb].
    destruct (Z.eq_dec (tsign a) 0) as [Ht|Ht].
    + rewrite (frame_word_first_tailer sgn fa a Hp Ht). reflexivity.
    + rewrite (frame_word_second_tailer sgn fa a Hp Ht).
      rewrite frame_end_split.
      frame_rw row (commit fa). frame_rw row (telemetry sgn). reflexivity.
  - rewrite (frame_word_other sgn fa a Hp).
    apply Z.eqb_neq in Hp. rewrite Hp. cbn [negb andb].
    destruct (counter a >? 6); [|reflexivity]. cbn [andb].
    destruct (Z.eq_dec (Z.land (pdata_pre2 a) 0x1000) 0) as [Hb|Hb].
    + rewrite decode_column_word by exact Hb. rewrite Hb. cbn [Z.eqb negb].
      frame_rw row record_hit. reflexivity.
    + rewrite decode_row_word by exact Hb.
      apply Z.eqb_neq in Hb. rewrite Hb. reflexivity.
Qed.

(** Outside the end of a frame, a cell of [maps_temp] that changes lies on
    the row that was pending before the iteration. *)
Lemma hits_on_pending_row (sgn : bool) (buf : array) (fa i : Z) (s : state)
    (k : Z) :
  ends_frame buf i s = false ->
  maps_temp (loop_body sgn buf fa i s) k <> maps_temp s k ->
  exists c, 0 <= c < 960 /\ k = row s * 960 + c /\ row s < 928.
Proof.
  intros He Hk.
  destruct (Z.eq_dec (counter s) 0) as [Hc|Hc].
  { exfalso. apply Hk. rewrite (loop_body_seek sgn buf fa i s Hc).
    pose proof (seek_frame sgn buf i (next_byte buf i s)) as Hf.
    cbv beta in Hf. injection Hf as _ Hm _ _ _ _. rewrite Hm. reflexivity. }
  destruct (Z.eq_dec (odd s) 1) as [Ho|Ho].
  { exfalso. apply Hk. rewrite (loop_body_low sgn buf fa i s Hc Ho).
    reflexivity. }
  rewrite (loop_body_high sgn buf fa i s Hc Ho) in Hk.
  set (a := assemble (next_byte buf i s)) in *.
  destruct (Z.eq_dec (pdata a) tailer) as [Hp|Hp].
  { exfalso. apply Hk.
    assert (Ht : tsign a = 0).
    { unfold ends_frame in He.
      apply Z.eqb_neq in Hc, Ho. rewrite Hc, Ho in He.
      change (u16 (pdata s + Z.shiftl (load_u8 buf i) 8)) with (pdata a) in He.
      rewrite Hp, Z.eqb_refl in He. simpl in He.
      apply negb_false_iff, Z.eqb_eq in He. exact He. }
    rewrite (frame_word_first_tailer sgn fa a Hp Ht). reflexivity. }
  rewrite (frame_word_other sgn fa a Hp) in Hk.
  destruct (counter a >? 6); [|exfalso; apply Hk; reflexivity].
  destruct (Z.eq_dec (Z.land (pdata_pre2 (set_tsign 0 a)) 0x1000) 0)
    as [Hb|Hb].
  - rewrite decode_column_word in Hk by exact Hb.
    rewrite record_hit_flat in Hk.
    set (col := Z.land (Z.shiftr (pdata_pre2 (set_tsign 0 a)) 2) 1023) in *.
    set (cod := Z.land (pdata_pre2 (set_tsign 0 a)) 3) in *.
    pose proof (land_mask_range (Z.shiftr (pdata_pre2 (set_tsign 0 a)) 2)
                  1023 ltac:(lia)) as Rc.
    pose proof (land_mask_range (pdata_pre2 (set_tsign 0 a)) 3 ltac:(lia))
      as Rd.
    fold col in Rc. fold cod in Rd.
    st_cbn_in Hk.
    change (row a) with (row s) in Hk.
    change (maps_temp a) with (maps_temp s) in Hk.
    destruct (Z.ltb_spec (col + cod) 960);
      [|exfalso; apply Hk; reflexivity].
    destruct (Z.ltb_spec (row s) 928); [|exfalso; apply Hk; reflexivity].
    destruct (Z.leb_spec (row s * 960 + col) k);
      [|exfalso; apply Hk; reflexivity].
    destruct (Z.leb_spec k (row s * 960 + col + cod));
      [|exfalso; apply Hk; reflexivity].
    exists (k - row s * 960). lia.
  - exfalso. apply Hk. rewrite decode_row_word by exact Hb. reflexivity.
Qed.

Lemma row_run (sgn : bool) (buf : array) (fa : Z) (n : nat) :
  forall i s,
    (forall k, (k < n)%nat ->
       decodes_row buf (i + Z.of_nat k) (run sgn buf fa k i s) = false) ->
    row (run sgn buf fa n i s) = row s.
Proof.
  induction n as [|n IH]; intros i s H.
  - rewrite run_O. reflexivity.
  - rewrite run_S. rewrite IH.
    + rewrite row_step.
      pose proof (H O ltac:(lia)) as H0.
      rewrite run_O, Z.add_0_r in H0. rewrite H0. reflexivity.
    + intros k Hk. pose proof (H (S k) ltac:(lia)) as HS.
      rewrite run_S in HS.
      replace (i + 1 + Z.of_nat k) with (i + Z.of_nat (S k)) by lia.
      exact HS.
Qed.

(** C10.  The pending row is 0 at entry.  An iteration changes it only by
    interpreting a row word; in particular it is kept when a frame ends and
    while the synchronisation marker is looked for or found, and so through
    any run of iterations in which no row word is interpreted.  Outside the
    end of a frame, a cell of [maps_temp] that an iteration changes lies on
    the row pending before that iteration: a column word met before any row
    word of its frame is recorded on the row left by the previous frame, or
    on row 0. *)
Theorem pending_row_persists (sgn : bool) (buf : array) (fa : Z) :
  (forall garbage m t d f, row (init garbage m t d f) = 0)
  /\ (forall i s,
        row (loop_body sgn buf fa i s)
        = if decodes_row buf i s
          then Z.land (Z.shiftr (pdata_pre1 s) 2) 0x3ff
          else row s)
  /\ (forall i s,
        ends_frame buf i s = true -> row (loop_body sgn buf fa i s) = row s)
  /\ (forall i s,
        counter s = 0 -> row (loop_body sgn buf fa i s) = row s)
  /\ (forall n i s,
        (forall k, (k < n)%nat ->
           decodes_row buf (i + Z.of_nat k) (run sgn buf fa k i s) = false) ->
        row (run sgn buf fa n i s) = row s)
  /\ (forall i s k,
        ends_frame buf i s = false ->
        maps_temp (loop_body sgn buf fa i s) k <> maps_temp s k ->
        exists c, 0 <= c < 960 /\ k = row s * 960 + c /\ row s < 928).
Proof.
  split; [reflexivity|].
  split; [apply row_step|].
  split.
  { intros i s H. rewrite row_step.
    unfold ends_frame in H. unfold decodes_row.
    apply andb_prop in H. destruct H as [H _].
    apply andb_prop in H. destruct H as [_ H].
    rewrite H. cbn [negb]. rewrite !andb_false_r. reflexivity. }
  split.
  { intros i s H. rewrite row_step. unfold decodes_row.
    rewrite H. reflexivity. }
  split; [apply row_run|].
  intros i s k. apply hits_on_pending_row.
Qed.

(** Two frames in one buffer: the first leaves row 5 pending, the second
    has no row word and its column word (column 10, code 1) is counted on
    row 5; filler words of value 0 are column words too and count on
    column 0 of the pending row. *)
Example row_left_over :
  let s1 := run true two_frames 5 24 0 start in
  let s2 := run true two_frames 5 48 0 start in
  (fcounter s1, counter s1, row s1) = (1, 0, 5)
  /\ (fcounter s2, counter s2, row s2) = (2, 0, 5)
  /\ map (maps_temp s1) [0; 5 * 960; 5 * 960 + 10; 5 * 960 + 11]
     = [2; 0; 0; 0]
  /\ map (maps_temp s2) [0; 5 * 960; 5 * 960 + 10; 5 * 960 + 11; 10; 11]
     = [2; 2; 1; 1; 0; 0].
Proof. vm_compute. repeat split. Qed.

Lemma pending_row_persists_witness :
  let s1 := run true two_frames 5 24 0 start in
  let s := run true two_frames 5 43 0 start in
  row s1 = 5
  /\ row (run true two_frames 5 24 24 s1) = row s1
  /\ maps_temp (loop_body true two_frames 5 43 s) (5 * 960 + 10) = 1
  /\ exists c, 0 <= c < 960 /\ 5 * 960 + 10 = row s * 960 + c /\ row s < 928.
Proof.
  cbv zeta.
  destruct (pending_row_persists true two_frames 5)
    as (_ & _ & _ & _ & Hrun & Hhit).
  split; [vm_compute; reflexivity|].
  split.
  - apply Hrun. intros k Hk.
    do 24 (destruct k as [|k]; [vm_compute; reflexivity|]).
    exfalso. lia.
  - split; [vm_compute; reflexivity|].
    apply (Hhit 43 (run true two_frames 5 43 0 start) (5 * 960 + 10)).
    + vm_compute. reflexivity.
    + vm_compute. discriminate.
Defined.
(** * Properties of the other functions of [command.c] *)

(** ** Byte order conversion *)

Lemma word_of_be_bytes_be (x : Z) :
  0 <= x < 4294967296 -> word_of_be (bytes_be x) = x.
Proof.
  intros H. rewrite bytes_be_div. unfold word_of_be. cbn [fold_left].
  Z.div_mod_to_equations. lia.
Qed.

Lemma bytes_be_htonl_le (x : Z) :
  bytes_be (htonl true x) = rev (bytes_be x).
Proof.
  unfold htonl, host_word. rewrite (bytes_be_div x). cbn [rev app].
  apply bytes_be_word_of_be; apply Z.mod_pos_bound; lia.
Qed.

(** [htonl] is its own inverse on 32-bit words. *)
Lemma htonl_htonl (le : bool) (x : Z) :
  0 <= x < 4294967296 -> htonl le (htonl le x) = x.
Proof.
  intros H. destruct le.
  - unfold htonl at 1. unfold host_word.
    rewrite bytes_be_htonl_le, rev_involutive.
    apply word_of_be_bytes_be. exact H.
  - unfold htonl, host_word.
    rewrite !word_of_be_bytes_be; [reflexivity|exact H|].
    rewrite word_of_be_bytes_be; exact H.
Qed.

(** The loop of [conv32network_endian] over the cells [i .. i + n - 1]. *)
Lemma u32_htonl (le : bool) (z : Z) : u32 (htonl le z) = htonl le z.
Proof. apply u32_small, htonl_range. Qed.

Lemma conv32_up_cells (le : bool) (n : nat) :
  forall (i : Z) (buf : array) (k : Z),
    conv32_up le n i buf k
    = if (i <=? k) && (k <? i + Z.of_nat n)
      then htonl le (load_u32 buf k) else buf k.
Proof.
  induction n as [|n IH]; intros i buf k.
  - cbn [conv32_up].
    destruct (Z_lt_le_dec k i); bool_lia; reflexivity.
  - cbn [conv32_up]. rewrite IH. unfold store_u32, load_u32, upd.
    cbv beta. rewrite Nat2Z.inj_succ. rewrite u32_htonl.
    destruct (Z.lt_trichotomy k i) as [Hk|[Hk|Hk]].
    + bool_lia. reflexivity.
    + subst k. bool_lia. reflexivity.
    + destruct (Z_lt_le_dec k (i + Z.succ (Z.of_nat n)));
        bool_lia; reflexivity.
Qed.

Lemma conv32_cells (le : bool) (buf : array) (n k : Z) :
  0 <= n ->
  conv32network_endian le buf n k
  = if (0 <=? k) && (k <? n) then htonl le (load_u32 buf k) else buf k.
Proof.
  intros Hn. unfold conv32network_endian. rewrite conv32_up_cells.
  rewrite Z2Nat.id by exact Hn. reflexivity.
Qed.

(** [conv32network_endian] leaves in the first [n] cells the bytes of
    their former content, most significant first, touches no other cell,
    and applied twice gives back the 32-bit content of every cell. *)
Theorem conv32network_endian_cells (le : bool) (buf : array) (n : Z) :
  0 <= n ->
  let buf' := conv32network_endian le buf n in
  (forall k, 0 <= k < n ->
     host_bytes le (buf' k) = bytes_be (load_u32 buf k))
  /\ (forall k, ~ 0 <= k < n -> buf' k = buf k)
  /\ (forall k, 0 <= k < n ->
        conv32network_endian le buf' n k = load_u32 buf k).
Proof.
  intros Hn. cbv zeta. split; [|split].
  - intros k Hk. rewrite conv32_cells by exact Hn.
    replace ((0 <=? k) && (k <? n)) with true
      by (symmetry; apply andb_true_intro;
          split; [apply Z.leb_le|apply Z.ltb_lt]; lia).
    apply host_bytes_htonl.
  - intros k Hk. rewrite conv32_cells by exact Hn.
    destruct (Z.leb_spec 0 k); destruct (Z.ltb_spec k n);
      cbn [andb]; try reflexivity; lia.
  - intros k Hk. rewrite conv32_cells by exact Hn.
    unfold load_u32 at 1. rewrite conv32_cells by exact Hn.
    replace ((0 <=? k) && (k <? n)) with true
      by (symmetry; apply andb_true_intro;
          split; [apply Z.leb_le|apply Z.ltb_lt]; lia).
    rewrite u32_htonl. apply htonl_htonl. apply u32_range.
Qed.

Lemma conv32network_endian_cells_witness :
  let buf := upd zeros 0 0x12345678 in
  host_bytes true (conv32network_endian true buf 1 0)
  = [0x12; 0x34; 0x56; 0x78]
  /\ conv32network_endian true (conv32network_endian true buf 1) 1 0
     = 0x12345678.
Proof.
  cbv zeta.
  destruct (conv32network_endian_cells true (upd zeros 0 0x12345678) 1)
    as (H1 & _ & H3); [lia|].
  split.
  - rewrite H1 by lia. vm_compute. reflexivity.
  - rewrite H3 by lia. vm_compute. reflexivity.
Defined.
(** ** Command words *)

Lemma conv32_one (le : bool) (buf : array) (k : Z) :
  conv32network_endian le buf 1 k
  = if k =? 0 then htonl le (load_u32 buf 0) else buf k.
Proof.
  rewrite conv32_cells by lia.
  destruct (Z.eq_dec k 0) as [->|Hk]; [reflexivity|].
  replace (k =? 0) with false by (symmetry; apply Z.eqb_neq; exact Hk).
  destruct (Z.leb_spec 0 k); destruct (Z.ltb_spec k 1);
    cbn [andb]; try reflexivity; lia.
Qed.

(** [0xffff0000 & (x << 16)] on 32 bits keeps the low half of [x]. *)
Lemma high_half (x : Z) :
  Z.land 0xffff0000 (u32 (Z.shiftl (u32 x) 16)) = (x mod 65536) * 65536.
Proof.
  assert (E : u32 (Z.shiftl (u32 x) 16) = Z.shiftl (x mod 65536) 16).
  { unfold u32. rewrite !Z.shiftl_mul_pow2 by lia.
    change (2 ^ 32) with 4294967296. change (2 ^ 16) with 65536.
    Z.div_mod_to_equations. lia. }
  rewrite E. change 0xffff0000 with (Z.shiftl 0xffff 16).
  rewrite <- Z.shiftl_land, Z.land_comm, land_ffff.
  rewrite Z.mod_mod by lia. rewrite Z.shiftl_mul_pow2 by lia. reflexivity.
Qed.

Lemma low_half (m v : Z) :
  Z.lor (m * 65536) (Z.land 0x0000ffff v) = m * 65536 + v mod 65536.
Proof.
  rewrite (Z.land_comm 0xffff), land_ffff.
  assert (0 <= v mod 65536 < 65536) by (apply Z.mod_pos_bound; lia).
  change (m * 65536) with (m * 2 ^ 16).
  rewrite <- Z.shiftl_mul_pow2 by lia.
  symmetry. apply add_shiftl_lor; [lia|]. change (2 ^ 16) with 65536. lia.
Qed.

(** The bytes of a command word with marker [m] in its high half and
    payload [p] in its low half. *)
Lemma command_bytes (m p : Z) :
  0 <= m < 65536 -> 0 <= p < 65536 ->
  bytes_be (m * 65536 + p) = [m / 256; m mod 256; p / 256; p mod 256].
Proof.
  intros Hm Hp. rewrite bytes_be_div.
  apply list4_eq; Z.div_mod_to_equations; lia.
Qed.

Lemma command_word_range (m p : Z) :
  0 <= m < 65536 -> 0 <= p < 65536 -> 0 <= m * 65536 + p < 4294967296.
Proof. lia. Qed.

(** What a one-word encoder leaves in the block once the word [m, p] is
    stored in cell 0 and converted. *)
Lemma one_word (le : bool) (buf : array) (m p : Z) :
  0 <= m < 65536 -> 0 <= p < 65536 ->
  let buf' := conv32network_endian le (store_u32 buf 0 (m * 65536 + p)) 1 in
  host_bytes le (buf' 0) = [m / 256; m mod 256; p / 256; p mod 256]
  /\ forall k, k <> 0 -> buf' k = buf k.
Proof.
  intros Hm Hp. cbv zeta. split.
  - rewrite conv32_one. change (0 =? 0) with true. cbv iota.
    unfold load_u32, store_u32. rewrite upd_eq, u32_idem.
    rewrite u32_small by (apply command_word_range; assumption).
    rewrite host_bytes_htonl. apply command_bytes; assumption.
  - intros k Hk. rewrite conv32_one.
    replace (k =? 0) with false by (symmetry; apply Z.eqb_neq; exact Hk).
    unfold store_u32. apply upd_neq. exact Hk.
Qed.

(** [cmd_read_status] returns 4 and leaves in cell 0 the bytes
    [a1 a0 00 00] of the 16-bit sum [a = (0x8000 + addr) mod 2^16]; a carry
    out of the sum is lost. *)
Theorem cmd_read_status_packet (le ok : bool) (bufio : option array)
    (buf : array) (addr : Z) :
  obtain ok bufio = Some buf ->
  let a := (0x8000 + addr) mod 65536 in
  exists buf' : array,
    cmd_read_status le ok bufio addr = (Some buf', 4)
    /\ host_bytes le (buf' 0) = [a / 256; a mod 256; 0; 0]
    /\ forall k, k <> 0 -> buf' k = buf k.
Proof.
  intros Hb. cbv zeta. unfold cmd_read_status. rewrite Hb, high_half.
  eexists. split; [reflexivity|].
  assert (Ha : 0 <= (0x8000 + addr) mod 65536 < 65536)
    by (apply Z.mod_pos_bound; lia).
  generalize dependent ((0x8000 + addr) mod 65536). intros a Ha.
  replace (a * 65536) with (a * 65536 + 0) by lia.
  apply (one_word le buf a 0); lia.
Qed.

Lemma cmd_read_status_packet_witness :
  exists buf' : array,
    cmd_read_status true true None 0x0003 = (Some buf', 4)
    /\ host_bytes true (buf' 0) = [0x80; 0x03; 0; 0]
    /\ forall k, k <> 0 -> buf' k = 0.
Proof.
  exact (cmd_read_status_packet true true None (fun _ => 0) 0x0003 eq_refl).
Defined.

(** [cmd_send_pulse] returns 4 and leaves in cell 0 the bytes
    [00 0b m1 m0] of the low 16 bits of the mask; the high half of the mask
    is dropped. *)
Theorem cmd_send_pulse_packet (le ok : bool) (bufio : option array)
    (buf : array) (mask : Z) :
  obtain ok bufio = Some buf ->
  let m := mask mod 65536 in
  exists buf' : array,
    cmd_send_pulse le ok bufio mask = (Some buf', 4)
    /\ host_bytes le (buf' 0) = [0x00; 0x0b; m / 256; m mod 256]
    /\ forall k, k <> 0 -> buf' k = buf k.
Proof.
  intros Hb. cbv zeta. unfold cmd_send_pulse. rewrite Hb.
  change 0x000b0000 with (0x000b * 65536). rewrite low_half.
  eexists. split; [reflexivity|].
  apply (one_word le buf 0x000b (mask mod 65536));
    [lia|apply Z.mod_pos_bound; lia].
Qed.

Lemma cmd_send_pulse_packet_witness :
  exists buf' : array,
    cmd_send_pulse false false (Some zeros) 0xabcd1234 = (Some buf', 4)
    /\ host_bytes false (buf' 0) = [0x00; 0x0b; 0x12; 0x34]
    /\ forall k, k <> 0 -> buf' k = zeros k.
Proof.
  exact (cmd_send_pulse_packet false false (Some zeros) zeros 0xabcd1234
           eq_refl).
Defined.

(** [cmd_write_register] returns 4 and leaves in cell 0 the bytes
    [a1 a0 v1 v0] of the 16-bit sum [a = (0x0020 + addr) mod 2^16] and of
    the low 16 bits of the value. *)
Theorem cmd_write_register_packet (le ok : bool) (bufio : option array)
    (buf : array) (addr val : Z) :
  obtain ok bufio = Some buf ->
  let a := (0x0020 + addr) mod 65536 in
  let v := val mod 65536 in
  exists buf' : array,
    cmd_write_register le ok bufio addr val = (Some buf', 4)
    /\ host_bytes le (buf' 0) = [a / 256; a mod 256; v / 256; v mod 256]
    /\ forall k, k <> 0 -> buf' k = buf k.
Proof.
  intros Hb. cbv zeta. unfold cmd_write_register.
  rewrite Hb, high_half, low_half.
  eexists. split; [reflexivity|].
  apply (one_word le buf); apply Z.mod_pos_bound; lia.
Qed.

Lemma cmd_write_register_packet_witness :
  exists buf' : array,
    cmd_write_register true true None 0x0005 0x1234abcd = (Some buf', 4)
    /\ host_bytes true (buf' 0) = [0x00; 0x25; 0xab; 0xcd]
    /\ forall k, k <> 0 -> buf' k = 0.
Proof.
  exact (cmd_write_register_packet true true None (fun _ => 0) 0x0005
           0x1234abcd eq_refl).
Defined.

(** Reading register [addr] is writing 0 to register [0x8000 + addr], and
    reading status word [0x0020 + addr] is reading register [addr]: the
    three encoders build the same packet. *)
Theorem read_commands_alias (le ok : bool) (bufio : option array) (addr : Z) :
  cmd_read_register le ok bufio addr
  = cmd_write_register le ok bufio (0x8000 + addr) 0
  /\ cmd_read_status le ok bufio (0x0020 + addr)
     = cmd_read_register le ok bufio addr.
Proof.
  unfold cmd_read_register, cmd_write_register, cmd_read_status. split.
  - rewrite Z.land_0_r, Z.lor_0_r.
    replace (0x0020 + (0x8000 + addr)) with (0x8020 + addr) by lia.
    reflexivity.
  - replace (0x8000 + (0x0020 + addr)) with (0x8020 + addr) by lia.
    reflexivity.
Qed.

(** The four cells of a memory read. *)
Lemma conv32_four (le : bool) (buf : array) (k : Z) :
  0 <= k < 4 ->
  host_bytes le (conv32network_endian le buf 4 k) = bytes_be (load_u32 buf k).
Proof.
  intros Hk. rewrite conv32_cells by lia.
  replace ((0 <=? k) && (k <? 4)) with true
    by (symmetry; apply andb_true_intro;
        split; [apply Z.leb_le|apply Z.ltb_lt]; lia).
  apply host_bytes_htonl.
Qed.

(** [cmd_read_memory] returns 16 and leaves four command words in the
    block: [00 11] with the low half of the address, [00 12] with its high
    half, [00 10] with the low 16 bits of the count, and the fixed word
    [80 14 00 00]. *)
Theorem cmd_read_memory_packet (le ok : bool) (bufio : option array)
    (buf : array) (addr n : Z) :
  obtain ok bufio = Some buf ->
  exists buf' : array,
    cmd_read_memory le ok bufio addr n = (Some buf', 16)
    /\ host_bytes le (buf' 0)
       = [0x00; 0x11; (addr / 256) mod 256; addr mod 256]
    /\ host_bytes le (buf' 1)
       = [0x00; 0x12; (addr / 16777216) mod 256; (addr / 65536) mod 256]
    /\ host_bytes le (buf' 2) = [0x00; 0x10; (n / 256) mod 256; n mod 256]
    /\ host_bytes le (buf' 3) = [0x80; 0x14; 0x00; 0x00]
    /\ forall k, ~ 0 <= k < 4 -> buf' k = buf k.
Proof.
  intros Hb. unfold cmd_read_memory. rewrite Hb.
  change 0x00110000 with (0x0011 * 65536).
  change 0x00120000 with (0x0012 * 65536).
  change 0x00100000 with (0x0010 * 65536).
  rewrite !low_half, Z.shiftr_div_pow2 by lia. change (2 ^ 16) with 65536.
  eexists. split; [reflexivity|].
  assert (Ra : 0 <= addr mod 65536 < 65536) by (apply Z.mod_pos_bound; lia).
  assert (Rh : 0 <= (addr / 65536) mod 65536 < 65536)
    by (apply Z.mod_pos_bound; lia).
  assert (Rn : 0 <= n mod 65536 < 65536) by (apply Z.mod_pos_bound; lia).
  repeat split.
  - rewrite conv32_four by lia. unfold load_u32, store_u32.
    rewrite !upd_neq by lia. rewrite upd_eq, u32_idem.
    rewrite u32_small by lia. rewrite bytes_be_div.
    apply list4_eq; Z.div_mod_to_equations; lia.
  - rewrite conv32_four by lia. unfold load_u32, store_u32.
    rewrite !upd_neq by lia. rewrite upd_eq, u32_idem.
    rewrite u32_small by lia. rewrite bytes_be_div.
    apply list4_eq; Z.div_mod_to_equations; lia.
  - rewrite conv32_four by lia. unfold load_u32, store_u32.
    rewrite !upd_neq by lia. rewrite upd_eq, u32_idem.
    rewrite u32_small by lia. rewrite bytes_be_div.
    apply list4_eq; Z.div_mod_to_equations; lia.
  - rewrite conv32_four by lia. unfold load_u32, store_u32.
    rewrite upd_eq. reflexivity.
  - intros k Hk. rewrite conv32_cells by lia.
    replace ((0 <=? k) && (k <? 4)) with false
      by (symmetry; apply andb_false_iff;
          destruct (Z_lt_le_dec k 0);
          [left; apply Z.leb_gt|right; apply Z.ltb_ge]; lia).
    unfold store_u32. rewrite !upd_neq by lia. reflexivity.
Qed.

Lemma cmd_read_memory_packet_witness :
  exists buf' : array,
    cmd_read_memory true true None 0x12345678 0x0100 = (Some buf', 16)
    /\ host_bytes true (buf' 0) = [0x00; 0x11; 0x56; 0x78]
    /\ host_bytes true (buf' 1) = [0x00; 0x12; 0x12; 0x34]
    /\ host_bytes true (buf' 2) = [0x00; 0x10; 0x01; 0x00]
    /\ host_bytes true (buf' 3) = [0x80; 0x14; 0x00; 0x00]
    /\ forall k, ~ 0 <= k < 4 -> buf' k = 0.
Proof.
  exact (cmd_read_memory_packet true true None (fun _ => 0) 0x12345678 0x0100
           eq_refl).
Defined.

(** ** [cmd_write_memory] *)

(** The two command words of a 32-bit value. *)
Lemma data_word_low (v : Z) :
  u32 (Z.lor 0x00130000 (Z.land 0x0000ffff v)) = 0x0013 * 65536 + v mod 65536.
Proof.
  change 0x00130000 with (0x0013 * 65536). rewrite low_half.
  apply u32_small.
  assert (0 <= v mod 65536 < 65536) by (apply Z.mod_pos_bound; lia). lia.
Qed.

Lemma data_word_high (v : Z) :
  u32 (Z.lor 0x00140000 (Z.land 0x0000ffff (Z.shiftr v 16)))
  = 0x0014 * 65536 + (v / 65536) mod 65536.
Proof.
  change 0x00140000 with (0x0014 * 65536).
  rewrite low_half, Z.shiftr_div_pow2 by lia. change (2 ^ 16) with 65536.
  apply u32_small.
  assert (0 <= (v / 65536) mod 65536 < 65536)
    by (apply Z.mod_pos_bound; lia).
  lia.
Qed.

Lemma write_values_idx (n : nat) :
  forall i idx aval buf,
    snd (write_values n i idx aval buf) = idx + 2 * Z.of_nat n.
Proof.
  induction n as [|n IH]; intros i idx aval buf.
  - cbn [write_values snd]. lia.
  - cbn [write_values]. rewrite IH. lia.
Qed.

(** The loop of lines 105-108 stores the two words of [aval[i + j]] in
    cells [idx + 2 j] and [idx + 2 j + 1] and nothing else. *)
Lemma write_values_cells (n : nat) :
  forall i idx aval buf,
    let buf' := fst (write_values n i idx aval buf) in
    (forall j, 0 <= j < Z.of_nat n ->
       buf' (idx + 2 * j)
       = 0x0013 * 65536 + load_u32 aval (i + j) mod 65536
       /\ buf' (idx + 2 * j + 1)
          = 0x0014 * 65536 + (load_u32 aval (i + j) / 65536) mod 65536)
    /\ (forall k, ~ idx <= k < idx + 2 * Z.of_nat n -> buf' k = buf k).
Proof.
  induction n as [|n IH]; intros i idx aval buf; cbv zeta.
  - cbn [write_values fst]. split; [intros j Hj; lia|reflexivity].
  - cbn [write_values]. rewrite Nat2Z.inj_succ.
    unfold store_u32. rewrite !data_word_low, !data_word_high.
    match goal with
    | |- context [write_values n (i + 1) (idx + 2) aval ?b] =>
        destruct (IH (i + 1) (idx + 2) aval b) as [IHin IHout]
    end.
    split.
    + intros j Hj. destruct (Z.eq_dec j 0) as [->|Hj0].
      * rewrite !IHout by lia.
        replace (idx + 2 * 0) with idx by lia.
        replace (i + 0) with i by lia.
        rewrite upd_neq by lia. rewrite !upd_eq. split; reflexivity.
      * destruct (IHin (j - 1)) as [E1 E2]; [lia|].
        replace (idx + 2 + 2 * (j - 1)) with (idx + 2 * j) in * by lia.
        replace (i + 1 + (j - 1)) with (i + j) in * by lia.
        split; assumption.
    + intros k Hk. rewrite IHout by lia.
      rewrite !upd_neq by lia. reflexivity.
Qed.

(** For at least one value, [cmd_write_memory] returns [8 nval + 8] and
    leaves [2 nval + 2] command words in the block: the address as [00 11]
    with its low half and [00 12] with its high half, then every value
    [aval[j]] as [00 13] with its low half and [00 14] with its high
    half. *)
Theorem cmd_write_memory_packet (le ok : bool) (bufio : option array)
    (buf aval : array) (addr nval : Z) :
  obtain ok bufio = Some buf ->
  1 <= nval -> 8 * nval + 8 < 2 ^ 64 ->
  exists buf' : array,
    cmd_write_memory le ok bufio addr aval nval = (Some buf', 8 * nval + 8)
    /\ host_bytes le (buf' 0)
       = [0x00; 0x11; (addr / 256) mod 256; addr mod 256]
    /\ host_bytes le (buf' 1)
       = [0x00; 0x12; (addr / 16777216) mod 256; (addr / 65536) mod 256]
    /\ (forall j, 0 <= j < nval ->
          let v := load_u32 aval j in
          host_bytes le (buf' (2 + 2 * j))
          = [0x00; 0x13; (v / 256) mod 256; v mod 256]
          /\ host_bytes le (buf' (3 + 2 * j))
             = [0x00; 0x14; (v / 16777216) mod 256; (v / 65536) mod 256])
    /\ (forall k, ~ 0 <= k < 2 * nval + 2 -> buf' k = buf k).
Proof.
  intros Hb Hn Hsz. change (2 ^ 64) with 18446744073709551616 in Hsz.
  unfold cmd_write_memory. rewrite Hb.
  assert (E1 : u64 (nval * 2 + 2) = 2 * nval + 2)
    by (unfold u64; change (2 ^ 64) with 18446744073709551616;
        rewrite Z.mod_small; lia).
  rewrite E1.
  assert (E2 : u64 ((2 * nval + 2) * 4) = 8 * nval + 8)
    by (unfold u64; change (2 ^ 64) with 18446744073709551616;
        rewrite Z.mod_small; lia).
  rewrite E2.
  unfold store_u32 at 1 2 3 4.
  rewrite !data_word_low, !data_word_high.
  change 0x00110000 with (0x0011 * 65536).
  change 0x00120000 with (0x0012 * 65536).
  rewrite !low_half, Z.shiftr_div_pow2 by lia. change (2 ^ 16) with 65536.
  assert (Ra : 0 <= addr mod 65536 < 65536) by (apply Z.mod_pos_bound; lia).
  assert (Rh : 0 <= (addr / 65536) mod 65536 < 65536)
    by (apply Z.mod_pos_bound; lia).
  rewrite (u32_small (0x0011 * 65536 + _)) by lia.
  rewrite (u32_small (0x0012 * 65536 + _)) by lia.
  match goal with
  | |- context [write_values ?n 1 4 aval ?b] =>
      destruct (write_values_cells n 1 4 aval b) as [Hin Hout];
      generalize dependent (fst (write_values n 1 4 aval b))
  end.
  intros B Hin Hout.
  rewrite Z2Nat.id in Hin, Hout by lia.
  assert (Hcell : forall k, 0 <= k < 2 * nval + 2 ->
            host_bytes le (conv32network_endian le B (2 * nval + 2) k)
            = bytes_be (load_u32 B k)).
  { intros k Hk. rewrite conv32_cells by lia.
    replace ((0 <=? k) && (k <? 2 * nval + 2)) with true
      by (symmetry; apply andb_true_intro;
          split; [apply Z.leb_le|apply Z.ltb_lt]; lia).
    apply host_bytes_htonl. }
  assert (Hv : forall j, 0 <= j < nval ->
            B (2 + 2 * j) = 0x0013 * 65536 + load_u32 aval j mod 65536
            /\ B (3 + 2 * j)
               = 0x0014 * 65536 + (load_u32 aval j / 65536) mod 65536).
  { intros j Hj. destruct (Z.eq_dec j 0) as [->|Hj0].
    - rewrite !Hout by lia. change (2 + 2 * 0) with 2.
      change (3 + 2 * 0) with 3.
      rewrite upd_neq by lia. rewrite !upd_eq. split; reflexivity.
    - destruct (Hin (j - 1)) as [E3 E4]; [lia|].
      replace (4 + 2 * (j - 1)) with (2 + 2 * j) in * by lia.
      replace (2 + 2 * j + 1) with (3 + 2 * j) in * by lia.
      replace (1 + (j - 1)) with j in * by lia.
      split; assumption. }
  eexists. split; [reflexivity|].
  split; [|split; [|split]].
  - rewrite Hcell by lia. unfold load_u32. rewrite Hout by lia.
    rewrite !upd_neq by lia. rewrite upd_eq.
    rewrite u32_small by lia. rewrite bytes_be_div.
    apply list4_eq; Z.div_mod_to_equations; lia.
  - rewrite Hcell by lia. unfold load_u32. rewrite Hout by lia.
    rewrite !upd_neq by lia. rewrite upd_eq.
    rewrite u32_small by lia. rewrite bytes_be_div.
    apply list4_eq; Z.div_mod_to_equations; lia.
  - intros j Hj. cbv zeta. destruct (Hv j Hj) as [E3 E4].
    pose proof (u32_range (aval j)) as Rv. fold (load_u32 aval j) in Rv.
    generalize dependent (load_u32 aval j). intros v E3 E4 Rv.
    assert (R1 : 0 <= v mod 65536 < 65536) by (apply Z.mod_pos_bound; lia).
    assert (R2 : 0 <= (v / 65536) mod 65536 < 65536)
      by (apply Z.mod_pos_bound; lia).
    split.
    + rewrite Hcell by lia. unfold load_u32. rewrite E3.
      rewrite u32_small by lia. rewrite bytes_be_div.
      apply list4_eq; Z.div_mod_to_equations; lia.
    + rewrite Hcell by lia. unfold load_u32. rewrite E4.
      rewrite u32_small by lia. rewrite bytes_be_div.
      apply list4_eq; Z.div_mod_to_equations; lia.
  - intros k Hk. rewrite conv32_cells by lia.
    replace ((0 <=? k) && (k <? 2 * nval + 2)) with false
      by (symmetry; apply andb_false_iff;
          destruct (Z_lt_le_dec k 0);
          [left; apply Z.leb_gt|right; apply Z.ltb_ge]; lia).
    rewrite Hout by lia. rewrite !upd_neq by lia. reflexivity.
Qed.

Lemma cmd_write_memory_packet_witness :
  exists buf' : array,
    cmd_write_memory true true None 0x12345678
      (fun k => 0xa0b0c0d0 + k) 3 = (Some buf', 8 * 3 + 8)
    /\ host_bytes true (buf' 0) = [0x00; 0x11; 0x56; 0x78]
    /\ host_bytes true (buf' 1) = [0x00; 0x12; 0x12; 0x34]
    /\ host_bytes true (buf' (2 + 2 * 2)) = [0x00; 0x13; 0xc0; 0xd2]
    /\ host_bytes true (buf' (3 + 2 * 2)) = [0x00; 0x14; 0xa0; 0xb0]
    /\ buf' 8 = 0.
Proof.
  destruct (cmd_write_memory_packet true true None (fun _ => 0)
              (fun k => 0xa0b0c0d0 + k) 0x12345678 3 eq_refl)
    as (buf' & E & H0 & H1 & Hv & Hout); [lia|reflexivity|].
  exists buf'. split; [exact E|].
  split; [exact H0|]. split; [exact H1|].
  destruct (Hv 2) as [E3 E4]; [lia|].
  split; [exact E3|]. split; [exact E4|].
  apply Hout. lia.
Defined.

(** With no value to write, [cmd_write_memory] returns 8 and converts the
    two address words only, yet it has stored the two words of [aval[0]]
    in cells 2 and 3, which lie beyond the [2 nval + 2 = 2] cells it
    allocates and converts; they stay in host order. *)
Theorem cmd_write_memory_no_value (le ok : bool) (bufio : option array)
    (buf aval : array) (addr : Z) :
  obtain ok bufio = Some buf ->
  exists buf' : array,
    cmd_write_memory le ok bufio addr aval 0 = (Some buf', 8)
    /\ host_bytes le (buf' 0)
       = [0x00; 0x11; (addr / 256) mod 256; addr mod 256]
    /\ host_bytes le (buf' 1)
       = [0x00; 0x12; (addr / 16777216) mod 256; (addr / 65536) mod 256]
    /\ buf' 2 = 0x0013 * 65536 + load_u32 aval 0 mod 65536
    /\ buf' 3 = 0x0014 * 65536 + (load_u32 aval 0 / 65536) mod 65536
    /\ forall k, ~ 0 <= k < 4 -> buf' k = buf k.
Proof.
  intros Hb. unfold cmd_write_memory. rewrite Hb.
  change (Z.to_nat (0 - 1)) with O. cbn [write_values fst].
  change (u64 (0 * 2 + 2)) with 2. change (u64 (2 * 4)) with 8.
  unfold store_u32.
  rewrite !data_word_low, !data_word_high.
  change 0x00110000 with (0x0011 * 65536).
  change 0x00120000 with (0x0012 * 65536).
  rewrite !low_half, Z.shiftr_div_pow2 by lia. change (2 ^ 16) with 65536.
  assert (Ra : 0 <= addr mod 65536 < 65536) by (apply Z.mod_pos_bound; lia).
  assert (Rh : 0 <= (addr / 65536) mod 65536 < 65536)
    by (apply Z.mod_pos_bound; lia).
  rewrite (u32_small (0x0011 * 65536 + _)) by lia.
  rewrite (u32_small (0x0012 * 65536 + _)) by lia.
  eexists. split; [reflexivity|].
  split; [|split; [|split; [|split]]].
  - rewrite conv32_cells by lia. change ((0 <=? 0) && (0 <? 2)) with true.
    cbv iota. rewrite host_bytes_htonl. unfold load_u32.
    rewrite !upd_neq by lia. rewrite upd_eq.
    rewrite u32_small by lia. rewrite bytes_be_div.
    apply list4_eq; Z.div_mod_to_equations; lia.
  - rewrite conv32_cells by lia. change ((0 <=? 1) && (1 <? 2)) with true.
    cbv iota. rewrite host_bytes_htonl. unfold load_u32.
    rewrite !upd_neq by lia. rewrite upd_eq.
    rewrite u32_small by lia. rewrite bytes_be_div.
    apply list4_eq; Z.div_mod_to_equations; lia.
  - rewrite conv32_cells by lia. change ((0 <=? 2) && (2 <? 2)) with false.
    cbv iota. rewrite upd_neq by lia. apply upd_eq.
  - rewrite conv32_cells by lia. change ((0 <=? 3) && (3 <? 2)) with false.
    cbv iota. apply upd_eq.
  - intros k Hk. rewrite conv32_cells by lia.
    replace ((0 <=? k) && (k <? 2)) with false
      by (symmetry; apply andb_false_iff;
          destruct (Z_lt_le_dec k 0);
          [left; apply Z.leb_gt|right; apply Z.ltb_ge]; lia).
    rewrite !upd_neq by lia. reflexivity.
Qed.

Lemma cmd_write_memory_no_value_witness :
  exists buf' : array,
    cmd_write_memory true true None 0x12345678 (fun _ => 0xa0b0c0d0) 0
    = (Some buf', 8)
    /\ host_bytes true (buf' 0) = [0x00; 0x11; 0x56; 0x78]
    /\ host_bytes true (buf' 1) = [0x00; 0x12; 0x12; 0x34]
    /\ buf' 2 = 0x0013c0d0
    /\ buf' 3 = 0x0014a0b0
    /\ forall k, ~ 0 <= k < 4 -> buf' k = 0.
Proof.
  exact (cmd_write_memory_no_value true true None (fun _ => 0)
           (fun _ => 0xa0b0c0d0) 0x12345678 eq_refl).
Defined.

(** ** Allocation failure *)

Lemma reported (ok : bool) (bufio : option array) (body : array -> array)
    (size : Z) :
  size mod 4 = 0 ->
  let r := match obtain ok bufio with
           | None => (bufio, SIZE_MAX)
           | Some buf => (Some (body buf), size)
           end in
  (snd r = SIZE_MAX <-> bufio = None /\ ok = false)
  /\ (snd r = SIZE_MAX -> fst r = None)
  /\ (snd r <> SIZE_MAX -> snd r mod 4 = 0 /\ fst r <> None).
Proof.
  intros Hsize. cbv zeta.
  assert (Hne : size <> SIZE_MAX).
  { intros ->. vm_compute in Hsize. discriminate Hsize. }
  destruct bufio as [b|]; [|destruct ok]; cbn [obtain calloc fst snd].
  - split; [split; [intros H; contradiction|intros [H _]; discriminate H]|].
    split; [intros H; contradiction|].
    intros _. split; [exact Hsize|discriminate].
  - split; [split; [intros H; contradiction|intros [_ H]; discriminate H]|].
    split; [intros H; contradiction|].
    intros _. split; [exact Hsize|discriminate].
  - split; [split; [intros _; split; reflexivity|reflexivity]|].
    split; [reflexivity|]. intros H. contradiction H. reflexivity.
Qed.

(** Every encoder returns [(size_t)-1] exactly when [*bufio] is [NULL]
    and the allocation fails, and then leaves [*bufio] as it is; any other
    return value is a multiple of 4 and [*bufio] then points to a block. *)
Theorem allocation_failure_reported (le ok : bool) (bufio : option array)
    (addr val mask n nval : Z) (aval : array) (r : option array * Z) :
  In r [cmd_read_status le ok bufio addr;
        cmd_send_pulse le ok bufio mask;
        cmd_write_memory le ok bufio addr aval nval;
        cmd_read_memory le ok bufio addr n;
        cmd_write_register le ok bufio addr val;
        cmd_read_register le ok bufio addr;
        cmd_read_datafifo le ok bufio n] ->
  (snd r = SIZE_MAX <-> bufio = None /\ ok = false)
  /\ (snd r = SIZE_MAX -> fst r = None)
  /\ (snd r <> SIZE_MAX -> snd r mod 4 = 0 /\ fst r <> None).
Proof.
  intros Hr. cbn [In] in Hr.
  destruct Hr as [<-|[<-|[<-|[<-|[<-|[<-|[<-|[]]]]]]]].
  - exact (reported ok bufio _ _ (eq_refl : (1 * 4) mod 4 = 0)).
  - exact (reported ok bufio _ _ (eq_refl : (1 * 4) mod 4 = 0)).
  - refine (reported ok bufio _ (u64 (u64 (nval * 2 + 2) * 4)) _).
    unfold u64. change (2 ^ 64) with 18446744073709551616.
    Z.div_mod_to_equations. lia.
  - exact (reported ok bufio _ _ (eq_refl : (4 * 4) mod 4 = 0)).
  - exact (reported ok bufio _ _ (eq_refl : (1 * 4) mod 4 = 0)).
  - exact (reported ok bufio _ _ (eq_refl : (1 * 4) mod 4 = 0)).
  - exact (reported ok bufio _ _ (eq_refl : (2 * 4) mod 4 = 0)).
Qed.

Lemma allocation_failure_reported_witness :
  snd (cmd_write_memory true false None 0 zeros 3) = SIZE_MAX
  /\ fst (cmd_write_memory true false None 0 zeros 3) = None
  /\ snd (cmd_read_memory true true None 0 1) mod 4 = 0.
Proof.
  destruct (allocation_failure_reported true false None 0 0 0 0 3 zeros
              (cmd_write_memory true false None 0 zeros 3))
    as (H1 & H2 & _); [right; right; left; reflexivity|].
  destruct (allocation_failure_reported true true None 0 0 0 1 0 zeros
              (cmd_read_memory true true None 0 1))
    as (_ & _ & H3); [right; right; right; left; reflexivity|].
  assert (E : snd (cmd_write_memory true false None 0 zeros 3) = SIZE_MAX)
    by (apply H1; split; reflexivity).
  split; [exact E|]. split; [exact (H2 E)|].
  apply H3. vm_compute. discriminate.
Defined.

(** ** [conv16network_endian] *)

Lemma bytes_be16_div (x : Z) : bytes_be16 x = [(x / 256) mod 256; x mod 256].
Proof.
  unfold bytes_be16. rewrite !land_ff, Z.shiftr_div_pow2 by lia. reflexivity.
Qed.

Lemma htons_value (le : bool) (x : Z) :
  htons le x
  = if le then (x mod 256) * 256 + (x / 256) mod 256
    else ((x / 256) mod 256) * 256 + x mod 256.
Proof.
  unfold htons, host_word. rewrite bytes_be16_div.
  destruct le; reflexivity.
Qed.

Lemma htons_range (le : bool) (x : Z) : 0 <= htons le x < 65536.
Proof.
  rewrite htons_value.
  assert (0 <= x mod 256 < 256) by (apply Z.mod_pos_bound; lia).
  assert (0 <= (x / 256) mod 256 < 256) by (apply Z.mod_pos_bound; lia).
  destruct le; lia.
Qed.

Lemma u16_htons (le : bool) (x : Z) : u16 (htons le x) = htons le x.
Proof. apply u16_small, htons_range. Qed.

(** [htons] leaves in host memory the two bytes of its argument, the
    most significant first. *)
Lemma host_bytes16_htons (le : bool) (x : Z) :
  host_bytes16 le (htons le x) = bytes_be16 x.
Proof.
  unfold host_bytes16. rewrite !bytes_be16_div, htons_value.
  assert (0 <= x mod 256 < 256) by (apply Z.mod_pos_bound; lia).
  assert (0 <= (x / 256) mod 256 < 256) by (apply Z.mod_pos_bound; lia).
  destruct le; cbn [rev app]; f_equal; [| f_equal | | f_equal];
    Z.div_mod_to_equations; lia.
Qed.

(** [htons] is its own inverse on 16-bit words. *)
Lemma htons_htons (le : bool) (x : Z) :
  0 <= x < 65536 -> htons le (htons le x) = x.
Proof.
  intros Hx. rewrite (htons_value le (htons le x)), htons_value.
  destruct le; Z.div_mod_to_equations; lia.
Qed.

Lemma conv16_up_cells (le : bool) (n : nat) :
  forall (i : Z) (buf : array) (k : Z),
    conv16_up le n i buf k
    = if (i <=? k) && (k <? i + Z.of_nat n)
      then htons le (load_u16 buf k) else buf k.
Proof.
  induction n as [|n IH]; intros i buf k.
  - cbn [conv16_up].
    destruct (Z_lt_le_dec k i); bool_lia; reflexivity.
  - cbn [conv16_up]. rewrite IH. unfold store_u16, load_u16, upd.
    cbv beta. rewrite Nat2Z.inj_succ. rewrite u16_htons.
    destruct (Z.lt_trichotomy k i) as [Hk|[Hk|Hk]].
    + bool_lia. reflexivity.
    + subst k. bool_lia. reflexivity.
    + destruct (Z_lt_le_dec k (i + Z.succ (Z.of_nat n)));
        bool_lia; reflexivity.
Qed.

Lemma conv16_cells (le : bool) (buf : array) (n k : Z) :
  0 <= n ->
  conv16network_endian le buf n k
  = if (0 <=? k) && (k <? n) then htons le (load_u16 buf k) else buf k.
Proof.
  intros Hn. unfold conv16network_endian. rewrite conv16_up_cells.
  rewrite Z2Nat.id by exact Hn. reflexivity.
Qed.

(** [conv16network_endian] leaves in the first [n] cells the two bytes of
    their former content, most significant first, touches no other cell,
    and applied twice gives back the 16-bit content of every cell. *)
Theorem conv16network_endian_cells (le : bool) (buf : array) (n : Z) :
  0 <= n ->
  let buf' := conv16network_endian le buf n in
  (forall k, 0 <= k < n ->
     host_bytes16 le (buf' k) = bytes_be16 (load_u16 buf k))
  /\ (forall k, ~ 0 <= k < n -> buf' k = buf k)
  /\ (forall k, 0 <= k < n ->
        conv16network_endian le buf' n k = load_u16 buf k).
Proof.
  intros Hn. cbv zeta. split; [|split].
  - intros k Hk. rewrite conv16_cells by exact Hn.
    replace ((0 <=? k) && (k <? n)) with true
      by (symmetry; apply andb_true_intro;
          split; [apply Z.leb_le|apply Z.ltb_lt]; lia).
    apply host_bytes16_htons.
  - intros k Hk. rewrite conv16_cells by exact Hn.
    destruct (Z.leb_spec 0 k); destruct (Z.ltb_spec k n);
      cbn [andb]; try reflexivity; lia.
  - intros k Hk. rewrite conv16_cells by exact Hn.
    unfold load_u16 at 1. rewrite conv16_cells by exact Hn.
    replace ((0 <=? k) && (k <? n)) with true
      by (symmetry; apply andb_true_intro;
          split; [apply Z.leb_le|apply Z.ltb_lt]; lia).
    rewrite u16_htons. apply htons_htons. apply u16_range.
Qed.

Lemma conv16network_endian_cells_witness :
  let buf := upd zeros 0 0x1234 in
  host_bytes16 true (conv16network_endian true buf 1 0) = [0x12; 0x34]
  /\ conv16network_endian true buf 1 1 = 0
  /\ conv16network_endian true (conv16network_endian true buf 1) 1 0
     = 0x1234.
Proof.
  cbv zeta.
  destruct (conv16network_endian_cells true (upd zeros 0 0x1234) 1)
    as (H1 & H2 & H3); [lia|].
  split; [|split].
  - rewrite H1 by lia. vm_compute. reflexivity.
  - rewrite H2 by lia. vm_compute. reflexivity.
  - rewrite H3 by lia. vm_compute. reflexivity.
Defined.

(** * Properties of [data_cal] over whole runs *)

(** ** The cases of one iteration *)

Lemma assemble_next_fields (buf : array) (i : Z) (s : state) :
  let a := assemble (next_byte buf i s) in
  (pdata a = u16 (pdata s + Z.shiftl (load_u8 buf i) 8)
   /\ counter a = s32 (counter s + 1) /\ odd a = 1
   /\ pdata_pre1 a = pdata a /\ pdata_pre2 a = pdata_pre1 s)
  /\ (w1 a = load_u8 buf i /\ w2 a = w1 s /\ w3 a = w2 s /\ w4 a = w3 s
      /\ reads a = i :: reads s)
  /\ (row a = row s /\ column a = column s /\ code a = code s
      /\ tsign a = tsign s /\ fcounter a = fcounter s)
  /\ (maps a = maps s /\ maps_temp a = maps_temp s
      /\ i2c_data a = i2c_data s /\ i2c_data_temp a = i2c_data_temp s
      /\ out a = out s).
Proof.
  cbv zeta. unfold assemble, next_byte. st_cbn.
  split; [|split; [|split]]; repeat split; reflexivity.
Qed.

Lemma low_next_fields (buf : array) (i : Z) (s : state) :
  let a := low_byte (next_byte buf i s) in
  (pdata a = load_u8 buf i /\ counter a = counter s /\ odd a = 0
   /\ pdata_pre1 a = pdata_pre1 s /\ pdata_pre2 a = pdata_pre2 s)
  /\ (w1 a = load_u8 buf i /\ w2 a = w1 s /\ w3 a = w2 s /\ w4 a = w3 s
      /\ reads a = i :: reads s)
  /\ (row a = row s /\ column a = column s /\ code a = code s
      /\ tsign a = tsign s /\ fcounter a = fcounter s)
  /\ (maps a = maps s /\ maps_temp a = maps_temp s
      /\ i2c_data a = i2c_data s /\ i2c_data_temp a = i2c_data_temp s
      /\ out a = out s).
Proof.
  cbv zeta. unfold low_byte, next_byte. st_cbn.
  split; [|split; [|split]]; repeat split; reflexivity.
Qed.

(** One iteration is one of seven things: a byte looked at while seeking
    the marker, the low byte of a word, and for the high byte of a word the
    first terminator, the end of the frame, a word below the gate, a row
    word or a column word. *)
Lemma loop_body_cases (sgn : bool) (buf : array) (fa i : Z) (s : state)
    (P : state -> Prop) :
  (counter s = 0 -> P (seek sgn buf i (next_byte buf i s))) ->
  (counter s <> 0 -> odd s = 1 -> P (low_byte (next_byte buf i s))) ->
  (forall a, a = assemble (next_byte buf i s) ->
     counter s <> 0 -> odd s <> 1 ->
     (pdata a = tailer -> tsign a = 0 -> P (set_tsign 1 a))
     /\ (pdata a = tailer -> tsign a <> 0 -> P (frame_end sgn fa a))
     /\ (pdata a <> tailer -> counter a <= 6 -> P (set_tsign 0 a))
     /\ (pdata a <> tailer -> 6 < counter a ->
         Z.land (pdata_pre2 a) 0x1000 <> 0 ->
         P (set_row (Z.land (Z.shiftr (pdata_pre2 a) 2) 0x3ff)
              (set_tsign 0 a)))
     /\ (pdata a <> tailer -> 6 < counter a ->
         Z.land (pdata_pre2 a) 0x1000 = 0 ->
         P (record_hit
              (set_code (Z.land (pdata_pre2 a) 0x3)
                 (set_column (Z.land (Z.shiftr (pdata_pre2 a) 2) 0x3ff)
                    (set_tsign 0 a)))))) ->
  P (loop_body sgn buf fa i s).
Proof.
  intros Hseek Hlow Hhigh.
  destruct (Z.eq_dec (counter s) 0) as [Hc|Hc].
  { rewrite (loop_body_seek sgn buf fa i s Hc). exact (Hseek Hc). }
  destruct (Z.eq_dec (odd s) 1) as [Ho|Ho].
  { rewrite (loop_body_low sgn buf fa i s Hc Ho). exact (Hlow Hc Ho). }
  rewrite (loop_body_high sgn buf fa i s Hc Ho).
  destruct (Hhigh _ eq_refl Hc Ho) as (H1 & H2 & H3 & H4 & H5).
  clear Hseek Hlow Hhigh.
  generalize dependent (assemble (next_byte buf i s)).
  intros a H1 H2 H3 H4 H5.
  destruct (Z.eq_dec (pdata a) tailer) as [Hp|Hp].
  - destruct (Z.eq_dec (tsign a) 0) as [Ht|Ht].
    + rewrite (frame_word_first_tailer sgn fa a Hp Ht). exact (H1 Hp Ht).
    + rewrite (frame_word_second_tailer sgn fa a Hp Ht). exact (H2 Hp Ht).
  - rewrite (frame_word_other sgn fa a Hp).
    destruct (Z.gtb_spec (counter a) 6) as [Hg|Hg]; [|exact (H3 Hp Hg)].
    destruct (Z.eq_dec (Z.land (pdata_pre2 a) 0x1000) 0) as [Hb|Hb].
    + rewrite decode_column_word by exact Hb. exact (H5 Hp Hg Hb).
    + rewrite decode_row_word by exact Hb. exact (H4 Hp Hg Hb).
Qed.

(** ** The staging loop *)

Lemma stage_loop_cells (sgn : bool) (buf : array) (i : Z) (n : nat) :
  forall m0 s k,
    i2c_data_temp
      (for_up n m0
         (fun m =>
            ite (fun _ => i + m <? datanum * 4)
              (assign set_reads (fun s => (i + m + 1) :: reads s) ;;
               assign set_i2c_data_temp
                 (fun s => store_char sgn (i2c_data_temp s) m
                             (load_u8 buf (i + m + 1))))
              skip) s) k
    = if (m0 <=? k) && (k <? m0 + Z.of_nat n) && (i + k <? datanum * 4)
      then to_char sgn (load_u8 buf (i + k + 1))
      else i2c_data_temp s k.
Proof.
  induction n as [|n IH]; intros m0 s k.
  - cbn [for_up]. replace (m0 + Z.of_nat 0) with m0 by (cbn; lia).
    destruct (Z.leb_spec m0 k); destruct (Z.ltb_spec k m0);
      cbn [andb]; try reflexivity; lia.
  - rewrite for_up_S, IH, Nat2Z.inj_succ. unfold ite.
    destruct (Z.eq_dec k m0) as [->|Hk].
    + replace (m0 + 1 <=? m0) with false by (symmetry; apply Z.leb_gt; lia).
      replace (m0 <=? m0) with true by (symmetry; apply Z.leb_le; lia).
      replace (m0 <? m0 + Z.succ (Z.of_nat n)) with true
        by (symmetry; apply Z.ltb_lt; lia).
      cbn [andb].
      destruct (i + m0 <? datanum * 4); st_cbn; [|reflexivity].
      unfold store_char. apply upd_eq.
    + assert (E : i2c_data_temp
                (if i + m0 <? datanum * 4
                 then (assign set_reads (fun s => (i + m0 + 1) :: reads s) ;;
                       assign set_i2c_data_temp
                         (fun s => store_char sgn (i2c_data_temp s) m0
                                     (load_u8 buf (i + m0 + 1)))) s
                 else skip s) k = i2c_data_temp s k).
      { destruct (i + m0 <? datanum * 4); st_cbn; [|reflexivity].
        unfold store_char. apply upd_neq. exact Hk. }
      rewrite E.
      destruct (Z.leb_spec (m0 + 1) k); destruct (Z.leb_spec m0 k);
        destruct (Z.ltb_spec k (m0 + 1 + Z.of_nat n));
        destruct (Z.ltb_spec k (m0 + Z.succ (Z.of_nat n)));
        cbn [andb]; try reflexivity; lia.
Qed.

(** The staging loop copies into cell [k], for [k] from 0 to 7, the byte
    that follows the current one at distance [k + 1], as long as index
    [i + k] is inside the buffer. *)
Lemma stage_cells (sgn : bool) (buf : array) (i : Z) (s : state) (k : Z) :
  i2c_data_temp (stage sgn buf i s) k
  = if (0 <=? k) && (k <? 8) && (i + k <? buflen)
    then to_char sgn (load_u8 buf (i + k + 1))
    else i2c_data_temp s k.
Proof.
  unfold stage.
  match goal with
  | |- context [for_lt 0 8 ?body s] =>
      destruct (for_lt_count 0 8 body s) as (n & Hn & ->); [lia|]
  end.
  rewrite stage_loop_cells. replace (0 + Z.of_nat n) with 8 by lia.
  reflexivity.
Qed.

Lemma seek_cells (sgn : bool) (buf : array) (i : Z) (s : state) (k : Z) :
  i2c_data_temp (seek sgn buf i s) k
  = if (0 <=? k) && (k <? 8) && (i + k <? buflen)
    then to_char sgn (load_u8 buf (i + k + 1))
    else i2c_data_temp s k.
Proof.
  unfold seek, seq. rewrite stage_cells.
  unfold ite. destruct (_ && _ && _ && _); reflexivity.
Qed.

(** ** Writes stay inside the caller's arrays *)

Lemma commit_outside (fa : Z) (s : state) (k : Z) :
  ~ 0 <= k < 928 * 960 ->
  maps (commit fa s) k = maps s k
  /\ maps_temp (commit fa s) k = maps_temp s k.
Proof.
  intros Hk. destruct (Z.eq_dec (fcounter s) fa) as [He|He].
  - destruct (commit_due fa s k He) as (_ & Hm & Ht).
    rewrite Hm, Ht.
    replace ((0 <=? k) && (k <? 928 * 960)) with false
      by (symmetry; apply andb_false_iff;
          destruct (Z_lt_le_dec k 0);
          [left; apply Z.leb_gt|right; apply Z.ltb_ge]; lia).
    split; reflexivity.
  - rewrite (commit_not_due fa s He). split; reflexivity.
Qed.

Lemma telemetry_outside (sgn : bool) (s : state) (k : Z) :
  ~ 0 <= k < 8 -> i2c_data (telemetry sgn s) k = i2c_data s k.
Proof.
  intros Hk. destruct (telemetry_cells sgn s) as (_ & _ & _ & _ & _ & _ & H).
  pose proof (channel_id_range (staged sgn s 6)) as Hid. cbv zeta in Hid.
  apply H; lia.
Qed.

Lemma record_hit_outside (s : state) (k : Z) :
  0 <= row s -> 0 <= column s -> ~ 0 <= k < 928 * 960 ->
  maps_temp (record_hit s) k = maps_temp s k.
Proof.
  intros Hr Hc Hk. rewrite record_hit_flat.
  destruct (Z.ltb_spec (column s + code s) 960); [|reflexivity].
  destruct (Z.ltb_spec (row s) 928); [|reflexivity].
  destruct (Z.leb_spec (row s * 960 + column s) k); [|reflexivity].
  destruct (Z.leb_spec k (row s * 960 + column s + code s)); [|reflexivity].
  exfalso. apply Hk. nia.
Qed.

Lemma writes_step (sgn : bool) (buf : array) (fa i : Z) (s : state) :
  0 <= row s ->
  0 <= row (loop_body sgn buf fa i s)
  /\ (forall k, ~ 0 <= k < 928 * 960 ->
        maps (loop_body sgn buf fa i s) k = maps s k
        /\ maps_temp (loop_body sgn buf fa i s) k = maps_temp s k)
  /\ (forall k, ~ 0 <= k < 8 ->
        i2c_data (loop_body sgn buf fa i s) k = i2c_data s k
        /\ i2c_data_temp (loop_body sgn buf fa i s) k = i2c_data_temp s k).
Proof.
  intros Hr.
  pattern (loop_body sgn buf fa i s). apply loop_body_cases.
  - intros _.
    pose proof (seek_frame sgn buf i (next_byte buf i s)) as Hf.
    cbv beta in Hf. injection Hf as Hm Ht _ Hrow Hd _.
    rewrite Hm, Ht, Hrow, Hd.
    split; [exact Hr|]. split; [intros k _; split; reflexivity|].
    intros k Hk. split; [reflexivity|].
    rewrite seek_cells.
    replace ((0 <=? k) && (k <? 8)) with false
      by (symmetry; apply andb_false_iff;
          destruct (Z_lt_le_dec k 0);
          [left; apply Z.leb_gt|right; apply Z.ltb_ge]; lia).
    reflexivity.
  - intros _ _.
    split; [exact Hr|]. split; intros k _; split; reflexivity.
  - intros a Ha _ _.
    destruct (assemble_next_fields buf i s)
      as (_ & _ & (Erow & _) & (Em & Et & Ed & Eg & _)).
    rewrite <- Ha in Erow, Em, Et, Ed, Eg. clear Ha.
    rewrite <- Erow in Hr. rewrite <- Em, <- Et, <- Ed, <- Eg.
    clear Erow Em Et Ed Eg.
    split; [|split; [|split; [|split]]].
    + intros _ _. split; [exact Hr|].
      split; intros k _; split; reflexivity.
    + intros _ _. rewrite frame_end_split.
      frame_rw row (commit fa). frame_rw row (telemetry sgn).
      frame_rw i2c_data (commit fa).
      frame_rw i2c_data_temp (commit fa).
      frame_rw i2c_data_temp (telemetry sgn).
      split; [exact Hr|]. split.
      * intros k Hk.
        match goal with
        | |- context [commit fa ?x] =>
            destruct (commit_outside fa x k Hk) as [-> ->]
        end.
        frame_rw maps (telemetry sgn). frame_rw maps_temp (telemetry sgn).
        split; reflexivity.
      * intros k Hk. split; [|reflexivity].
        rewrite telemetry_outside by exact Hk. reflexivity.
    + intros _ _. split; [exact Hr|].
      split; intros k _; split; reflexivity.
    + intros _ _ _. split.
      * apply (land_mask_range _ 0x3ff). lia.
      * split; intros k _; split; reflexivity.
    + intros _ _ _.
      frame_rw row record_hit. frame_rw maps record_hit.
      frame_rw i2c_data record_hit. frame_rw i2c_data_temp record_hit.
      split; [exact Hr|]. split.
      * intros k Hk. split; [reflexivity|].
        rewrite record_hit_outside; [reflexivity|exact Hr| |exact Hk].
        apply (land_mask_range _ 0x3ff). lia.
      * intros k _. split; reflexivity.
Qed.

Lemma writes_run (sgn : bool) (buf : array) (fa : Z) (n : nat) :
  forall i s,
    0 <= row s ->
    (forall k, ~ 0 <= k < 928 * 960 ->
       maps (run sgn buf fa n i s) k = maps s k
       /\ maps_temp (run sgn buf fa n i s) k = maps_temp s k)
    /\ (forall k, ~ 0 <= k < 8 ->
          i2c_data (run sgn buf fa n i s) k = i2c_data s k
          /\ i2c_data_temp (run sgn buf fa n i s) k = i2c_data_temp s k).
Proof.
  induction n as [|n IH]; intros i s Hr.
  - rewrite run_O. split; intros k _; split; reflexivity.
  - rewrite run_S.
    destruct (writes_step sgn buf fa i s Hr) as (Hr' & Hg & Hd).
    destruct (IH (i + 1) _ Hr') as (IHg & IHd).
    split; intros k Hk.
    + destruct (IHg k Hk) as [-> ->]. exact (Hg k Hk).
    + destruct (IHd k Hk) as [-> ->]. exact (Hd k Hk).
Qed.

(** Whatever the buffer holds, [data_cal] changes no cell of [maps] and
    [maps_temp] outside the 928 x 960 grid, no cell of [i2c_data] outside
    its 8 words, and no cell of the staging array outside its 8 bytes. *)
Theorem data_cal_writes_in_bounds (sgn : bool)
    (garbage buf m t d : array) (f fa : Z) :
  let s := data_cal sgn garbage buf m t d f fa in
  (forall k, ~ 0 <= k < 928 * 960 -> maps s k = m k /\ maps_temp s k = t k)
  /\ (forall k, ~ 0 <= k < 8 ->
        i2c_data s k = d k /\ i2c_data_temp s k = garbage k).
Proof.
  cbv zeta. rewrite data_cal_run.
  apply (writes_run sgn buf fa (Z.to_nat buflen) 0 (init garbage m t d f)).
  cbn [row init]. lia.
Qed.

(** ** Reads stay inside the buffer, but for one byte *)

Lemma stage_loop_reads_inv (sgn : bool) (buf : array) (i x : Z) (n : nat) :
  forall m0 s,
    In x (reads
      (for_up n m0
         (fun m =>
            ite (fun _ => i + m <? datanum * 4)
              (assign set_reads (fun s => (i + m + 1) :: reads s) ;;
               assign set_i2c_data_temp
                 (fun s => store_char sgn (i2c_data_temp s) m
                             (load_u8 buf (i + m + 1))))
              skip) s)) ->
    In x (reads s)
    \/ (i + m0 + 1 <= x <= i + m0 + Z.of_nat n /\ x <= datanum * 4).
Proof.
  induction n as [|n IH]; intros m0 s H.
  - left. exact H.
  - rewrite for_up_S in H. apply IH in H. rewrite Nat2Z.inj_succ.
    destruct H as [H|H]; [|right; lia].
    unfold ite in H. destruct (Z.ltb_spec (i + m0) (datanum * 4)).
    + st_cbn_in H. destruct H as [H|H]; [right; lia|left; exact H].
    + left. exact H.
Qed.

Lemma stage_reads_inv (sgn : bool) (buf : array) (i x : Z) (s : state) :
  In x (reads (stage sgn buf i s)) ->
  In x (reads s) \/ (i + 1 <= x <= i + 8 /\ x <= buflen).
Proof.
  unfold stage.
  match goal with
  | |- context [for_lt 0 8 ?body s] =>
      destruct (for_lt_count 0 8 body s) as (n & Hn & ->); [lia|]
  end.
  intros H. apply stage_loop_reads_inv in H.
  destruct H as [H|H]; [left; exact H|right; unfold buflen; lia].
Qed.

Lemma stage_mono (sgn : bool) (buf : array) (i x : Z) (s : state) :
  In x (reads s) -> In x (reads (stage sgn buf i s)).
Proof.
  unfold stage.
  match goal with
  | |- context [for_lt 0 8 ?body s] =>
      destruct (for_lt_count 0 8 body s) as (n & Hn & ->); [lia|]
  end.
  apply stage_loop_mono.
Qed.

Lemma seek_stage (sgn : bool) (buf : array) (i : Z) (s : state) :
  exists s', seek sgn buf i s = stage sgn buf i s' /\ reads s' = reads s.
Proof.
  unfold seek, seq, ite.
  destruct (_ && _ && _ && _); eexists; split; reflexivity.
Qed.

(** What one iteration reads: the current byte, and while seeking the
    marker up to eight bytes after it, the last of which may be the byte
    just past the end of the buffer. *)
Lemma reads_step (sgn : bool) (buf : array) (fa i x : Z) (s : state) :
  (In x (reads (loop_body sgn buf fa i s)) ->
   In x (reads s) \/ x = i \/ (i + 1 <= x <= i + 8 /\ x <= buflen))
  /\ (In x (reads s) \/ x = i -> In x (reads (loop_body sgn buf fa i s))).
Proof.
  pattern (loop_body sgn buf fa i s). apply loop_body_cases.
  - intros _. destruct (seek_stage sgn buf i (next_byte buf i s))
      as (s' & -> & Hs').
    change (reads (next_byte buf i s)) with (i :: reads s) in Hs'.
    split.
    + intros H. apply stage_reads_inv in H. rewrite Hs' in H.
      destruct H as [[H|H]|H]; [right; left; symmetry; exact H
                               |left; exact H|right; right; exact H].
    + intros H. apply stage_mono. rewrite Hs'.
      destruct H as [H|H]; [right; exact H|left; symmetry; exact H].
  - intros _ _.
    change (reads (low_byte (next_byte buf i s))) with (i :: reads s).
    split.
    + intros [H|H]; [right; left; symmetry; exact H|left; exact H].
    + intros [H|H]; [right; exact H|left; symmetry; exact H].
  - intros a Ha _ _.
    destruct (assemble_next_fields buf i s)
      as (_ & (_ & _ & _ & _ & Er) & _).
    rewrite <- Ha in Er. clear Ha.
    assert (Hgen : forall s' : state, reads s' = reads a ->
              (In x (reads s') ->
               In x (reads s) \/ x = i
               \/ (i + 1 <= x <= i + 8 /\ x <= buflen))
              /\ (In x (reads s) \/ x = i -> In x (reads s'))).
    { intros s' ->. rewrite Er. split.
      - intros [H|H]; [right; left; symmetry; exact H|left; exact H].
      - intros [H|H]; [right; exact H|left; symmetry; exact H]. }
    split; [|split; [|split; [|split]]]; intros; apply Hgen.
    + reflexivity.
    + frame_rw reads (frame_end sgn fa). reflexivity.
    + reflexivity.
    + reflexivity.
    + frame_rw reads record_hit. reflexivity.
Qed.

Lemma reads_run (sgn : bool) (buf : array) (fa x : Z) (n : nat) :
  forall i s,
    (In x (reads (run sgn buf fa n i s)) ->
     In x (reads s) \/ (i <= x /\ (x < i + Z.of_nat n \/ x <= buflen)))
    /\ (In x (reads s) \/ i <= x < i + Z.of_nat n ->
        In x (reads (run sgn buf fa n i s))).
Proof.
  induction n as [|n IH]; intros i s.
  - rewrite run_O. split.
    + intros H. left. exact H.
    + intros [H|H]; [exact H|cbn in H; lia].
  - rewrite run_S, Nat2Z.inj_succ.
    destruct (IH (i + 1) (loop_body sgn buf fa i s)) as [IH1 IH2].
    destruct (reads_step sgn buf fa i x s) as [S1 S2].
    split.
    + intros H. apply IH1 in H. destruct H as [H|H]; [|right; lia].
      apply S1 in H. destruct H as [H|[H|H]]; [left; exact H|right; lia|].
      right. lia.
    + intros H. apply IH2.
      destruct H as [H|H]; [left; apply S2; left; exact H|].
      destruct (Z.eq_dec x i) as [E|E]; [left; apply S2; right; exact E|].
      right. lia.
Qed.

(** [data_cal] reads every byte of the buffer, and never reads before
    its first byte nor more than one byte past its last. *)
Theorem data_cal_reads_in_bounds (sgn : bool)
    (garbage buf m t d : array) (f fa : Z) :
  let s := data_cal sgn garbage buf m t d f fa in
  (forall x, In x (reads s) -> 0 <= x <= buflen)
  /\ (forall x, 0 <= x < buflen -> In x (reads s)).
Proof.
  cbv zeta. rewrite data_cal_run. split; intros x H.
  - destruct (reads_run sgn buf fa x (Z.to_nat buflen) 0
                (init garbage m t d f)) as [H1 _].
    apply H1 in H. destruct H as [H|H]; [contradiction H|].
    rewrite Z2Nat.id in H by (unfold buflen, datanum; lia). lia.
  - destruct (reads_run sgn buf fa x (Z.to_nat buflen) 0
                (init garbage m t d f)) as [_ H2].
    apply H2. right.
    rewrite Z2Nat.id by (unfold buflen, datanum; lia). lia.
Qed.

(** ** The decoder's variables stay in range *)

Lemma seek_fields (sgn : bool) (buf : array) (i : Z) (s : state) :
  let s' := seek sgn buf i s in
  counter s'
  = (if (w1 s =? 0xaa) && (w2 s =? 0xaa) && (w3 s =? 0xaa) && (w4 s =? 0xaa)
     then 1 else counter s)
  /\ odd s' = 1 /\ tsign s' = tsign s /\ column s' = column s
  /\ code s' = code s.
Proof.
  cbv zeta. unfold seek, seq.
  frame_rw counter (stage sgn buf i). frame_rw odd (stage sgn buf i).
  frame_rw tsign (stage sgn buf i). frame_rw column (stage sgn buf i).
  frame_rw code (stage sgn buf i).
  unfold ite. st_cbn.
  destruct (_ && _ && _ && _); repeat split; reflexivity.
Qed.

Lemma range_step (sgn : bool) (buf : array) (fa i c : Z) (s : state) :
  c < INT_MAX ->
  0 <= counter s <= c ->
  (odd s = 0 \/ odd s = 1) -> (tsign s = 0 \/ tsign s = 1) ->
  (counter s = 0 -> tsign s = 0) ->
  0 <= row s <= 1023 -> 0 <= column s <= 1023 -> 0 <= code s <= 3 ->
  let s' := loop_body sgn buf fa i s in
  0 <= counter s' <= c + 1
  /\ (odd s' = 0 \/ odd s' = 1) /\ (tsign s' = 0 \/ tsign s' = 1)
  /\ (counter s' = 0 -> tsign s' = 0)
  /\ 0 <= row s' <= 1023 /\ 0 <= column s' <= 1023 /\ 0 <= code s' <= 3.
Proof.
  intros Hc Hcnt Hodd Hts Hz Hrow Hcol Hcode. cbv zeta.
  pattern (loop_body sgn buf fa i s). apply loop_body_cases.
  - intros H0.
    destruct (seek_fields sgn buf i (next_byte buf i s))
      as (-> & -> & -> & -> & ->).
    pose proof (seek_frame sgn buf i (next_byte buf i s)) as Hf.
    cbv beta in Hf. injection Hf as _ _ _ -> _ _.
    change (counter (next_byte buf i s)) with (counter s).
    change (tsign (next_byte buf i s)) with (tsign s).
    change (row (next_byte buf i s)) with (row s).
    change (column (next_byte buf i s)) with (column s).
    change (code (next_byte buf i s)) with (code s).
    specialize (Hz H0).
    destruct (_ && _ && _ && _);
      (split; [lia|]; split; [right; reflexivity|];
       split; [left; exact Hz|]; split; [intros _; exact Hz|];
       split; [exact Hrow|]; split; [exact Hcol|exact Hcode]).
  - intros Hn _.
    destruct (low_next_fields buf i s)
      as ((_ & -> & -> & _) & _ & (-> & -> & -> & -> & _) & _).
    split; [lia|]. split; [left; reflexivity|]. split; [exact Hts|].
    split; [exact Hz|]. split; [exact Hrow|]. split; [exact Hcol|exact Hcode].
  - intros a Ha Hn _.
    destruct (assemble_next_fields buf i s)
      as ((_ & Ec & Eo & _) & _ & (Er & Ecl & Ecd & Et & _) & _).
    rewrite <- Ha in Ec, Eo, Er, Ecl, Ecd, Et. clear Ha.
    rewrite s32_small in Ec by (unfold INT_MIN, INT_MAX in *; lia).
    split; [|split; [|split; [|split]]].
    + intros _ _. st_cbn. rewrite Ec, Eo, Er, Ecl, Ecd.
      split; [lia|]. split; [right; reflexivity|].
      split; [right; reflexivity|]. split; [lia|].
      split; [exact Hrow|]. split; [exact Hcol|exact Hcode].
    + intros _ _.
      destruct (frame_end_fields sgn fa a) as (-> & -> & _).
      frame_rw odd (frame_end sgn fa). frame_rw row (frame_end sgn fa).
      frame_rw column (frame_end sgn fa). frame_rw code (frame_end sgn fa).
      rewrite Eo, Er, Ecl, Ecd.
      split; [lia|]. split; [right; reflexivity|].
      split; [left; reflexivity|]. split; [reflexivity|].
      split; [exact Hrow|]. split; [exact Hcol|exact Hcode].
    + intros _ _. st_cbn. rewrite Ec, Eo, Er, Ecl, Ecd.
      split; [lia|]. split; [right; reflexivity|].
      split; [left; reflexivity|]. split; [reflexivity|].
      split; [exact Hrow|]. split; [exact Hcol|exact Hcode].
    + intros _ _ _. st_cbn. rewrite Ec, Eo, Ecl, Ecd.
      split; [lia|]. split; [right; reflexivity|].
      split; [left; reflexivity|]. split; [reflexivity|].
      split; [apply (land_mask_range _ 0x3ff); lia|].
      split; [exact Hcol|exact Hcode].
    + intros _ _ _.
      frame_rw counter record_hit. frame_rw odd record_hit.
      frame_rw tsign record_hit. frame_rw row record_hit.
      frame_rw column record_hit. frame_rw code record_hit.
      st_cbn. rewrite Ec, Eo, Er.
      split; [lia|]. split; [right; reflexivity|].
      split; [left; reflexivity|]. split; [reflexivity|].
      split; [exact Hrow|].
      split; [apply (land_mask_range _ 0x3ff); lia
             |apply (land_mask_range _ 0x3); lia].
Qed.

Lemma range_run (sgn : bool) (buf : array) (fa : Z) (n : nat) :
  forall i c s,
    c + Z.of_nat n <= INT_MAX ->
    0 <= counter s <= c ->
    (odd s = 0 \/ odd s = 1) -> (tsign s = 0 \/ tsign s = 1) ->
    (counter s = 0 -> tsign s = 0) ->
    0 <= row s <= 1023 -> 0 <= column s <= 1023 -> 0 <= code s <= 3 ->
    let s' := run sgn buf fa n i s in
    0 <= counter s' <= c + Z.of_nat n
    /\ (odd s' = 0 \/ odd s' = 1) /\ (tsign s' = 0 \/ tsign s' = 1)
    /\ (counter s' = 0 -> tsign s' = 0)
    /\ 0 <= row s' <= 1023 /\ 0 <= column s' <= 1023 /\ 0 <= code s' <= 3.
Proof.
  induction n as [|n IH]; intros i c s Hc Hcnt Hodd Hts Hz Hrow Hcol Hcode.
  - cbv zeta. rewrite run_O. change (Z.of_nat 0) with 0.
    split; [lia|]. split; [exact Hodd|]. split; [exact Hts|].
    split; [exact Hz|]. split; [exact Hrow|]. split; [exact Hcol|exact Hcode].
  - cbv zeta. rewrite run_S. rewrite Nat2Z.inj_succ in *.
    destruct (range_step sgn buf fa i c s ltac:(lia)
                Hcnt Hodd Hts Hz Hrow Hcol Hcode)
      as (H1 & H2 & H3 & H4 & H5 & H6 & H7).
    replace (c + Z.succ (Z.of_nat n)) with (c + 1 + Z.of_nat n) by lia.
    apply IH; try assumption. lia.
Qed.

(** After any number of bytes of the buffer the word counter is between
    0 and the number of bytes consumed, so that it never overflows; [odd]
    and [tsign] are 0 or 1, [tsign] is 0 outside a frame, and the pending
    row, column and code are within 10, 10 and 2 bits. *)
Theorem decoder_state_in_range (sgn : bool) (garbage buf m t d : array)
    (f fa : Z) (n : nat) :
  Z.of_nat n <= buflen ->
  let s := run sgn buf fa n 0 (init garbage m t d f) in
  0 <= counter s <= Z.of_nat n /\ counter s < INT_MAX
  /\ (odd s = 0 \/ odd s = 1) /\ (tsign s = 0 \/ tsign s = 1)
  /\ (counter s = 0 -> tsign s = 0)
  /\ 0 <= row s <= 1023 /\ 0 <= column s <= 1023 /\ 0 <= code s <= 3.
Proof.
  intros Hn. cbv zeta.
  assert (Hb : buflen < INT_MAX) by (vm_compute; reflexivity).
  destruct (range_run sgn buf fa n 0 0 (init garbage m t d f))
    as (H1 & H2 & H3 & H4 & H5 & H6 & H7).
  - lia.
  - cbn [counter init]. lia.
  - left. reflexivity.
  - left. reflexivity.
  - reflexivity.
  - cbn [row init]. lia.
  - cbn [column init]. lia.
  - cbn [code init]. lia.
  - change (0 + Z.of_nat n) with (Z.of_nat n) in H1.
    split; [exact H1|]. split; [lia|]. split; [exact H2|].
    split; [exact H3|]. split; [exact H4|]. split; [exact H5|].
    split; [exact H6|exact H7].
Qed.

Lemma decoder_state_in_range_witness :
  let s := run true frame1 5 20 0 start in
  0 <= counter s <= 20 /\ 0 <= row s <= 1023 /\ 0 <= code s <= 3.
Proof.
  cbv zeta.
  destruct (decoder_state_in_range true zeros frame1 zeros zeros zeros 0 5 20)
    as (H1 & _ & _ & _ & _ & H5 & _ & H7).
  - vm_compute. discriminate.
  - split; [exact H1|]. split; [exact H5|exact H7].
Defined.

(** ** Leaving a frame *)

(** Inside a frame the word counter falls back to 0, which is what makes
    the decoder look for a marker again, at the second of two consecutive
    terminators and nowhere else; on any other byte it stays or goes up by
    one.  A marker met inside a frame is therefore an ordinary word. *)
Theorem frame_left_at_doubled_terminator_only (sgn : bool) (buf : array)
    (fa i : Z) (s : state) :
  0 < counter s < INT_MAX ->
  let s' := loop_body sgn buf fa i s in
  (counter s' = 0 <-> ends_frame buf i s = true)
  /\ (ends_frame buf i s = false ->
      counter s' = counter s \/ counter s' = counter s + 1).
Proof.
  intros Hc. cbv zeta. unfold ends_frame.
  assert (Hne : (counter s =? 0) = false) by (apply Z.eqb_neq; lia).
  rewrite Hne. cbn [negb andb].
  pattern (loop_body sgn buf fa i s). apply loop_body_cases.
  - intros H0. lia.
  - intros _ Ho. rewrite Ho. cbn [Z.eqb Pos.eqb negb andb].
    destruct (low_next_fields buf i s) as ((_ & -> & _) & _).
    split; [split; [lia|discriminate]|]. intros _. left. reflexivity.
  - intros a Ha _ Ho.
    apply Z.eqb_neq in Ho. rewrite Ho. cbn [negb andb].
    destruct (assemble_next_fields buf i s)
      as ((Ep & Ec & _) & _ & (_ & _ & _ & Et & _) & _).
    rewrite <- Ha in Ep, Ec, Et. clear Ha.
    rewrite s32_small in Ec by (unfold INT_MIN, INT_MAX in *; lia).
    rewrite <- Ep, <- Et. clear Ep Et.
    split; [|split; [|split; [|split]]].
    + intros Hp Ht. st_cbn. rewrite Hp, Ht, Z.eqb_refl.
      cbn [Z.eqb negb andb].
      split; [split; [lia|discriminate]|]. intros _. right. exact Ec.
    + intros Hp Ht. destruct (frame_end_fields sgn fa a) as (-> & _).
      rewrite Hp, Z.eqb_refl. apply Z.eqb_neq in Ht. rewrite Ht.
      cbn [negb andb].
      split; [split; reflexivity|]. intros H. discriminate H.
    + intros Hp _. st_cbn. apply Z.eqb_neq in Hp. rewrite Hp.
      cbn [andb].
      split; [split; [lia|discriminate]|]. intros _. right. exact Ec.
    + intros Hp _ _. st_cbn. apply Z.eqb_neq in Hp. rewrite Hp.
      cbn [andb].
      split; [split; [lia|discriminate]|]. intros _. right. exact Ec.
    + intros Hp _ _. frame_rw counter record_hit. st_cbn.
      apply Z.eqb_neq in Hp. rewrite Hp. cbn [andb].
      split; [split; [lia|discriminate]|]. intros _. right. exact Ec.
Qed.

Lemma frame_left_at_doubled_terminator_only_witness :
  counter (after 25) = 11
  /\ counter (loop_body true frame1 5 25 (after 25)) = 0
  /\ (counter (loop_body true frame1 5 23 (after 23)) = counter (after 23)
      \/ counter (loop_body true frame1 5 23 (after 23))
         = counter (after 23) + 1).
Proof.
  split; [vm_compute; reflexivity|].
  split.
  - apply (frame_left_at_doubled_terminator_only true frame1 5 25 (after 25)).
    + vm_compute. split; reflexivity.
    + vm_compute. reflexivity.
  - apply (frame_left_at_doubled_terminator_only true frame1 5 23 (after 23)).
    + vm_compute. split; reflexivity.
    + vm_compute. reflexivity.
Defined.

(** ** Finding the marker *)

Lemma run_snoc (sgn : bool) (buf : array) (fa : Z) (n : nat) :
  forall i s,
    run sgn buf fa (S n) i s
    = loop_body sgn buf fa (i + Z.of_nat n) (run sgn buf fa n i s).
Proof.
  induction n as [|n IH]; intros i s.
  - rewrite run_S, !run_O. replace (i + Z.of_nat 0) with i by (cbn; lia).
    reflexivity.
  - rewrite (run_S sgn buf fa (S n) i s), IH.
    rewrite (run_S sgn buf fa n i s), Nat2Z.inj_succ.
    replace (i + 1 + Z.of_nat n) with (i + Z.succ (Z.of_nat n)) by lia.
    reflexivity.
Qed.

(** Every iteration shifts the current byte into the four-byte history,
    whatever else it does. *)
Lemma loop_body_history (sgn : bool) (buf : array) (fa i : Z) (s : state) :
  let s' := loop_body sgn buf fa i s in
  w1 s' = load_u8 buf i /\ w2 s' = w1 s /\ w3 s' = w2 s /\ w4 s' = w3 s.
Proof.
  cbv zeta. pattern (loop_body sgn buf fa i s). apply loop_body_cases.
  - intros _.
    frame_rw w1 (seek sgn buf i). frame_rw w2 (seek sgn buf i).
    frame_rw w3 (seek sgn buf i). frame_rw w4 (seek sgn buf i).
    repeat split; reflexivity.
  - intros _ _. repeat split; reflexivity.
  - intros a Ha _ _.
    destruct (assemble_next_fields buf i s)
      as (_ & (E1 & E2 & E3 & E4 & _) & _).
    rewrite <- Ha in E1, E2, E3, E4. clear Ha.
    rewrite <- E1, <- E2, <- E3, <- E4. clear E1 E2 E3 E4.
    split; [|split; [|split; [|split]]]; intros.
    + repeat split; reflexivity.
    + frame_rw w1 (frame_end sgn fa). frame_rw w2 (frame_end sgn fa).
      frame_rw w3 (frame_end sgn fa). frame_rw w4 (frame_end sgn fa).
      repeat split; reflexivity.
    + repeat split; reflexivity.
    + repeat split; reflexivity.
    + frame_rw w1 record_hit. frame_rw w2 record_hit.
      frame_rw w3 record_hit. frame_rw w4 record_hit.
      repeat split; reflexivity.
Qed.

Lemma run_history (sgn : bool) (buf : array) (fa : Z) (n : nat) (i : Z)
    (s : state) :
  let s' := run sgn buf fa (3 + n) i s in
  w1 s' = load_u8 buf (i + Z.of_nat n + 2)
  /\ w2 s' = load_u8 buf (i + Z.of_nat n + 1)
  /\ w3 s' = load_u8 buf (i + Z.of_nat n).
Proof.
  cbv zeta. change (3 + n)%nat with (S (S (S n))).
  rewrite run_snoc.
  destruct (loop_body_history sgn buf fa (i + Z.of_nat (S (S n)))
              (run sgn buf fa (S (S n)) i s)) as (-> & -> & -> & _).
  rewrite run_snoc.
  destruct (loop_body_history sgn buf fa (i + Z.of_nat (S n))
              (run sgn buf fa (S n) i s)) as (-> & -> & _).
  rewrite run_snoc.
  destruct (loop_body_history sgn buf fa (i + Z.of_nat n)
              (run sgn buf fa n i s)) as (-> & _).
  rewrite !Nat2Z.inj_succ.
  replace (i + Z.succ (Z.succ (Z.of_nat n))) with (i + Z.of_nat n + 2) by lia.
  replace (i + Z.succ (Z.of_nat n)) with (i + Z.of_nat n + 1) by lia.
  repeat split; reflexivity.
Qed.

(** Once three bytes or more have been consumed, a decoder that is
    outside a frame when it gets to byte [j] enters a frame there exactly
    when the bytes [j - 3] to [j] are all [0xaa], whatever came before; it
    leaves the maps, the telemetry record, the frame counter and the
    pending row, column and code as they are. *)
Theorem marker_detection (sgn : bool) (buf : array) (fa : Z) (n : nat)
    (i : Z) (s : state) :
  let j := i + Z.of_nat n + 3 in
  let sj := run sgn buf fa (3 + n) i s in
  counter sj = 0 ->
  let s' := loop_body sgn buf fa j sj in
  counter s'
  = (if forallb (fun k => load_u8 buf k =? 0xaa) [j; j - 1; j - 2; j - 3]
     then 1 else 0)
  /\ odd s' = 1
  /\ (maps s' = maps sj /\ maps_temp s' = maps_temp sj
      /\ i2c_data s' = i2c_data sj /\ fcounter s' = fcounter sj
      /\ out s' = out sj)
  /\ (row s' = row sj /\ column s' = column sj /\ code s' = code sj
      /\ tsign s' = tsign sj).
Proof.
  cbv zeta. intros Hc.
  destruct (run_history sgn buf fa n i s) as (E1 & E2 & E3).
  generalize dependent (run sgn buf fa (3 + n) i s). intros sj Hc E1 E2 E3.
  rewrite (loop_body_seek sgn buf fa _ sj Hc).
  destruct (seek_fields sgn buf (i + Z.of_nat n + 3)
              (next_byte buf (i + Z.of_nat n + 3) sj))
    as (-> & -> & -> & -> & ->).
  pose proof (seek_frame sgn buf (i + Z.of_nat n + 3)
                (next_byte buf (i + Z.of_nat n + 3) sj)) as Hf.
  cbv beta in Hf. injection Hf as -> -> -> -> -> ->.
  st_cbn. unfold next_byte. st_cbn. rewrite E1, E2, E3, Hc.
  cbn [forallb].
  replace (i + Z.of_nat n + 3 - 1) with (i + Z.of_nat n + 2) by lia.
  replace (i + Z.of_nat n + 3 - 2) with (i + Z.of_nat n + 1) by lia.
  replace (i + Z.of_nat n + 3 - 3) with (i + Z.of_nat n) by lia.
  rewrite andb_true_r, !andb_assoc.
  split; [reflexivity|]. split; [reflexivity|].
  split; repeat split; reflexivity.
Qed.

Lemma marker_detection_witness :
  counter (run true frame1 5 3 0 start) = 0
  /\ counter (loop_body true frame1 5 3 (run true frame1 5 3 0 start)) = 1.
Proof.
  assert (H0 : counter (run true frame1 5 (3 + 0) 0 start) = 0)
    by (vm_compute; reflexivity).
  split; [exact H0|].
  destruct (marker_detection true frame1 5 0 0 start H0) as (H & _).
  etransitivity; [exact H|]. vm_compute. reflexivity.
Defined.

(** ** The staged telemetry bytes *)

Lemma staging_frozen (sgn : bool) (buf : array) (fa i : Z) (s : state) :
  counter s <> 0 ->
  i2c_data_temp (loop_body sgn buf fa i s) = i2c_data_temp s.
Proof.
  intros Hc. pattern (loop_body sgn buf fa i s). apply loop_body_cases.
  - intros H0. contradiction.
  - intros _ _. reflexivity.
  - intros a Ha _ _.
    destruct (assemble_next_fields buf i s)
      as (_ & _ & _ & (_ & _ & _ & E & _)).
    rewrite <- Ha in E. clear Ha. rewrite <- E. clear E.
    split; [|split; [|split; [|split]]]; intros.
    + reflexivity.
    + frame_rw i2c_data_temp (frame_end sgn fa). reflexivity.
    + reflexivity.
    + reflexivity.
    + frame_rw i2c_data_temp record_hit. reflexivity.
Qed.

Lemma staging_frozen_run (sgn : bool) (buf : array) (fa : Z) (n : nat) :
  forall i s,
    (forall k, (k < n)%nat -> counter (run sgn buf fa k i s) <> 0) ->
    i2c_data_temp (run sgn buf fa n i s) = i2c_data_temp s.
Proof.
  induction n as [|n IH]; intros i s H.
  - rewrite run_O. reflexivity.
  - rewrite run_snoc, staging_frozen by (apply H; lia).
    apply IH. intros k Hk. apply H. lia.
Qed.

(** While the decoder looks for the marker, every iteration copies the
    eight bytes that follow the current one into the staging array, those
    past the end of the buffer excepted; inside a frame the staging array
    is left alone.  When a frame ends, the telemetry is therefore computed
    from the eight bytes that follow the marker. *)
Theorem staging_follows_marker (sgn : bool) (buf : array) (fa i : Z)
    (s : state) :
  (counter s = 0 ->
   forall k,
     i2c_data_temp (loop_body sgn buf fa i s) k
     = if (0 <=? k) && (k <? 8) && (i + k <? buflen)
       then to_char sgn (load_u8 buf (i + k + 1))
       else i2c_data_temp s k)
  /\ (counter s <> 0 ->
      i2c_data_temp (loop_body sgn buf fa i s) = i2c_data_temp s)
  /\ (forall n,
        (forall k, (k < n)%nat -> counter (run sgn buf fa k i s) <> 0) ->
        i2c_data_temp (run sgn buf fa n i s) = i2c_data_temp s).
Proof.
  split; [|split].
  - intros Hc k. rewrite (loop_body_seek sgn buf fa i s Hc).
    rewrite seek_cells. reflexivity.
  - apply staging_frozen.
  - intros n. apply staging_frozen_run.
Qed.

(** ** The frame counter *)

Lemma fcounter_step (sgn : bool) (buf : array) (fa i : Z) (s : state) :
  0 < fa <= INT_MAX -> 0 <= fcounter s < fa ->
  fcounter (loop_body sgn buf fa i s)
  = (fcounter s + (if ends_frame buf i s then 1 else 0)) mod fa.
Proof.
  intros Hfa Hf. destruct (ends_frame buf i s) eqn:He.
  - rewrite (ends_frame_step sgn buf fa i s He).
    destruct (frame_end_fields sgn fa (assemble (next_byte buf i s)))
      as (_ & _ & ->).
    change (fcounter (assemble (next_byte buf i s))) with (fcounter s).
    rewrite s32_small by (unfold INT_MIN, INT_MAX in *; lia).
    destruct (Z.eqb_spec (fcounter s + 1) fa) as [E|E].
    + rewrite E, Z.mod_same by lia. reflexivity.
    + rewrite Z.mod_small by lia. reflexivity.
  - destruct (other_step sgn buf fa i s He) as (_ & ->).
    rewrite Z.add_0_r, Z.mod_small by lia. reflexivity.
Qed.

Lemma fcounter_run (sgn : bool) (buf : array) (fa : Z) (n : nat) :
  forall i s,
    0 < fa <= INT_MAX -> 0 <= fcounter s < fa ->
    fcounter (run sgn buf fa n i s)
    = (fcounter s + frames sgn buf fa n i s) mod fa.
Proof.
  induction n as [|n IH]; intros i s Hfa Hf.
  - rewrite run_O, frames_O, Z.add_0_r, Z.mod_small by lia. reflexivity.
  - rewrite run_S, frames_S.
    pose proof (fcounter_step sgn buf fa i s Hfa Hf) as Hs.
    rewrite IH; [|exact Hfa|rewrite Hs; apply Z.mod_pos_bound; lia].
    rewrite Hs, Z.add_mod_idemp_l by lia.
    f_equal. lia.
Qed.

(** With a commit period [framadd] between 1 and [INT_MAX] and a frame
    counter that starts below it, the frame counter after any number of
    bytes is its initial value plus the number of frames completed, modulo
    the period. *)
Theorem fcounter_counts_frames_modulo (sgn : bool) (buf : array) (fa : Z) :
  0 < fa <= INT_MAX ->
  (forall n i s,
     0 <= fcounter s < fa ->
     fcounter (run sgn buf fa n i s)
     = (fcounter s + frames sgn buf fa n i s) mod fa)
  /\ (forall garbage m t d f,
        0 <= f < fa ->
        fcounter (data_cal sgn garbage buf m t d f fa)
        = (f + frames sgn buf fa (Z.to_nat buflen) 0 (init garbage m t d f))
          mod fa).
Proof.
  intros Hfa. split.
  - intros n i s Hf. apply fcounter_run; assumption.
  - intros garbage m t d f Hf. rewrite data_cal_run.
    apply (fcounter_run sgn buf fa (Z.to_nat buflen) 0
             (init garbage m t d f) Hfa Hf).
Qed.

Lemma fcounter_counts_frames_modulo_witness :
  fcounter (run true frame1 5 26 0 start) = 1 mod 5
  /\ frames true frame1 5 26 0 start = 1.
Proof.
  assert (F : frames true frame1 5 26 0 start = 1)
    by (vm_compute; reflexivity).
  split; [|exact F].
  destruct (fcounter_counts_frames_modulo true frame1 5) as [H _].
  - vm_compute. split; [reflexivity|discriminate].
  - rewrite H, F by (cbn [fcounter start init]; lia). reflexivity.
Defined.

(** ** A commit threshold that is missed *)

Lemma frames_le (sgn : bool) (buf : array) (fa : Z) (n : nat) :
  forall i s, frames sgn buf fa n i s <= Z.of_nat n.
Proof.
  induction n as [|n IH]; intros i s.
  - rewrite frames_O. cbn. lia.
  - rewrite frames_S, Nat2Z.inj_succ.
    specialize (IH (i + 1) (loop_body sgn buf fa i s)).
    destruct (ends_frame buf i s); lia.
Qed.

Lemma past_threshold_run (sgn : bool) (buf : array) (fa : Z) (n : nat) :
  forall i s,
    fa <= fcounter s -> INT_MIN <= fcounter s ->
    fcounter s + Z.of_nat n <= INT_MAX ->
    maps (run sgn buf fa n i s) = maps s
    /\ fcounter (run sgn buf fa n i s)
       = fcounter s + frames sgn buf fa n i s.
Proof.
  induction n as [|n IH]; intros i s Hfa Hlo Hhi.
  - rewrite run_O, frames_O. split; [reflexivity|lia].
  - rewrite run_S, frames_S. rewrite Nat2Z.inj_succ in Hhi.
    assert (Hs : maps (loop_body sgn buf fa i s) = maps s
                 /\ fcounter (loop_body sgn buf fa i s)
                    = fcounter s + (if ends_frame buf i s then 1 else 0)).
    { destruct (ends_frame buf i s) eqn:He.
      - rewrite (ends_frame_step sgn buf fa i s He).
        destruct (frame_end_not_due sgn fa (assemble (next_byte buf i s)))
          as (Ef & Em & _).
        + change (fcounter (assemble (next_byte buf i s)))
            with (fcounter s).
          rewrite s32_small by (unfold INT_MIN, INT_MAX in *; lia). lia.
        + rewrite Ef, Em.
          change (fcounter (assemble (next_byte buf i s)))
            with (fcounter s).
          rewrite s32_small by (unfold INT_MIN, INT_MAX in *; lia).
          split; reflexivity.
      - destruct (other_step sgn buf fa i s He) as (-> & ->).
        split; [reflexivity|lia]. }
    destruct Hs as [Hm Hf].
    destruct (IH (i + 1) (loop_body sgn buf fa i s)) as [IHm IHf].
    + rewrite Hf. destruct (ends_frame buf i s); lia.
    + rewrite Hf. destruct (ends_frame buf i s); lia.
    + rewrite Hf. destruct (ends_frame buf i s); lia.
    + rewrite IHm, IHf, Hm, Hf. split; [reflexivity|lia].
Qed.

(** The commit is triggered by the frame counter being equal to
    [framadd] right after its increment.  A counter that is already at
    [framadd] or above it, which includes any [framadd] of 0 or less with a
    counter that is not negative, never triggers it: [maps] is never
    written and the counter only grows. *)
Theorem missed_threshold_never_commits (sgn : bool) (buf : array) (fa : Z) :
  (forall n i s,
     fa <= fcounter s -> INT_MIN <= fcounter s ->
     fcounter s + Z.of_nat n <= INT_MAX ->
     maps (run sgn buf fa n i s) = maps s
     /\ fcounter (run sgn buf fa n i s)
        = fcounter s + frames sgn buf fa n i s)
  /\ (forall garbage m t d f,
        fa <= f -> INT_MIN <= f -> f + buflen <= INT_MAX ->
        maps (data_cal sgn garbage buf m t d f fa) = m
        /\ fcounter (data_cal sgn garbage buf m t d f fa)
           = f + frames sgn buf fa (Z.to_nat buflen) 0
                   (init garbage m t d f)).
Proof.
  split.
  - intros n. apply past_threshold_run.
  - intros garbage m t d f Hfa Hlo Hhi. rewrite data_cal_run.
    apply (past_threshold_run sgn buf fa (Z.to_nat buflen) 0
             (init garbage m t d f)); [exact Hfa|exact Hlo|].
    rewrite Z2Nat.id by (unfold buflen, datanum; lia). exact Hhi.
Qed.

Lemma missed_threshold_never_commits_witness :
  maps (run true frame1 0 26 0 start) = zeros
  /\ fcounter (run true frame1 0 26 0 start) = 1.
Proof.
  destruct (missed_threshold_never_commits true frame1 0) as [H _].
  destruct (H 26%nat 0 start) as [Hm Hf].
  - cbn [fcounter start init]. lia.
  - vm_compute. discriminate.
  - vm_compute. discriminate.
  - split; [exact Hm|]. rewrite Hf. vm_compute. reflexivity.
Defined.

(** ** What is printed *)





(** * [wdtest] *)

Lemma print_lt_count (lo hi : Z) (body : Z -> list printed -> list printed)
    (o : list printed) :
  lo <= hi ->
  exists n : nat,
    Z.of_nat n = hi - lo /\ print_lt lo hi body o = print_up n lo body o.
Proof.
  intros H. exists (Z.to_nat (hi - lo)). split; [lia|reflexivity].
Qed.

Lemma print_up_S (n : nat) (j : Z)
    (body : Z -> list printed -> list printed) (o : list printed) :
  print_up (S n) j body o = print_up n (j + 1) body (body j o).
Proof. reflexivity. Qed.

(** A loop whose body appends to the output: what it prints, in terms of
    what each round adds.  [I b o] reads: [o] is in scan order and all its
    items come before position [b]. *)
Lemma sorted_app (o : list printed) (x : printed) :
  StronglySorted (fun a b => position a < position b) o ->
  (forall y, In y o -> position y < position x) ->
  StronglySorted (fun a b => position a < position b) (o ++ [x]).
Proof.
  intros Hs. induction Hs as [|a o Ho IH Ha]; intros Hx.
  - cbn. constructor; [constructor|constructor].
  - cbn. constructor.
    + apply IH. intros y Hy. apply Hx. right. exact Hy.
    + apply Forall_app. split; [exact Ha|].
      constructor; [|constructor]. apply Hx. left. reflexivity.
Qed.

Lemma row_scan (musk : array) (l : Z) (n : nat) :
  forall m0 o,
    0 <= m0 ->
    let body := fun (m : Z) (o : list printed) =>
      if negb (load_s32 musk (l * 960 + m) =? 0) then o ++ [Pair l m]
      else o in
    let o' := print_up n m0 body o in
    (forall x, In x o' <->
       In x o \/ exists m, m0 <= m < m0 + Z.of_nat n
                           /\ load_s32 musk (l * 960 + m) <> 0
                           /\ x = Pair l m)
    /\ (StronglySorted (fun a b => position a < position b) o ->
        (forall y, In y o -> position y < l * 960 + m0) ->
        StronglySorted (fun a b => position a < position b) o'
        /\ forall y, In y o' -> position y < l * 960 + m0 + Z.of_nat n)
    /\ exists tl, o' = o ++ tl.
Proof.
  induction n as [|n IH]; intros m0 o Hm0; cbv zeta.
  - cbn [print_up]. split; [|split].
    + intros x. split; [intros H; left; exact H|].
      intros [H|(m & Hm & _)]; [exact H|cbn in Hm; lia].
    + intros Hs Hb. split; [exact Hs|].
      intros y Hy. specialize (Hb y Hy). cbn. lia.
    + exists []. rewrite app_nil_r. reflexivity.
  - rewrite print_up_S, Nat2Z.inj_succ.
    destruct (IH (m0 + 1)
                (if negb (load_s32 musk (l * 960 + m0) =? 0)
                 then o ++ [Pair l m0] else o) ltac:(lia))
      as (IHin & IHs & (tl & IHtl)).
    split; [|split].
    + intros x. rewrite IHin. clear IHin IHs IHtl.
      destruct (Z.eqb_spec (load_s32 musk (l * 960 + m0)) 0) as [E|E];
        cbn [negb].
      * split.
        -- intros [H|(m & Hm & Hz & Hx)]; [left; exact H|].
           right. exists m. split; [lia|]. split; assumption.
        -- intros [H|(m & Hm & Hz & Hx)]; [left; exact H|].
           right. exists m. split; [|split; assumption].
           destruct (Z.eq_dec m m0) as [->|Hne]; [contradiction|lia].
      * rewrite in_app_iff. cbn [In]. split.
        -- intros [[H|[H|[]]]|(m & Hm & Hz & Hx)].
           ++ left. exact H.
           ++ right. exists m0. split; [lia|]. split; [exact E|].
              symmetry. exact H.
           ++ right. exists m. split; [lia|]. split; assumption.
        -- intros [H|(m & Hm & Hz & Hx)]; [left; left; exact H|].
           destruct (Z.eq_dec m m0) as [->|Hne].
           ++ left. right. left. symmetry. exact Hx.
           ++ right. exists m. split; [lia|]. split; assumption.
    + intros Hs Hb.
      replace (l * 960 + m0 + Z.succ (Z.of_nat n))
        with (l * 960 + (m0 + 1) + Z.of_nat n) by lia.
      apply IHs.
      * destruct (negb _); [|exact Hs].
        apply sorted_app; [exact Hs|]. intros y Hy. cbn [position].
        apply Hb. exact Hy.
      * intros y Hy. destruct (negb _).
        -- apply in_app_iff in Hy. destruct Hy as [Hy|[<-|[]]].
           ++ specialize (Hb y Hy). lia.
           ++ cbn [position]. lia.
        -- specialize (Hb y Hy). lia.
    + rewrite IHtl. destruct (negb _).
      * exists ([Pair l m0] ++ tl). rewrite app_assoc. reflexivity.
      * exists tl. reflexivity.
Qed.

Lemma grid_scan (musk : array) (n : nat) :
  forall l0 o,
    0 <= l0 ->
    let inner := fun (l : Z) =>
      print_lt 0 960 (fun (m : Z) (o : list printed) =>
        if negb (load_s32 musk (l * 960 + m) =? 0) then o ++ [Pair l m]
        else o) in
    let o' := print_up n l0 inner o in
    (forall x, In x o' <->
       In x o \/ exists l m, l0 <= l < l0 + Z.of_nat n /\ 0 <= m < 960
                             /\ load_s32 musk (l * 960 + m) <> 0
                             /\ x = Pair l m)
    /\ (StronglySorted (fun a b => position a < position b) o ->
        (forall y, In y o -> position y < l0 * 960) ->
        StronglySorted (fun a b => position a < position b) o')
    /\ exists tl, o' = o ++ tl.
Proof.
  induction n as [|n IH]; intros l0 o Hl0; cbv zeta.
  - cbn [print_up]. split; [|split].
    + intros x. split; [intros H; left; exact H|].
      intros [H|(l & m & Hl & _)]; [exact H|cbn in Hl; lia].
    + intros Hs _. exact Hs.
    + exists []. rewrite app_nil_r. reflexivity.
  - rewrite print_up_S, Nat2Z.inj_succ.
    match goal with
    | |- context [print_lt 0 960 ?body o] =>
        destruct (print_lt_count 0 960 body o) as (k & Hk & Ek); [lia|];
        destruct (row_scan musk l0 k 0 o) as (Rin & Rs & (tl1 & Rtl));
        [lia|]; cbv beta in Ek; rewrite Ek; clear Ek;
        generalize dependent (print_up k 0 body o)
    end.
    intros o1 Rin Rs Rtl.
    destruct (IH (l0 + 1) o1 ltac:(lia)) as (IHin & IHs & (tl2 & IHtl)).
    split; [|split].
    + intros x. rewrite IHin. rewrite Rin. clear IHin IHs IHtl Rin Rs Rtl.
      split.
      * intros [[H|(m & Hm & Hz & Hx)]|(l & m & Hl & Hm & Hz & Hx)].
        -- left. exact H.
        -- right. exists l0, m. split; [lia|]. split; [lia|].
           split; assumption.
        -- right. exists l, m. split; [lia|]. split; [lia|].
           split; assumption.
      * intros [H|(l & m & Hl & Hm & Hz & Hx)]; [left; left; exact H|].
        destruct (Z.eq_dec l l0) as [->|Hne].
        -- left. right. exists m. split; [lia|]. split; assumption.
        -- right. exists l, m. split; [lia|]. split; [lia|].
           split; assumption.
    + intros Hs Hb.
      destruct Rs as [Rs1 Rs2]; [exact Hs| |].
      * intros y Hy. specialize (Hb y Hy). lia.
      * apply IHs; [exact Rs1|].
        intros y Hy. specialize (Rs2 y Hy). lia.
    + rewrite IHtl, Rtl. exists (tl1 ++ tl2). rewrite app_assoc. reflexivity.
Qed.

(** [wdtest] prints the greeting first, then one pair of indices for
    every cell of the 928 x 960 grid whose entry in [musk] is not zero,
    and nothing else; the pairs come in the order of the scan, row after
    row, each once. *)
Theorem wdtest_output (musk : array) :
  (exists tl, wdtest musk = Hello :: tl)
  /\ (forall l m,
        In (Pair l m) (wdtest musk)
        <-> 0 <= l < 928 /\ 0 <= m < 960
            /\ load_s32 musk (l * 960 + m) <> 0)
  /\ StronglySorted (fun a b => position a < position b) (wdtest musk).
Proof.
  unfold wdtest.
  match goal with
  | |- context [print_lt 0 928 ?body [Hello]] =>
      destruct (print_lt_count 0 928 body [Hello]) as (n & Hn & ->); [lia|]
  end.
  destruct (grid_scan musk n 0 [Hello]) as (Hin & Hs & (tl & Htl)); [lia|].
  cbv beta in Hin, Hs, Htl.
  split; [|split].
  - exists tl. rewrite Htl. reflexivity.
  - intros l m. rewrite Hin. cbn [In]. split.
    + intros [[H|[]]|(l' & m' & Hl & Hm & Hz & Hx)]; [discriminate H|].
      injection Hx as -> ->. split; [lia|]. split; [lia|exact Hz].
    + intros (Hl & Hm & Hz). right. exists l, m.
      split; [lia|]. split; [lia|]. split; [exact Hz|reflexivity].
  - apply Hs.
    + constructor; constructor.
    + intros y [<-|[]]. cbn [position]. lia.
Qed.

(** ** Whole-buffer runs *)

(** C5 fails on the code where plain [char] is signed.  The telemetry
    block of [frame3] is staged in a [char] array, so its bytes above [0x7f]
    are sign-extended: the frame is decoded with a frame counter of
    [0x10183], a temperature of [4294967172] and a channel value of 395,
    whereas the formulas of the telemetry format give [0x10283], [0x84] and
    651 on the staged bytes. *)
Theorem telemetry_signed_char_run :
  let s := data_cal true zeros frame3 zeros zeros zeros 0 5 in
  let b := fun k => load_u8 frame3 (4 + k) in
  (fcounter s, i2c_data s 0, i2c_data s 2, i2c_data s 6, i2c_data s 7,
   Z.lor (Z.lor (Z.shiftl (Z.land (b 1) 0x0f) 16) (Z.shiftl (b 2) 8)) (b 3),
   Z.shiftr (Z.shiftl (b 4) 2 + Z.shiftr (b 5) 6) 2,
   Z.shiftl (Z.land (b 6) 0x03) 8 + b 7)
  = (1, 0x10183, 4294967172, 395, 3, 0x10283, 0x84, 651).
Proof.
  vm_cast_no_check
    (eq_refl (1, 0x10183, 4294967172, 395, 3, 0x10283, 0x84, 651)).
Qed.

(** C6 fails on the code.  With the marker in the last four bytes of the
    buffer, [data_cal] detects it at the last index and then reads
    [databuf[buflen]], past the end of the buffer. *)
Theorem marker_at_end_reads_past_buffer :
  let s := data_cal true zeros marker_at_end zeros zeros zeros 0 5 in
  (counter s, hd 0 (reads s), existsb (fun i => buflen <=? i) (reads s))
  = (1, buflen, true).
Proof. vm_cast_no_check (eq_refl (1, 80000, true)). Qed.
